(** * radar2geo: geocoding driver of PySAR (src/pysar/radar2geo.py)

    A shallow embedding of the command-line driver that resamples
    radar-coded files into geographic coordinates: option parsing
    ([cmd_line_parse]), template merging ([read_template2inps]), metadata
    update ([update_attribute]), the per-file pipeline ([geocode_file]) and
    the entry point ([main]).

    Python values are modelled as a small tagged union, Python floats as
    IEEE-754 binary64 (the kernel's primitive floats), dictionaries as
    [gmap string pyval] living in a store of objects, and the code itself in
    a state-and-exception monad whose state carries the outside world, the
    object store and the log of observable events. *)

From Stdlib Require Import ZArith String Ascii Floats Uint63 DecimalString.
From stdpp Require Import gmap strings list.

Open Scope Z_scope.

(* ================================================================== *)
(** ** Python values and builtins *)
(* ================================================================== *)

Module Py.

(** Exceptions the driver can meet.  [ExternalError] stands for whatever a
    collaborator (argparse, readfile, writefile, utils, resample) raises. *)
Inductive exn : Type :=
| KeyError (key : string)
| ValueError
| TypeError
| AttributeError
| IndexError
| ZeroDivisionError
| OverflowError
| ExternalError (what : string).

(** The outcome of running a piece of Python code: a value, an exception
    propagating to the caller, or [sys.exit(msg)] (the interpreter prints
    [msg] on stderr and terminates the process with status 1). *)
Inductive result (A : Type) : Type :=
| Ok (a : A)
| Raise (e : exn)
| Exit (msg : string).
Arguments Ok {A} a.
Arguments Raise {A} e.
Arguments Exit {A} msg.

Definition is_ok {A} (r : result A) : bool :=
  match r with Ok _ => true | _ => false end.

Definition rbind {A B} (r : result A) (k : A -> result B) : result B :=
  match r with
  | Ok a => k a
  | Raise e => Raise e
  | Exit m => Exit m
  end.

(** Scalars stored in metadata dictionaries, templates and options. *)
Inductive pyval : Type :=
| PNone
| PBool (b : bool)
| PInt (z : Z)
| PFloat (f : float)
| PStr (s : string).

(** [bool(v)], as used by [if value:] and [not x]. *)
Definition truthy (v : pyval) : bool :=
  match v with
  | PNone => false
  | PBool b => b
  | PInt z => negb (z =? 0)
  | PFloat f => negb (f =? 0)%float
  | PStr s => negb (String.eqb s "")
  end.

(** Truth value of an optional string ([None] and [''] are false). *)
Definition str_truthy (o : option string) : bool :=
  match o with
  | Some s => negb (String.eqb s "")
  | None => false
  end.

(** *** Strings *)

(** [s.split(sep)] for a one-character separator. *)
Fixpoint split (sep : ascii) (s : string) : list string :=
  match s with
  | EmptyString => [EmptyString]
  | String c r =>
      if Ascii.eqb c sep then EmptyString :: split sep r
      else match split sep r with
           | [] => [String c EmptyString]
           | w :: ws => String c w :: ws
           end
  end.

Definition lower_ascii (c : ascii) : ascii :=
  let n := N_of_ascii c in
  if ((65 <=? n) && (n <=? 90))%N then ascii_of_N (n + 32) else c.

(** [s.lower()] on ASCII text. *)
Fixpoint lower (s : string) : string :=
  match s with
  | EmptyString => EmptyString
  | String c r => String (lower_ascii c) (lower r)
  end.

(** [needle in hay] for strings. *)
Fixpoint contains (needle hay : string) : bool :=
  String.prefix needle hay
  || match hay with
     | EmptyString => false
     | String _ r => contains needle r
     end.

(** [s.count(c)] for a one-character [c]. *)
Fixpoint count_char (c : ascii) (s : string) : nat :=
  match s with
  | EmptyString => O
  | String a r => (if Ascii.eqb a c then 1 else 0) + count_char c r
  end.

(** [str(n)] for an integer. *)
Definition str_of_int (n : Z) : string :=
  NilZero.string_of_int (Z.to_int n).

(** [c * n] for a one-character string: [n] copies. *)
Fixpoint repeat_char (c : ascii) (n : nat) : string :=
  match n with
  | O => EmptyString
  | S k => String c (repeat_char c k)
  end.

(** *** Numbers *)

(** Conversion of a Python integer to a float, rounding to nearest even;
    [OverflowError] when the integer is too large for binary64. *)
Definition float_of_int (n : Z) : result float :=
  let f := SF2Prim (binary_normalize prec emax n 0 false) in
  if is_infinity f then Raise OverflowError else Ok f.

(** [x / n] for a Python float and a Python integer. *)
Definition truediv_int (x : float) (n : Z) : result float :=
  if n =? 0 then Raise ZeroDivisionError
  else rbind (float_of_int n) (fun d => Ok (x / d)%float).

(** Nearest integer to m * 2^(-k), ties to even. *)
Definition round_half_even (m : Z) (k : Z) : Z :=
  let d := 2 ^ k in
  let q := m / d in
  let r := m mod d in
  if 2 * r <? d then q
  else if d <? 2 * r then q + 1
  else if Z.even q then q else q + 1.

(** [np.rint(x)]: round to the nearest integral float, ties to even. *)
Definition rint (x : float) : float :=
  match Prim2SF x with
  | S754_finite s m e =>
      if 0 <=? e then x
      else
        let r := of_uint63 (Uint63.of_Z (round_half_even (Z.pos m) (- e))) in
        if s then (- r)%float else r
  | _ => x
  end.

(** [int(x)] for a float: truncation toward zero. *)
Definition int_of_float (x : float) : result Z :=
  match Prim2SF x with
  | S754_zero _ => Ok 0
  | S754_infinity _ => Raise OverflowError
  | S754_nan => Raise ValueError
  | S754_finite s m e =>
      let a := if 0 <=? e then Z.pos m * 2 ^ e else Z.pos m / 2 ^ (- e) in
      Ok (if s then - a else a)
  end.

End Py.
Export Py.

Example split_snwe : split "," "-1.2,0.5,-92,-91" = ["-1.2"; "0.5"; "-92"; "-91"]%string.
Proof. reflexivity. Qed.

Example split_trailing : split "," "a," = ["a"; ""]%string.
Proof. reflexivity. Qed.

Example contains_nan : contains "nan" (lower "np.NaN") = true.
Proof. reflexivity. Qed.

Example rint_ties : (rint 2.5 = 2 /\ rint 3.5 = 4 /\ rint (-0.5) = (-0))%float.
Proof. vm_compute. auto. Qed.

Example int_of_float_trunc : int_of_float (-7.75)%float = Ok (-7).
Proof. vm_compute. reflexivity. Qed.

Example truediv_third : truediv_int 1%float 4 = Ok 0.25%float.
Proof. vm_compute. reflexivity. Qed.

(* ================================================================== *)
(** ** os.path on POSIX *)
(* ================================================================== *)

Module PosixPath.

Definition is_slash (c : ascii) : bool := Ascii.eqb c "/".

Fixpoint has_slash (s : string) : bool :=
  match s with
  | EmptyString => false
  | String c r => is_slash c || has_slash r
  end.

(** [p[:i]] with [i = p.rfind('/') + 1]: everything up to and including
    the last slash. *)
Fixpoint head (p : string) : string :=
  match p with
  | EmptyString => EmptyString
  | String c r =>
      if has_slash r then String c (head r)
      else if is_slash c then String c EmptyString
      else EmptyString
  end.

(** [os.path.basename(p)]: [p[i:]] with [i = p.rfind('/') + 1]. *)
Fixpoint basename (p : string) : string :=
  match p with
  | EmptyString => EmptyString
  | String c r =>
      if has_slash r then basename r
      else if is_slash c then r
      else p
  end.

Fixpoint all_slashes (s : string) : bool :=
  match s with
  | EmptyString => true
  | String c r => is_slash c && all_slashes r
  end.

(** [s.rstrip('/')]. *)
Fixpoint rstrip_slash (s : string) : string :=
  match s with
  | EmptyString => EmptyString
  | String c r =>
      match rstrip_slash r with
      | EmptyString => if is_slash c then EmptyString else String c EmptyString
      | r' => String c r'
      end
  end.

(** [os.path.dirname(p)]: the head, without its trailing slashes unless it
    consists of slashes only. *)
Definition dirname (p : string) : string :=
  let h := head p in
  if negb (String.eqb h "") && negb (all_slashes h) then rstrip_slash h else h.

Fixpoint ends_with_slash (s : string) : bool :=
  match s with
  | EmptyString => false
  | String c EmptyString => is_slash c
  | String _ r => ends_with_slash r
  end.

(** [os.path.join(a, b)] for two components. *)
Definition join (a b : string) : string :=
  if String.prefix "/" b then b
  else if String.eqb a "" || ends_with_slash a then a +:+ b
  else a +:+ "/" +:+ b.

(** A directory part: empty, or ending in a slash. *)
Definition dir_part (a : string) : Prop := a = ""%string \/ ends_with_slash a = true.

(** The directory that [join] puts in front of a relative name. *)
Definition join_dir (a : string) : string :=
  if String.eqb a "" || ends_with_slash a then a else a +:+ "/".

(** What [dirname] does to the head of a path. *)
Definition strip_dir (h : string) : string :=
  if negb (String.eqb h "") && negb (all_slashes h) then rstrip_slash h else h.

End PosixPath.

Example dirname_nested : PosixPath.dirname "/data/run1/velocity.h5" = "/data/run1"%string.
Proof. reflexivity. Qed.

Example dirname_bare : PosixPath.dirname "velocity.h5" = ""%string.
Proof. reflexivity. Qed.

Example dirname_root : PosixPath.dirname "/velocity.h5" = "/"%string.
Proof. reflexivity. Qed.

Example basename_nested : PosixPath.basename "/data/run1/velocity.h5" = "velocity.h5"%string.
Proof. reflexivity. Qed.

Example join_bare : PosixPath.join "" "geo_velocity.h5" = "geo_velocity.h5"%string.
Proof. reflexivity. Qed.

Example join_nested : PosixPath.join "/data/run1" "geo_velocity.h5" = "/data/run1/geo_velocity.h5"%string.
Proof. reflexivity. Qed.

(* ================================================================== *)
(** ** Options and collaborators *)
(* ================================================================== *)

(** A metadata or template dictionary. *)
Abbreviation dict := (gmap string pyval).

(** The options record: the [argparse.Namespace] built by [create_parser]
    (one attribute per [dest]) together with the attributes the driver adds
    later.  An attribute that was never set is [None].  [G] is the type of
    pyresample geometry definitions. *)
Record Namespace (G : Type) : Type := {
  file : list string;                 (* nargs='+' *)
  lookupFile : option string;         (* -l *)
  templateFile : option string;       (* -t *)
  SNWE : option (list float);         (* -b, type=float, nargs=4 *)
  latStep : option float;             (* -y *)
  lonStep : option float;             (* -x *)
  interpMethod : pyval;               (* -i, default 'nearest' *)
  fillValue : float;                  (* --fill, default np.nan *)
  outfile : option (list string);     (* -o, nargs='*' *)
  laloStep : option (float * float);
  src_def : option G;
  dest_def : option G;
  outShape : option (list Z)
}.
Arguments Build_Namespace {G}.
Arguments file {G}.
Arguments lookupFile {G}.
Arguments templateFile {G}.
Arguments SNWE {G}.
Arguments latStep {G}.
Arguments lonStep {G}.
Arguments interpMethod {G}.
Arguments fillValue {G}.
Arguments outfile {G}.
Arguments laloStep {G}.
Arguments src_def {G}.
Arguments dest_def {G}.
Arguments outShape {G}.

Section Setters.
Context {G : Type}.
Implicit Type i : Namespace G.

Definition set_file v i := Build_Namespace v (lookupFile i) (templateFile i) (SNWE i)
  (latStep i) (lonStep i) (interpMethod i) (fillValue i) (outfile i) (laloStep i)
  (src_def i) (dest_def i) (outShape i).
Definition set_lookupFile v i := Build_Namespace (file i) v (templateFile i) (SNWE i)
  (latStep i) (lonStep i) (interpMethod i) (fillValue i) (outfile i) (laloStep i)
  (src_def i) (dest_def i) (outShape i).
Definition set_templateFile v i := Build_Namespace (file i) (lookupFile i) v (SNWE i)
  (latStep i) (lonStep i) (interpMethod i) (fillValue i) (outfile i) (laloStep i)
  (src_def i) (dest_def i) (outShape i).
Definition set_SNWE v i := Build_Namespace (file i) (lookupFile i) (templateFile i) v
  (latStep i) (lonStep i) (interpMethod i) (fillValue i) (outfile i) (laloStep i)
  (src_def i) (dest_def i) (outShape i).
Definition set_latStep v i := Build_Namespace (file i) (lookupFile i) (templateFile i) (SNWE i)
  v (lonStep i) (interpMethod i) (fillValue i) (outfile i) (laloStep i)
  (src_def i) (dest_def i) (outShape i).
Definition set_lonStep v i := Build_Namespace (file i) (lookupFile i) (templateFile i) (SNWE i)
  (latStep i) v (interpMethod i) (fillValue i) (outfile i) (laloStep i)
  (src_def i) (dest_def i) (outShape i).
Definition set_interpMethod v i := Build_Namespace (file i) (lookupFile i) (templateFile i)
  (SNWE i) (latStep i) (lonStep i) v (fillValue i) (outfile i) (laloStep i)
  (src_def i) (dest_def i) (outShape i).
Definition set_fillValue v i := Build_Namespace (file i) (lookupFile i) (templateFile i)
  (SNWE i) (latStep i) (lonStep i) (interpMethod i) v (outfile i) (laloStep i)
  (src_def i) (dest_def i) (outShape i).
Definition set_outfile v i := Build_Namespace (file i) (lookupFile i) (templateFile i) (SNWE i)
  (latStep i) (lonStep i) (interpMethod i) (fillValue i) v (laloStep i)
  (src_def i) (dest_def i) (outShape i).
Definition set_laloStep v i := Build_Namespace (file i) (lookupFile i) (templateFile i) (SNWE i)
  (latStep i) (lonStep i) (interpMethod i) (fillValue i) (outfile i) v
  (src_def i) (dest_def i) (outShape i).
Definition set_src_def v i := Build_Namespace (file i) (lookupFile i) (templateFile i) (SNWE i)
  (latStep i) (lonStep i) (interpMethod i) (fillValue i) (outfile i) (laloStep i)
  v (dest_def i) (outShape i).
Definition set_dest_def v i := Build_Namespace (file i) (lookupFile i) (templateFile i) (SNWE i)
  (latStep i) (lonStep i) (interpMethod i) (fillValue i) (outfile i) (laloStep i)
  (src_def i) v (outShape i).
Definition set_outShape v i := Build_Namespace (file i) (lookupFile i) (templateFile i) (SNWE i)
  (latStep i) (lonStep i) (interpMethod i) (fillValue i) (outfile i) (laloStep i)
  (src_def i) (dest_def i) v.

End Setters.

(** The collaborators of the driver, none of them part of this file: the
    types they own (the state of the outside world with its file system,
    clock and [sys.argv]; numpy arrays; pyresample geometry definitions; the
    [resample] object), Python's text conversions, numpy, argparse run on
    the parser of [create_parser], [pysar.utils], [pysar.objects.resample]
    and the clock.  A call into a collaborator may change the world, and it
    returns, raises or exits. *)
Class Externals : Type := {
  world : Type;
  ndarray : Type;
  geometry : Type;
  resampler : Type;
  float_of_str : string -> option float;   (* float(s); None is ValueError *)
  int_of_str : string -> option Z;         (* int(s); None is ValueError *)
  str_of_float : float -> string;          (* str(x) *)
  format_2f : float -> string;             (* '{:.2f}'.format(x) *)
  np_shape : ndarray -> list Z;
  np_moveaxis : ndarray -> Z -> Z -> ndarray;
  parse_args : option (list string) -> world -> result (Namespace geometry) * world;
  get_file_list : list string -> world -> result (list string) * world;
  get_lookup_file : option string -> world -> result (option string) * world;
  read_template : string -> world -> result dict * world;
  check_template_auto_value : dict -> world -> result dict * world;
  radar2glob : Z -> Z -> option string -> dict -> world -> result (float * float) * world;
  readfile_read : string -> world -> result (ndarray * dict) * world;
  writefile_write : ndarray -> dict -> string -> string -> world -> result unit * world;
  resample_new :
    option string -> string -> option (list float) -> option float ->
    world -> result resampler * world;
  get_geometry_definition :
    resampler -> world -> result (geometry * geometry * option (list float)) * world;
  resample_resample :
    resampler -> ndarray -> geometry -> geometry -> pyval -> float ->
    world -> result ndarray * world;
  time_time : world -> result float * world
}.

(* ================================================================== *)
(** ** The driver *)
(* ================================================================== *)

(** The options of a run. *)
Abbreviation options := (Namespace geometry).

Section Radar2Geo.

Context {ext : Externals}.

(** What an observer of the process sees, in order: text printed, warnings
    issued, and the calls that build and use the resampler and that read
    and write raster files, each with its arguments. *)
Inductive event : Type :=
| EvPrint (text : string)
| EvWarn (text : string)
| EvResampleNew (lookup : option string) (dataFile : string)
    (snwe : option (list float)) (lalo_step : option float)
| EvGeometryDefinition (res_obj : resampler)
| EvRead (infile : string)
| EvResample (res_obj : resampler) (data : ndarray) (src dst : geometry)
    (interp : pyval) (fill : float)
| EvWrite (data : ndarray) (atr : dict) (out_file in_file : string).

(** A reference to a dictionary object in the store. *)
Definition loc := nat.

Record state : Type := {
  st_world : world;
  st_heap : list dict;
  st_trace : list event
}.

(** ** The monad of the driver: state and early termination *)

Definition M (A : Type) : Type := state -> result A * state.

#[global] Instance M_ret : MRet M := fun A a σ => (Ok a, σ).
#[global] Instance M_bind : MBind M := fun A B k m σ =>
  match m σ with
  | (Ok a, σ') => k a σ'
  | (Raise e, σ') => (Raise e, σ')
  | (Exit msg, σ') => (Exit msg, σ')
  end.

Definition raise {A} (e : exn) : M A := fun σ => (Raise e, σ).

(** [sys.exit(msg)]. *)
Definition sys_exit {A} (msg : string) : M A := fun σ => (Exit msg, σ).

Definition lift {A} (r : result A) : M A := fun σ => (r, σ).

Definition call {A} (f : world -> result A * world) : M A := fun σ =>
  let '(r, w) := f (st_world σ) in
  (r, {| st_world := w; st_heap := st_heap σ; st_trace := st_trace σ |}).

Definition emit (e : event) : M unit := fun σ =>
  (Ok tt, {| st_world := st_world σ; st_heap := st_heap σ;
             st_trace := st_trace σ ++ [e] |}).

(** [try: m  except: pass]: whatever [m] raised is dropped, what it did
    before raising stays done. *)
Definition try_except_pass (m : M unit) : M unit := fun σ =>
  match m σ with
  | (Ok _, σ') => (Ok tt, σ')
  | (Raise _, σ') => (Ok tt, σ')
  | (Exit _, σ') => (Ok tt, σ')
  end.

(** Reading an attribute that may not have been set. *)
Definition attr {A} (o : option A) : M A :=
  match o with
  | Some a => mret a
  | None => raise AttributeError
  end.

(** *** Dictionary objects *)

Definition new_dict (d : dict) : M loc := fun σ =>
  (Ok (length (st_heap σ)),
   {| st_world := st_world σ; st_heap := st_heap σ ++ [d]; st_trace := st_trace σ |}).

Definition dict_load (l : loc) : M dict := fun σ =>
  match st_heap σ !! l with
  | Some d => (Ok d, σ)
  | None => (Raise (ExternalError "no such object"), σ)
  end.

Definition dict_store (l : loc) (d : dict) : M unit := fun σ =>
  (Ok tt, {| st_world := st_world σ; st_heap := <[l := d]> (st_heap σ);
             st_trace := st_trace σ |}).

(** [dict(d)]: a new object with the same items. *)
Definition dict_copy (l : loc) : M loc :=
  d ← dict_load l; new_dict d.

(** [d[k] = v]. *)
Definition dict_set (l : loc) (k : string) (v : pyval) : M unit :=
  d ← dict_load l; dict_store l (<[k := v]> d).

(** [d[k]]. *)
Definition dict_get (l : loc) (k : string) : M pyval :=
  d ← dict_load l;
  match d !! k with
  | Some v => mret v
  | None => raise (KeyError k)
  end.

(** [k in d.keys()]. *)
Definition dict_has (l : loc) (k : string) : M bool :=
  d ← dict_load l; mret (bool_decide (is_Some (d !! k))).

(** [d.pop(k)]. *)
Definition dict_pop (l : loc) (k : string) : M pyval :=
  d ← dict_load l;
  match d !! k with
  | Some v => dict_store l (delete k d);; mret v
  | None => raise (KeyError k)
  end.

(** *** Conversions of Python values *)

(** [float(v)]. *)
Definition py_float (v : pyval) : result float :=
  match v with
  | PNone => Raise TypeError
  | PBool b => Ok (if b then 1 else 0)%float
  | PInt z => float_of_int z
  | PFloat f => Ok f
  | PStr s => match float_of_str s with Some f => Ok f | None => Raise ValueError end
  end.

(** [int(v)]. *)
Definition py_int (v : pyval) : result Z :=
  match v with
  | PNone => Raise TypeError
  | PBool b => Ok (if b then 1 else 0)
  | PInt z => Ok z
  | PFloat f => int_of_float f
  | PStr s => match int_of_str s with Some z => Ok z | None => Raise ValueError end
  end.

(** [v.split(',')]: only strings have the method. *)
Definition py_split (v : pyval) : result (list string) :=
  match v with
  | PStr s => Ok (split "," s)
  | _ => Raise AttributeError
  end.

(** [v.lower()]. *)
Definition py_lower (v : pyval) : result string :=
  match v with
  | PStr s => Ok (lower s)
  | _ => Raise AttributeError
  end.

(** [[float(i) for i in parts]]. *)
Fixpoint floats_of_strs (parts : list string) : result (list float) :=
  match parts with
  | [] => Ok []
  | p :: ps =>
      rbind (py_float (PStr p)) (fun f =>
      rbind (floats_of_strs ps) (fun fs => Ok (f :: fs)))
  end.

(** ** cmd_line_parse *)

(** [[inps.latStep, inps.lonStep]], or [None] when one of them is [None]. *)
Definition lalo_step (inps : options) : option (float * float) :=
  match latStep inps, lonStep inps with
  | Some y, Some x => Some (y, x)
  | _, _ => None
  end.

(** Truth value of a list ([not inps.file]) and of an optional tuple. *)
Definition list_truthy {A} (l : list A) : bool :=
  match l with [] => false | _ :: _ => true end.

Definition opt_list_truthy {A} (o : option (list A)) : bool :=
  match o with Some l => list_truthy l | None => false end.

Definition cmd_line_parse (iargs : option (list string)) : M options :=
  inps ← call (parse_args iargs);
  files ← call (get_file_list (file inps));
  let inps := set_file files inps in
  if negb (list_truthy (file inps)) then sys_exit "ERROR: no input file found!"
  else
    lookup ← call (get_lookup_file (lookupFile inps));
    let inps := set_lookupFile lookup inps in
    if negb (str_truthy (lookupFile inps))
    then sys_exit "ERROR: No lookup table found! Can not geocode without it."
    else
      (* tuple(inps.SNWE): lists and tuples of floats share one model *)
      let inps := if opt_list_truthy (SNWE inps) then set_SNWE (SNWE inps) inps else inps in
      let inps := set_laloStep (lalo_step inps) inps in
      mret inps.

(** ** read_template2inps *)

Definition prefix : string := "pysar.geocode.".

(** [vars(inps).keys()]: the attributes of the options record, in the order
    argparse and the driver create them. *)
Definition vars_keys (inps : options) : list string :=
  ["file"; "lookupFile"; "templateFile"; "SNWE"; "latStep"; "lonStep";
   "interpMethod"; "fillValue"; "outfile"; "laloStep"]%string
  ++ (if src_def inps is Some _ then ["src_def"%string] else [])
  ++ (if dest_def inps is Some _ then ["dest_def"%string] else [])
  ++ (if outShape inps is Some _ then ["outShape"%string] else []).

Definition key_list (template : dict) (inps : options) : list string :=
  filter (fun i => is_Some (template !! (prefix +:+ i))) (vars_keys inps).

(** The body of [if value:] for one key. *)
Definition coerce_option (key : string) (value : pyval) (inps : options)
  : result options :=
  if String.eqb key "SNWE" then
    rbind (py_split value) (fun parts =>
    rbind (floats_of_strs parts) (fun fs => Ok (set_SNWE (Some fs) inps)))
  else if String.eqb key "latStep" then
    rbind (py_float value) (fun f => Ok (set_latStep (Some f) inps))
  else if String.eqb key "lonStep" then
    rbind (py_float value) (fun f => Ok (set_lonStep (Some f) inps))
  else if String.eqb key "interpMethod" then
    Ok (set_interpMethod value inps)
  else if String.eqb key "fillValue" then
    rbind (py_lower value) (fun low =>
    if contains "nan" low then Ok (set_fillValue nan inps)
    else rbind (py_float value) (fun f => Ok (set_fillValue f inps)))
  else Ok inps.

(** [for key in key_list: ...]. *)
Fixpoint merge_template (keys : list string) (template : dict) (inps : options)
  : result options :=
  match keys with
  | [] => Ok inps
  | key :: rest =>
      match template !! (prefix +:+ key) with
      | None => Raise (KeyError (prefix +:+ key))
      | Some value =>
          rbind (if truthy value then coerce_option key value inps else Ok inps)
                (merge_template rest template)
      end
  end.

Definition read_template2inps (template_file : string) (inps : option options)
  : M options :=
  emit (EvPrint ("read input option from template file: " +:+ template_file));;
  inps ← match inps with
         | Some i => mret i
         | None => cmd_line_parse None
         end;
  template ← call (read_template template_file);
  template ← call (check_template_auto_value template);
  inps ← lift (merge_template (key_list template inps) template inps);
  mret (set_laloStep (lalo_step inps) inps).

(** ** update_attribute *)

(** [length, width = shape[-2:]]. *)
Definition last_two (shape : list Z) : result (Z * Z) :=
  match rev shape with
  | w :: l :: _ => Ok (l, w)
  | _ => Raise ValueError
  end.

(** [t[i]] on a tuple. *)
Definition tuple_get (t : list float) (i : nat) : result float :=
  match t !! i with
  | Some x => Ok x
  | None => Raise IndexError
  end.

(** [int(np.rint(q))]. *)
Definition int_rint (q : float) : result Z := int_of_float (rint q).

Definition out_of_coverage : string :=
  "original reference pixel is out of .trans file's coverage. Continue.".

Definition update_attribute (atr_in : loc) (inps : options) (print_msg : bool)
  : M loc :=
  atr ← dict_copy atr_in;
  shape ← attr (outShape inps);
  '(length, width) ← lift (last_two shape);
  dict_set atr "LENGTH" (PInt length);;
  dict_set atr "WIDTH" (PInt width);;
  snwe ← match SNWE inps with Some t => mret t | None => raise TypeError end;
  n ← lift (tuple_get snwe 1);
  dict_set atr "Y_FIRST" (PFloat n);;
  w ← lift (tuple_get snwe 2);
  dict_set atr "X_FIRST" (PFloat w);;
  s ← lift (tuple_get snwe 0);
  y_step ← lift (truediv_int (s - n) length);
  dict_set atr "Y_STEP" (PFloat y_step);;
  e ← lift (tuple_get snwe 3);
  x_step ← lift (truediv_int (e - w) width);
  dict_set atr "X_STEP" (PFloat x_step);;
  dict_set atr "Y_UNIT" (PStr "degrees");;
  dict_set atr "X_UNIT" (PStr "degrees");;
  (* Reference point from y/x to lat/lon *)
  has_ref ← dict_has atr "REF_Y";
  (if (has_ref : bool) then
     ry ← dict_get atr "REF_Y";
     y ← lift (py_int ry);
     rx ← dict_get atr "REF_X";
     x ← lift (py_int rx);
     d_in ← dict_load atr_in;
     '(ref_lat, ref_lon) ← call (radar2glob y x (lookupFile inps) d_in);
     if negb (is_nan ref_lat) && negb (is_nan ref_lon) then
       y_first ← dict_get atr "Y_FIRST";
       y0 ← lift (py_float y_first);
       y_step ← dict_get atr "Y_STEP";
       dy ← lift (py_float y_step);
       ref_y ← lift (int_rint ((ref_lat - y0) / dy));
       x_first ← dict_get atr "X_FIRST";
       x0 ← lift (py_float x_first);
       x_step ← dict_get atr "X_STEP";
       dx ← lift (py_float x_step);
       ref_x ← lift (int_rint ((ref_lon - x0) / dx));
       dict_set atr "REF_LAT" (PStr (str_of_float ref_lat));;
       dict_set atr "REF_LON" (PStr (str_of_float ref_lon));;
       dict_set atr "REF_Y" (PStr (str_of_int ref_y));;
       dict_set atr "REF_X" (PStr (str_of_int ref_x));;
       if print_msg then emit (EvPrint "update REF_LAT/LON/Y/X") else mret tt
     else
       emit (EvWarn out_of_coverage);;
       try_except_pass (dict_pop atr "REF_Y";; dict_pop atr "REF_X";; mret tt);;
       try_except_pass (dict_pop atr "REF_LAT";; dict_pop atr "REF_LON";; mret tt)
   else mret tt);;
  mret atr.

(** ** geocode_file *)

Definition geocode_file (infile : string) (inps : options) (res_obj : resampler)
    (outfile : option string) : M (string * options) :=
  emit (EvPrint (repeat_char "-" 50));;
  emit (EvPrint ("geocode file: " +:+ infile));;
  (* read source data *)
  emit (EvRead infile);;
  '(data, atr_read) ← call (readfile_read infile);
  atr ← new_dict atr_read;
  let data :=
    if Nat.eqb (length (np_shape data)) 3 then np_moveaxis data 0 (-1) else data in
  (* resample source data into target data *)
  src ← attr (src_def inps);
  dst ← attr (dest_def inps);
  emit (EvResample res_obj data src dst (interpMethod inps) (fillValue inps));;
  geo_data ← call (resample_resample res_obj data src dst
                     (interpMethod inps) (fillValue inps));
  let geo_data :=
    if Nat.eqb (length (np_shape geo_data)) 3 then np_moveaxis geo_data (-1) 0
    else geo_data in
  (* update metadata *)
  let inps := set_outShape (Some (np_shape geo_data)) inps in
  atr ← update_attribute atr inps true;
  (* write to file *)
  let outfile :=
    if negb (str_truthy outfile)
    then PosixPath.join (PosixPath.dirname infile) ("geo_" +:+ PosixPath.basename infile)
    else default "" outfile in
  atr_out ← dict_load atr;
  emit (EvWrite geo_data atr_out outfile infile);;
  call (writefile_write geo_data atr_out outfile infile);;
  mret (outfile, inps).

(** ** main *)

(** [for infile in files: geocode_file(infile, inps, res_obj)]. *)
Fixpoint geocode_files (files : list string) (inps : options) (res_obj : resampler)
  : M options :=
  match files with
  | [] => mret inps
  | infile :: rest =>
      '(_, inps) ← geocode_file infile inps res_obj None;
      geocode_files rest inps res_obj
  end.

Definition newline : string := String (ascii_of_nat 10) EmptyString.

Definition main (iargs : option (list string)) : M unit :=
  inps ← cmd_line_parse iargs;
  inps ← (if str_truthy (templateFile inps)
          then read_template2inps (default "" (templateFile inps)) (Some inps)
          else mret inps);
  start_time ← call time_time;
  file0 ← match file inps with
          | f :: _ => mret f
          | [] => raise IndexError
          end;
  emit (EvResampleNew (lookupFile inps) file0 (SNWE inps) (latStep inps));;
  res_obj ← call (resample_new (lookupFile inps) file0 (SNWE inps) (latStep inps));
  emit (EvGeometryDefinition res_obj);;
  '(src, dst, snwe) ← call (get_geometry_definition res_obj);
  let inps := set_SNWE snwe (set_dest_def (Some dst) (set_src_def (Some src) inps)) in
  _ ← geocode_files (file inps) inps res_obj;
  now ← call time_time;
  emit (EvPrint ("Done." +:+ newline +:+ "time used: "
                 +:+ format_2f (now - start_time) +:+ " secs")).

(** ** Dictionaries that update_attribute builds

    Named here so that the properties below can speak about them: the
    geographic header written over the copy, the reference point written
    when it lies inside the lookup table, and what the two
    [try ... except: pass] blocks leave when it does not. *)

Definition geo_fields (len wid : Z) (n w ys xs : float) (d0 : dict) : dict :=
  <["X_UNIT" := PStr "degrees"]> (<["Y_UNIT" := PStr "degrees"]>
  (<["X_STEP" := PFloat xs]> (<["Y_STEP" := PFloat ys]>
  (<["X_FIRST" := PFloat w]> (<["Y_FIRST" := PFloat n]>
  (<["WIDTH" := PInt wid]> (<["LENGTH" := PInt len]> d0))))))).

Definition ref_fields (lat lon : float) (ref_y ref_x : Z) (d : dict) : dict :=
  <["REF_X" := PStr (str_of_int ref_x)]> (<["REF_Y" := PStr (str_of_int ref_y)]>
  (<["REF_LON" := PStr (str_of_float lon)]> (<["REF_LAT" := PStr (str_of_float lat)]> d))).

(** [try: d.pop(k1); d.pop(k2)  except: pass]: without [k1] nothing is
    removed, not even [k2]. *)
Definition drop_pair (k1 k2 : string) (d : dict) : dict :=
  match d !! k1 with
  | Some _ => delete k2 (delete k1 d)
  | None => d
  end.

(** The keys [update_attribute] may write or remove. *)
Definition updated_keys : list string :=
  ["LENGTH"; "WIDTH"; "Y_FIRST"; "X_FIRST"; "Y_STEP"; "X_STEP"; "Y_UNIT"; "X_UNIT";
   "REF_Y"; "REF_X"; "REF_LAT"; "REF_LON"]%string.

(** ** Vocabulary for read_template2inps

    The loop seen one attribute at a time, and the words in which its
    properties are stated. *)

(** What the loop of [read_template2inps] does for one attribute name,
    whether or not the template has it. *)
Definition template_step (key : string) (template : dict) (inps : options)
  : result options :=
  match template !! (prefix +:+ key) with
  | Some value => if truthy value then coerce_option key value inps else Ok inps
  | None => Ok inps
  end.

Fixpoint template_steps (keys : list string) (template : dict) (inps : options)
  : result options :=
  match keys with
  | [] => Ok inps
  | key :: rest => rbind (template_step key template inps) (template_steps rest template)
  end.

(** Attribute names without a branch in the loop leave the options alone. *)
Definition ignored_attr (key : string) : Prop :=
  key ∉ ["SNWE"; "latStep"; "lonStep"; "interpMethod"; "fillValue"]%string.

(** The loop, unrolled: of all attributes only five are looked at, in the
    order in which argparse created them. *)
Definition five_steps (template : dict) (inps : options) : result options :=
  rbind (template_step "SNWE" template inps) (fun i1 =>
  rbind (template_step "latStep" template i1) (fun i2 =>
  rbind (template_step "lonStep" template i2) (fun i3 =>
  rbind (template_step "interpMethod" template i3) (fun i4 =>
  template_step "fillValue" template i4)))).

(** The template keys that [read_template2inps] looks up. *)
Definition recognized_keys : list string :=
  ["pysar.geocode.SNWE"; "pysar.geocode.latStep"; "pysar.geocode.lonStep";
   "pysar.geocode.interpMethod"; "pysar.geocode.fillValue"]%string.

(** The fields no step writes. *)
Definition same_fixed (i i' : options) : Prop :=
  file i' = file i /\ lookupFile i' = lookupFile i /\ templateFile i' = templateFile i /\
  outfile i' = outfile i /\ laloStep i' = laloStep i /\ src_def i' = src_def i /\
  dest_def i' = dest_def i /\ outShape i' = outShape i.

(** The value an option ends with: coerced from the template when the
    template has a true value for its key, and the old one otherwise. *)
Definition set_by {A} (template : dict) (key : string) (old new : A)
    (coerced : pyval -> A -> Prop) : Prop :=
  match template !! (prefix +:+ key) with
  | Some v => if truthy v then coerced v new else new = old
  | None => new = old
  end.

Definition coerced_SNWE (v : pyval) (x : option (list float)) : Prop :=
  exists parts fs, py_split v = Ok parts /\ floats_of_strs parts = Ok fs /\ x = Some fs.

Definition coerced_step (v : pyval) (x : option float) : Prop :=
  exists f, py_float v = Ok f /\ x = Some f.

Definition coerced_interp (v : pyval) (x : pyval) : Prop := x = v.

Definition coerced_fill (v : pyval) (x : float) : Prop :=
  exists low, py_lower v = Ok low /\
    if contains "nan" low then x = nan else exists f, py_float v = Ok f /\ x = f.

Definition template_message (template_file : string) : event :=
  EvPrint ("read input option from template file: " +:+ template_file).


Definition raises {A} (r : result A) : Prop := exists e, r = Raise e.

(** ** Vocabulary for main

    The two halves of [main], the calls a run makes, and the order in
    which a complete run makes them. *)

(** The options with which [cmd_line_parse] returns. *)
Definition resolved_options (ns : options) (files : list string) (lookup : option string)
  : options :=
  let i := set_lookupFile lookup (set_file files ns) in
  set_laloStep (lalo_step i) i.

(** The first two statements of [main]: the options of the run. *)
Definition options_stage (iargs : option (list string)) : M options :=
  inps ← cmd_line_parse iargs;
  if str_truthy (templateFile inps)
  then read_template2inps (default "" (templateFile inps)) (Some inps)
  else mret inps.

(** The rest of [main], from the clock reading on. *)
Definition geocoding_stage (inps : options) : M unit :=
  start_time ← call time_time;
  file0 ← match file inps with
          | f :: _ => mret f
          | [] => raise IndexError
          end;
  emit (EvResampleNew (lookupFile inps) file0 (SNWE inps) (latStep inps));;
  res_obj ← call (resample_new (lookupFile inps) file0 (SNWE inps) (latStep inps));
  emit (EvGeometryDefinition res_obj);;
  '(src, dst, snwe) ← call (get_geometry_definition res_obj);
  let inps := set_SNWE snwe (set_dest_def (Some dst) (set_src_def (Some src) inps)) in
  _ ← geocode_files (file inps) inps res_obj;
  now ← call time_time;
  emit (EvPrint ("Done." +:+ newline +:+ "time used: "
                 +:+ format_2f (now - start_time) +:+ " secs")).

(** The calls that matter for the order of work, without the data they
    carry. *)
Inductive step : Type :=
| SNew (lookup : option string) (dataFile : string)
    (snwe : option (list float)) (lalo_step : option float)
| SGeometry
| SRead (infile : string)
| SResample
| SWrite (out_file in_file : string).

Definition step_of (e : event) : option step :=
  match e with
  | EvPrint _ | EvWarn _ => None
  | EvResampleNew l f s la => Some (SNew l f s la)
  | EvGeometryDefinition _ => Some SGeometry
  | EvRead f => Some (SRead f)
  | EvResample _ _ _ _ _ _ => Some SResample
  | EvWrite _ _ o i => Some (SWrite o i)
  end.

Definition steps (evs : list event) : list step := omap step_of evs.

(** The name under which [geocode_file] writes when it is given none. *)
Definition geo_name (infile : string) : string :=
  PosixPath.join (PosixPath.dirname infile) ("geo_" +:+ PosixPath.basename infile).

Definition file_steps (infile : string) : list step :=
  [SRead infile; SResample; SWrite (geo_name infile) infile].

(** [m] adds to the log, and what it adds is, call for call, the
    beginning of [plan]; all of [plan] when [m] ends normally. *)
Definition emits {A} (m : M A) (plan : list step) : Prop :=
  forall σ, exists evs,
    st_trace (m σ).2 = st_trace σ ++ evs /\
    steps evs `prefix_of` plan /\
    (is_ok (m σ).1 = true -> steps evs = plan).

(** Code that leaves the log alone. *)
Definition quiet {A} (m : M A) : Prop := forall σ, st_trace (m σ).2 = st_trace σ.

(** The calls of a complete run with options [inps]: the resampler is
    built from the first file, the geometry is computed, and then each file
    is read, resampled and written, one after the other. *)
Definition plan (inps : options) : list step :=
  match file inps with
  | [] => []
  | file0 :: _ =>
      SNew (lookupFile inps) file0 (SNWE inps) (latStep inps)
      :: SGeometry :: flat_map file_steps (file inps)
  end.

(** The log entries a run adds. *)
Definition new_events {A} (m : M A) (σ : state) : list event :=
  drop (length (st_trace σ)) (st_trace (m σ).2).

(** What [main] hands to the constructor of the resampler. *)
Definition resampler_args (inps : options)
  : option string * option string * option (list float) * option float :=
  (lookupFile inps, head (file inps), SNWE inps, latStep inps).

(** ** Vocabulary for the properties of the remaining code

    [update_attribute] in two halves, the words for template entries and
    for what a piece of code may add to the log, and the names of what
    [geocode_file] reads, resamples and writes. *)

(** The second half of [update_attribute], from the test for REF_Y on,
    run on the copy [atr]. *)
Definition update_reference (atr atr_in : loc) (inps : options) (print_msg : bool)
  : M loc :=
  has_ref ← dict_has atr "REF_Y";
  (if (has_ref : bool) then
     ry ← dict_get atr "REF_Y";
     y ← lift (py_int ry);
     rx ← dict_get atr "REF_X";
     x ← lift (py_int rx);
     d_in ← dict_load atr_in;
     '(ref_lat, ref_lon) ← call (radar2glob y x (lookupFile inps) d_in);
     if negb (is_nan ref_lat) && negb (is_nan ref_lon) then
       y_first ← dict_get atr "Y_FIRST";
       y0 ← lift (py_float y_first);
       y_step ← dict_get atr "Y_STEP";
       dy ← lift (py_float y_step);
       ref_y ← lift (int_rint ((ref_lat - y0) / dy));
       x_first ← dict_get atr "X_FIRST";
       x0 ← lift (py_float x_first);
       x_step ← dict_get atr "X_STEP";
       dx ← lift (py_float x_step);
       ref_x ← lift (int_rint ((ref_lon - x0) / dx));
       dict_set atr "REF_LAT" (PStr (str_of_float ref_lat));;
       dict_set atr "REF_LON" (PStr (str_of_float ref_lon));;
       dict_set atr "REF_Y" (PStr (str_of_int ref_y));;
       dict_set atr "REF_X" (PStr (str_of_int ref_x));;
       if print_msg then emit (EvPrint "update REF_LAT/LON/Y/X") else mret tt
     else
       emit (EvWarn out_of_coverage);;
       try_except_pass (dict_pop atr "REF_Y";; dict_pop atr "REF_X";; mret tt);;
       try_except_pass (dict_pop atr "REF_LAT";; dict_pop atr "REF_LON";; mret tt)
   else mret tt);;
  mret atr.

(** The inputs with which the first half of [update_attribute] runs
    through: an output shape ending in (len, wid), a box (S, N, W, E), and
    both divisions defined. *)
Definition header_inputs (inps : options) (len wid : Z) (S N W E ys xs : float) : Prop :=
  (exists front, outShape inps = Some (front ++ [len; wid])) /\
  SNWE inps = Some [S; N; W; E] /\
  truediv_int (S - N) len = Ok ys /\ truediv_int (E - W) wid = Ok xs.

(** A template entry that the loop of [read_template2inps] passes over:
    the key is missing, or its value is false ([None], [False], empty
    text, zero). *)
Definition skipped (template : dict) (key : string) : Prop :=
  match template !! key with
  | Some v => truthy v = false
  | None => True
  end.

(** A value that is not text. *)
Definition not_text (v : pyval) : Prop := forall s, v <> PStr s.

(** Code that only talks to the world: it neither reads nor changes the
    store and the log. *)
Definition world_only {A} (m : M A) : Prop :=
  exists f : world -> result A * world,
    forall w h t, m (Build_state w h t) = ((f w).1, Build_state (f w).2 h t).

(** [m] only adds to the log, and every entry it adds satisfies [P]. *)
Definition logs {A} (P : event -> Prop) (m : M A) : Prop :=
  forall σ, exists evs, st_trace (m σ).2 = st_trace σ ++ evs /\ Forall P evs.

(** [m] only adds to the log. *)
Definition grows {A} (m : M A) : Prop := logs (fun _ => True) m.

(** A log entry that is no call of the resampler, of a reader or of a
    writer: text printed, or a warning. *)
Definition silent (e : event) : Prop := step_of e = None.

(** Anything but the closing message of [main]. *)
Definition not_done (e : event) : Prop := forall txt, e <> EvPrint ("Done." +:+ txt).

(** The name under which [geocode_file] writes. *)
Definition target_name (infile : string) (outfile : option string) : string :=
  if negb (str_truthy outfile) then geo_name infile else default "" outfile.

(** [np.moveaxis] as [geocode_file] applies it, before and after the
    resampling. *)
Definition bands_last (data : ndarray) : ndarray :=
  if Nat.eqb (length (np_shape data)) 3 then np_moveaxis data 0 (-1) else data.

Definition bands_first (data : ndarray) : ndarray :=
  if Nat.eqb (length (np_shape data)) 3 then np_moveaxis data (-1) 0 else data.

(** The header of a geocoded file: the grid of [data] over the box
    (S, N, W, E). *)
Definition header_of (atr : dict) (data : ndarray) (S N W E : float) : Prop :=
  exists len wid ys xs,
    last_two (np_shape data) = Ok (len, wid) /\
    truediv_int (S - N) len = Ok ys /\ truediv_int (E - W) wid = Ok xs /\
    atr !! "LENGTH" = Some (PInt len) /\ atr !! "WIDTH" = Some (PInt wid) /\
    atr !! "Y_FIRST" = Some (PFloat N) /\ atr !! "X_FIRST" = Some (PFloat W) /\
    atr !! "Y_STEP" = Some (PFloat ys) /\ atr !! "X_STEP" = Some (PFloat xs).

(** The closing message of [main]. *)
Definition done_message (secs : string) : event :=
  EvPrint ("Done." +:+ newline +:+ "time used: " +:+ secs +:+ " secs").

(** [m] only adds to the log; when it ends normally the last entry it
    added is the closing message, and nothing else it added looks like it. *)
Definition ends_done {A} (m : M A) : Prop :=
  forall σ, exists evs,
    st_trace (m σ).2 = st_trace σ ++ evs /\
    if is_ok (m σ).1
    then exists evs' secs, evs = evs' ++ [done_message secs] /\ Forall not_done evs'
    else Forall not_done evs.

(** Anything but a call of the resampling. *)
Definition not_resample (e : event) : Prop :=
  match e with EvResample _ _ _ _ _ _ => False | _ => True end.

(** Two pieces of code that always end the same way and in the same
    state, with results related by [R] when they return. *)
Definition same_run {A B} (R : A -> B -> Prop) (m : M A) (m' : M B) : Prop :=
  forall σ,
    (m σ).2 = (m' σ).2 /\
    match (m σ).1, (m' σ).1 with
    | Ok a, Ok b => R a b
    | Raise e, Raise e' => e = e'
    | Exit msg, Exit msg' => msg = msg'
    | _, _ => False
    end.

(** The options that [geocode_file] reads. *)
Definition same_for_file (i i' : options) : Prop :=
  lookupFile i' = lookupFile i /\ SNWE i' = SNWE i /\
  interpMethod i' = interpMethod i /\ fillValue i' = fillValue i /\
  src_def i' = src_def i /\ dest_def i' = dest_def i.

End Radar2Geo.

(* ================================================================== *)
(** ** A concrete world

    One instance of the collaborators, small enough to run: arrays are
    reduced to their shape, the file system is a table of rasters and
    templates, the lookup table covers a square of 1024 by 1024 radar
    pixels, and the text conversions read and print plain decimals.  The
    examples at the end of the file run the driver in it. *)
(* ================================================================== *)

Module Demo.

Record demo_world : Type := {
  argv : list string;
  rasters : list (string * (list Z * dict));
  templates : list (string * dict);
  written : list (string * dict);
  clock : float
}.

Definition is_digit (c : ascii) : bool :=
  let n := N_of_ascii c in ((48 <=? n) && (n <=? 57))%N.

Fixpoint digits_value (s : string) (acc : Z) : option Z :=
  match s with
  | EmptyString => Some acc
  | String c r =>
      if is_digit c then digits_value r (10 * acc + Z.of_N (N_of_ascii c - 48))
      else None
  end.

Definition unsigned (s : string) : bool * string :=
  match s with
  | String "-" r => (true, r)
  | String "+" r => (false, r)
  | _ => (false, s)
  end.

(** Signed decimal integers. *)
Definition demo_int_of_str (s : string) : option Z :=
  let '(neg, body) := unsigned s in
  match body with
  | EmptyString => None
  | _ => match digits_value body 0 with
         | Some n => Some (if neg then - n else n)
         | None => None
         end
  end.

Definition to_float (n : Z) : float := SF2Prim (binary_normalize prec emax n 0 false).

(** Signed decimals with an optional fraction, and the words nan and inf. *)
Definition demo_float_of_str (s : string) : option float :=
  let '(neg, body) := unsigned s in
  let sign (x : float) := if neg then (- x)%float else x in
  if String.eqb (lower body) "nan" then Some nan
  else if String.eqb (lower body) "inf" then Some (sign infinity)
  else
    match split "." body with
    | [whole] =>
        match whole with
        | EmptyString => None
        | _ => match digits_value whole 0 with
               | Some n => Some (sign (to_float n))
               | None => None
               end
        end
    | [whole; frac] =>
        match (String.length whole + String.length frac)%nat with
        | O => None
        | _ => match digits_value (whole +:+ frac) 0 with
               | Some n =>
                   Some (sign (to_float n / to_float (10 ^ Z.of_nat (String.length frac)))%float)
               | None => None
               end
        end
    | _ => None
    end.

Definition pad_zeros (width : nat) (s : string) : string :=
  match width - String.length s with
  | O => s
  | S k => repeat_char "0" (S k) +:+ s
  end%nat.

(** The decimal [n / 10^k] written with [k] places. *)
Definition fixed (neg : bool) (n : Z) (k : nat) : string :=
  let p := 10 ^ Z.of_nat k in
  (if neg then "-" else "") +:+ str_of_int (n / p) +:+ "."
  +:+ pad_zeros k (str_of_int (n mod p)).

(** The shortest decimal with at most [fuel] places that reads back as
    [x]; integral values get one place, as in Python. *)
Fixpoint shortest (fuel : nat) (k : nat) (neg : bool) (a : float) : string :=
  let p := to_float (10 ^ Z.of_nat k) in
  let n := rint (a * p)%float in
  match fuel with
  | O => "?"
  | S fuel' =>
      if (n / p =? a)%float then
        match int_of_float n with
        | Ok z => fixed neg z k
        | _ => "?"
        end
      else shortest fuel' (S k) neg a
  end.

Definition demo_str_of_float (x : float) : string :=
  if is_nan x then "nan"
  else if is_infinity x then (if (x <? 0)%float then "-inf" else "inf")
  else shortest 17 1 (get_sign x) (abs x).

Definition demo_format_2f (x : float) : string :=
  if is_nan x then "nan"
  else if is_infinity x then (if (x <? 0)%float then "-inf" else "inf")
  else match int_of_float (rint (abs x * 100)%float) with
       | Ok z => fixed (get_sign x) z 2
       | _ => "?"
       end.


(** numpy arrays, reduced to their shape. *)
Definition demo_moveaxis (shape : list Z) (src dst : Z) : list Z :=
  match shape with
  | [a; b; c] =>
      if (src =? 0) && (dst =? -1) then [b; c; a]
      else if (src =? -1) && (dst =? 0) then [c; a; b]
      else shape
  | _ => shape
  end.

Definition lookup_assoc {A} (k : string) (l : list (string * A)) : option A :=
  match filter (fun p => p.1 = k) l with
  | p :: _ => Some p.2
  | [] => None
  end.

Definition exists_file (w : demo_world) (f : string) : bool :=
  bool_decide (is_Some (lookup_assoc f (rasters w))).

Fixpoint floats_of_list (l : list string) : option (list float) :=
  match l with
  | [] => Some []
  | s :: r =>
      match demo_float_of_str s, floats_of_list r with
      | Some f, Some fs => Some (f :: fs)
      | _, _ => None
      end
  end.

(** The options argparse starts from: the defaults of [create_parser]. *)
Definition defaults : Namespace unit :=
  {| file := []; lookupFile := None; templateFile := None; SNWE := None;
     latStep := None; lonStep := None; interpMethod := PStr "nearest";
     fillValue := nan; outfile := None; laloStep := None;
     src_def := None; dest_def := None; outShape := None |}.

Definition usage_error (what : string) : string :=
  "usage: radar2geo.py [-h] [-l LOOKUPFILE] [-t TEMPLATEFILE] [-b S N W E] [-y LATSTEP] "
  +:+ "[-x LONSTEP] [-i {nearest,bilinear}] [--fill FILLVALUE] [-o [OUTFILE ...]] "
  +:+ "file [file ...]" +:+ newline +:+ "radar2geo.py: error: " +:+ what.

Definition is_flag (tok : string) : bool := String.prefix "-" tok.

Definition one_of (tok a b : string) : bool := String.eqb tok a || String.eqb tok b.

(** A reading of the command line for the options of [create_parser], one
    token at a time; [collecting] is true while the values of -o are being
    gathered. *)
Fixpoint demo_parse (args : list string) (collecting : bool) (ns : Namespace unit)
  : result (Namespace unit) :=
  match args with
  | [] =>
      if list_truthy (file ns) then Ok ns
      else Exit (usage_error "the following arguments are required: file")
  | tok :: rest =>
      if one_of tok "-o" "--output" then
        demo_parse rest true (set_outfile (Some []) ns)
      else if one_of tok "-b" "--bbox" then
        match rest with
        | s :: n :: w :: e :: rest' =>
            match floats_of_list [s; n; w; e] with
            | Some box => demo_parse rest' false (set_SNWE (Some box) ns)
            | None => Exit (usage_error "argument -b/--bbox: invalid float value")
            end
        | _ => Exit (usage_error "argument -b/--bbox: expected 4 arguments")
        end
      else if is_flag tok && negb (bool_decide (is_Some (demo_float_of_str tok))) then
        match rest with
        | value :: rest' =>
            if one_of tok "-l" "--lookup" then
              demo_parse rest' false (set_lookupFile (Some value) ns)
            else if one_of tok "-t" "--template" then
              demo_parse rest' false (set_templateFile (Some value) ns)
            else if one_of tok "-y" "--lat-step" then
              match demo_float_of_str value with
              | Some f => demo_parse rest' false (set_latStep (Some f) ns)
              | None => Exit (usage_error "argument -y/--lat-step: invalid float value")
              end
            else if one_of tok "-x" "--lon-step" then
              match demo_float_of_str value with
              | Some f => demo_parse rest' false (set_lonStep (Some f) ns)
              | None => Exit (usage_error "argument -x/--lon-step: invalid float value")
              end
            else if one_of tok "-i" "--interpolate" then
              if one_of value "nearest" "bilinear"
              then demo_parse rest' false (set_interpMethod (PStr value) ns)
              else Exit (usage_error "argument -i/--interpolate: invalid choice")
            else if String.eqb tok "--fill" then
              match demo_float_of_str value with
              | Some f => demo_parse rest' false (set_fillValue f ns)
              | None => Exit (usage_error "argument --fill: invalid float value")
              end
            else Exit (usage_error ("unrecognized arguments: " +:+ tok))
        | [] => Exit (usage_error ("argument " +:+ tok +:+ ": expected one argument"))
        end
      else if collecting then
        demo_parse rest true (set_outfile (Some (default [] (outfile ns) ++ [tok])) ns)
      else
        demo_parse rest false (set_file (file ns ++ [tok]) ns)
  end.


Definition set_argv v (w : demo_world) : demo_world :=
  {| argv := v; rasters := rasters w; templates := templates w;
     written := written w; clock := clock w |}.

Definition demo_parse_args (iargs : option (list string)) (w : demo_world)
  : result (Namespace unit) * demo_world :=
  (demo_parse (default (argv w) iargs) false defaults, w).

(** [ut.get_file_list]: the names that exist. *)
Definition demo_get_file_list (names : list string) (w : demo_world)
  : result (list string) * demo_world :=
  (Ok (filter (fun f => exists_file w f = true) names), w).

(** [ut.get_lookup_file]: the file given if it exists, else the default
    geometry file if that one exists. *)
Definition demo_get_lookup_file (given : option string) (w : demo_world)
  : result (option string) * demo_world :=
  let found f := if exists_file w f then Some f else None in
  (Ok match given with
      | Some f => found f
      | None => found "geometryRadar.h5"
      end, w).

Definition demo_read_template (f : string) (w : demo_world) : result dict * demo_world :=
  (match lookup_assoc f (templates w) with
   | Some d => Ok d
   | None => Raise (ExternalError "No such file or directory")
   end, w).

(** [ut.check_template_auto_value]: auto and none become [None], yes and
    no become booleans. *)
Definition auto_value (v : pyval) : pyval :=
  match v with
  | PStr s =>
      if String.eqb s "auto" || String.eqb s "none" || String.eqb s "None" then PNone
      else if String.eqb s "yes" || String.eqb s "True" then PBool true
      else if String.eqb s "no" || String.eqb s "False" then PBool false
      else v
  | _ => v
  end.

Definition demo_check_template (d : dict) (w : demo_world) : result dict * demo_world :=
  (Ok (auto_value <$> d), w).

(** A lookup table over 1024 by 1024 radar pixels: latitude falls from 2
    and longitude rises from -92, both by 1/1024 of a degree per pixel;
    outside of it there is no answer. *)
Definition demo_radar2glob (y x : Z) (lookup : option string) (atr : dict)
    (w : demo_world) : result (float * float) * demo_world :=
  (if (0 <=? y) && (y <? 1024) && (0 <=? x) && (x <? 1024)
   then Ok ((2 - to_float y / 1024)%float, (-92 + to_float x / 1024)%float)
   else Ok (nan, nan), w).

Definition demo_read (f : string) (w : demo_world)
  : result (list Z * dict) * demo_world :=
  (match lookup_assoc f (rasters w) with
   | Some r => Ok r
   | None => Raise (ExternalError "No such file or directory")
   end, w).

Definition demo_write (data : list Z) (atr : dict) (out_file in_file : string)
    (w : demo_world) : result unit * demo_world :=
  (Ok tt, {| argv := argv w; rasters := rasters w; templates := templates w;
             written := written w ++ [(out_file, atr)]; clock := clock w |}).

(** The resampler remembers the bounding box it was asked for; its grid
    is 256 rows by 512 columns over that box, or over the lookup table. *)
Definition demo_resample_new (lookup : option string) (data_file : string)
    (snwe : option (list float)) (lalo : option float) (w : demo_world)
  : result (option (list float)) * demo_world :=
  (Ok snwe, w).

Definition demo_geometry (res : option (list float)) (w : demo_world)
  : result (unit * unit * option (list float)) * demo_world :=
  (Ok (tt, tt, Some (default [0; 2; -92; -90]%float res)), w).

Definition demo_resample (res : option (list float)) (data : list Z) (src dst : unit)
    (interp : pyval) (fill : float) (w : demo_world) : result (list Z) * demo_world :=
  (Ok match data with
      | [_; _] => [256; 512]
      | [_; _; n] => [256; 512; n]
      | _ => data
      end, w).

Definition demo_time (w : demo_world) : result float * demo_world :=
  (Ok (clock w),
   {| argv := argv w; rasters := rasters w; templates := templates w;
      written := written w; clock := (clock w + 1.5)%float |}).

#[export] Instance demo : Externals := {|
  world := demo_world;
  ndarray := list Z;
  geometry := unit;
  resampler := option (list float);
  float_of_str := demo_float_of_str;
  int_of_str := demo_int_of_str;
  str_of_float := demo_str_of_float;
  format_2f := demo_format_2f;
  np_shape := fun a => a;
  np_moveaxis := demo_moveaxis;
  parse_args := demo_parse_args;
  get_file_list := demo_get_file_list;
  get_lookup_file := demo_get_lookup_file;
  read_template := demo_read_template;
  check_template_auto_value := demo_check_template;
  radar2glob := demo_radar2glob;
  readfile_read := demo_read;
  writefile_write := demo_write;
  resample_new := demo_resample_new;
  get_geometry_definition := demo_geometry;
  resample_resample := demo_resample;
  time_time := demo_time
|}.

(** Metadata of a radar-coded file with a reference pixel. *)
Definition velocity_atr : dict :=
  list_to_map [("FILE_TYPE", PStr "velocity"); ("LENGTH", PStr "1000");
               ("WIDTH", PStr "900"); ("REF_Y", PStr "100"); ("REF_X", PStr "200");
               ("REF_LAT", PStr "1.9"); ("REF_LON", PStr "-91.8")]%string.

(** Metadata without a reference pixel. *)
Definition coherence_atr : dict :=
  list_to_map [("FILE_TYPE", PStr "temporalCoherence"); ("LENGTH", PStr "1000");
               ("WIDTH", PStr "900")]%string.

Definition geocode_template : dict :=
  list_to_map [("pysar.geocode", PStr "yes");
               ("pysar.geocode.SNWE", PStr "0.5,1.5,-91.5,-90.5");
               ("pysar.geocode.latStep", PStr "0.001");
               ("pysar.geocode.lonStep", PStr "auto");
               ("pysar.geocode.interpMethod", PStr "bilinear");
               ("pysar.geocode.fillValue", PStr "np.nan")]%string.

Definition disk : demo_world :=
  {| argv := ["velocity.h5"]%string;
     rasters := [("velocity.h5", ([1000; 900], velocity_atr));
                 ("data/temporalCoherence.h5", ([1000; 900], coherence_atr));
                 ("timeseries.h5", ([12; 1000; 900], coherence_atr));
                 ("geometryRadar.h5", ([1000; 900], ∅))]%string;
     templates := [("pysarApp_template.txt", geocode_template);
                   ("geocode_only.txt", {["pysar.geocode" := PStr "yes"]});
                   ("fill.txt", {["pysar.geocode.fillValue" := PStr "banana"]});
                   ("blank.txt", {["pysar.geocode.latStep" := PStr ""]});
                   ("broken.txt", {["pysar.geocode.SNWE" := PStr "0.5,north,-91.5,-90.5"]})
                  ]%string;
     written := [];
     clock := 0 |}.

(** The state a process starts in. *)
Definition start (w : demo_world) : state :=
  {| st_world := w; st_heap := []; st_trace := [] |}.

(** Options as [main] has them when it calls [geocode_file]: the box of
    the lookup table, and an output grid of 256 by 512. *)
Definition grid_options : options :=
  {| file := ["velocity.h5"]%string; lookupFile := Some "geometryRadar.h5"%string;
     templateFile := None; SNWE := Some [0; 2; -92; -90]%float;
     latStep := None; lonStep := None; interpMethod := PStr "nearest";
     fillValue := nan; outfile := None; laloStep := None;
     src_def := Some tt; dest_def := Some tt; outShape := Some [256; 512] |}.

(** A store with one metadata object, in the world of [disk]. *)
Definition with_object (d : dict) : state :=
  {| st_world := disk; st_heap := [d]; st_trace := [] |}.

(** The template of [disk], as [check_template_auto_value] hands it on. *)
Definition checked_template : dict := auto_value <$> geocode_template.

(** Metadata whose reference pixel lies outside of the lookup table, and
    that has a REF_LON without a REF_LAT. *)
Definition stale_atr : dict :=
  list_to_map [("FILE_TYPE", PStr "velocity"); ("REF_Y", PStr "2000");
               ("REF_X", PStr "200"); ("REF_LON", PStr "-91.8")]%string.

(** Two files, no template, no box. *)
Definition two_files : option (list string) :=
  Some ["velocity.h5"; "data/temporalCoherence.h5"]%string.

Definition two_files_options : options :=
  {| file := ["velocity.h5"; "data/temporalCoherence.h5"]%string;
     lookupFile := Some "geometryRadar.h5"%string;
     templateFile := None; SNWE := None;
     latStep := None; lonStep := None; interpMethod := PStr "nearest";
     fillValue := nan; outfile := None; laloStep := None;
     src_def := None; dest_def := None; outShape := None |}.

(** One file, with a name given for the output. *)
Definition with_output : option (list string) :=
  Some ["data/temporalCoherence.h5"; "-o"; "elsewhere.h5"]%string.

(** Metadata with a reference row and no reference column. *)
Definition half_atr : dict :=
  list_to_map [("FILE_TYPE", PStr "velocity"); ("REF_Y", PStr "10")]%string.

(** The world of [disk] with one more template, whose box is yes. *)
Definition yes_disk : demo_world :=
  {| argv := argv disk; rasters := rasters disk;
     templates := [("yes.txt", {["pysar.geocode.SNWE" := PStr "yes"]})]%string;
     written := []; clock := 0 |}.

(** The options that [cmd_line_parse] makes of the command line of
    [disk]. *)
Definition argv_options : options :=
  {| file := ["velocity.h5"]%string; lookupFile := Some "geometryRadar.h5"%string;
     templateFile := None; SNWE := None;
     latStep := None; lonStep := None; interpMethod := PStr "nearest";
     fillValue := nan; outfile := None; laloStep := None;
     src_def := None; dest_def := None; outShape := None |}.

(** One file, a template, and a longitude step. *)
Definition with_template : option (list string) :=
  Some ["velocity.h5"; "-t"; "pysarApp_template.txt"; "-x"; "0.002"]%string.

Definition with_template_options : options :=
  {| file := ["velocity.h5"]%string; lookupFile := Some "geometryRadar.h5"%string;
     templateFile := Some "pysarApp_template.txt"%string;
     SNWE := Some [0.5; 1.5; -91.5; -90.5]%float;
     latStep := Some 0.001%float; lonStep := Some 0.002%float;
     interpMethod := PStr "bilinear";
     fillValue := nan; outfile := None; laloStep := Some (0.001, 0.002)%float;
     src_def := None; dest_def := None; outShape := None |}.

(** The header of a grid of 256 by 512 over the box of the lookup table. *)
Definition grid_header (d : dict) : dict :=
  geo_fields 256 512 2 (-92) (-0.0078125) 0.00390625 d.

(** The command line of [with_template] without its longitude step. *)
Definition without_lonStep : option (list string) :=
  Some ["velocity.h5"; "-t"; "pysarApp_template.txt"]%string.

(** The options that [without_lonStep] resolves to in the world of [disk]. *)
Definition without_lonStep_options : options :=
  set_laloStep None (set_lonStep None with_template_options).

(** The template of [disk] with a longitude step, and a world that has it. *)
Definition lonStep_template : dict :=
  <["pysar.geocode.lonStep"%string := PStr "0.002"]> geocode_template.

Definition lonStep_disk : demo_world :=
  {| argv := argv disk; rasters := rasters disk;
     templates := [("pysarApp_template.txt"%string, lonStep_template)];
     written := []; clock := 0 |}.

End Demo.

(* ================================================================== *)
(** ** Running the monad *)
(* ================================================================== *)

Section Running.

Context {ext : Externals}.
Implicit Types (σ : state) (h : list dict) (d : dict) (t : list event).

Lemma run_bind {A B} (m : M A) (k : A -> M B) σ :
  (m ≫= k) σ =
  match m σ with
  | (Ok a, σ') => k a σ'
  | (Raise e, σ') => (Raise e, σ')
  | (Exit msg, σ') => (Exit msg, σ')
  end.
Proof. reflexivity. Qed.

Lemma bind_ok {A B} (m : M A) (k : A -> M B) σ b σ' :
  (m ≫= k) σ = (Ok b, σ') ->
  exists a σ1, m σ = (Ok a, σ1) /\ k a σ1 = (Ok b, σ').
Proof.
  rewrite run_bind. destruct (m σ) as [[a | e | msg] σ1]; intros H; try discriminate H.
  exists a, σ1. split; [reflexivity | exact H].
Qed.

Lemma run_ret {A} (a : A) σ : (mret a : M A) σ = (Ok a, σ).
Proof. reflexivity. Qed.

Lemma run_lift {A} (r : result A) σ : lift r σ = (r, σ).
Proof. reflexivity. Qed.

Lemma run_emit e w h t :
  emit e (Build_state w h t) = (Ok tt, Build_state w h (t ++ [e])).
Proof. reflexivity. Qed.

Lemma run_call {A} (f : world -> result A * world) w h t :
  call f (Build_state w h t) = ((f w).1, Build_state (f w).2 h t).
Proof. unfold call; simpl. destruct (f w); reflexivity. Qed.

Lemma heap_lookup_fresh h d : (h ++ [d]) !! length h = Some d.
Proof. apply list_lookup_middle; reflexivity. Qed.

Lemma heap_insert_fresh h d d' : <[length h := d']> (h ++ [d]) = h ++ [d'].
Proof. induction h as [| x h IH]; simpl; [reflexivity | by rewrite IH]. Qed.

Lemma heap_lookup_old h d l d0 : h !! l = Some d0 -> (h ++ [d]) !! l = Some d0.
Proof. intros H. by apply lookup_app_l_Some. Qed.

Lemma run_dict_copy l w h t d0 :
  h !! l = Some d0 ->
  dict_copy l (Build_state w h t) = (Ok (length h), Build_state w (h ++ [d0]) t).
Proof.
  intros H. unfold dict_copy. rewrite run_bind. unfold dict_load; simpl.
  rewrite H. reflexivity.
Qed.

Lemma run_dict_load_fresh w h d t :
  dict_load (length h) (Build_state w (h ++ [d]) t) = (Ok d, Build_state w (h ++ [d]) t).
Proof. unfold dict_load; simpl. by rewrite heap_lookup_fresh. Qed.

Lemma run_dict_load_old l d0 w h d t :
  h !! l = Some d0 ->
  dict_load l (Build_state w (h ++ [d]) t) = (Ok d0, Build_state w (h ++ [d]) t).
Proof. intros H. unfold dict_load; simpl. by rewrite (heap_lookup_old _ _ _ _ H). Qed.

Lemma run_dict_set_fresh k v w h d t :
  dict_set (length h) k v (Build_state w (h ++ [d]) t)
  = (Ok tt, Build_state w (h ++ [<[k := v]> d]) t).
Proof.
  unfold dict_set. rewrite run_bind, run_dict_load_fresh.
  unfold dict_store; simpl. by rewrite heap_insert_fresh.
Qed.

Lemma run_dict_get_fresh k w h d t :
  dict_get (length h) k (Build_state w (h ++ [d]) t)
  = (match d !! k with Some v => Ok v | None => Raise (KeyError k) end,
     Build_state w (h ++ [d]) t).
Proof.
  unfold dict_get. rewrite run_bind, run_dict_load_fresh.
  destruct (d !! k); reflexivity.
Qed.

Lemma run_dict_has_fresh k w h d t :
  dict_has (length h) k (Build_state w (h ++ [d]) t)
  = (Ok (bool_decide (is_Some (d !! k))), Build_state w (h ++ [d]) t).
Proof. unfold dict_has. by rewrite run_bind, run_dict_load_fresh. Qed.

Lemma run_dict_pop_fresh k w h d t :
  dict_pop (length h) k (Build_state w (h ++ [d]) t)
  = match d !! k with
    | Some v => (Ok v, Build_state w (h ++ [delete k d]) t)
    | None => (Raise (KeyError k), Build_state w (h ++ [d]) t)
    end.
Proof.
  unfold dict_pop. rewrite run_bind, run_dict_load_fresh.
  destruct (d !! k); [| reflexivity].
  rewrite run_bind. unfold dict_store; simpl. by rewrite heap_insert_fresh.
Qed.

Lemma lift_ok {A} (r : result A) σ a σ1 : lift r σ = (Ok a, σ1) -> r = Ok a /\ σ1 = σ.
Proof. rewrite run_lift. intros H. by simplify_eq. Qed.

Lemma attr_ok {A} (o : option A) σ a σ1 : attr o σ = (Ok a, σ1) -> o = Some a /\ σ1 = σ.
Proof. destruct o; unfold attr; [rewrite run_ret | unfold raise]; intros H; by simplify_eq. Qed.

Lemma dict_copy_ok l w h t a σ1 :
  dict_copy l (Build_state w h t) = (Ok a, σ1) ->
  exists d0, h !! l = Some d0 /\ a = length h /\ σ1 = Build_state w (h ++ [d0]) t.
Proof.
  destruct (h !! l) as [d0 |] eqn:E.
  - rewrite (run_dict_copy _ _ _ _ _ E). intros H. exists d0. by simplify_eq.
  - unfold dict_copy. rewrite run_bind. unfold dict_load; simpl. rewrite E. discriminate.
Qed.

Lemma run_try_pop_pair k1 k2 w h d t :
  try_except_pass (dict_pop (length h) k1;; dict_pop (length h) k2;; mret tt)
    (Build_state w (h ++ [d]) t)
  = (Ok tt, Build_state w (h ++ [drop_pair k1 k2 d]) t).
Proof.
  unfold try_except_pass, drop_pair. rewrite run_bind, run_dict_pop_fresh.
  destruct (d !! k1) as [v1 |]; [| reflexivity].
  rewrite run_bind, run_dict_pop_fresh.
  destruct (delete k1 d !! k2) as [v2 |] eqn:E; [reflexivity |].
  by rewrite (delete_id _ _ E).
Qed.

(** *** What a run leaves of the store *)

(** [m] keeps the store within [P], however it ends. *)
Definition preserves (P : list dict -> Prop) {A} (m : M A) : Prop :=
  forall σ, P (st_heap σ) -> P (st_heap (m σ).2).

Lemma preserves_bind P {A B} (m : M A) (k : A -> M B) :
  preserves P m -> (forall a, preserves P (k a)) -> preserves P (m ≫= k).
Proof.
  intros Hm Hk σ HP. rewrite run_bind. specialize (Hm σ HP).
  destruct (m σ) as [[a | e | msg] σ1]; simpl in *; [by apply Hk | done | done].
Qed.

Lemma preserves_ret P {A} (a : A) : preserves P (mret a : M A).
Proof. intros σ HP. exact HP. Qed.

Lemma preserves_lift P {A} (r : result A) : preserves P (lift r).
Proof. intros σ HP. exact HP. Qed.

Lemma preserves_raise P {A} e : preserves P (raise e : M A).
Proof. intros σ HP. exact HP. Qed.

Lemma preserves_attr P {A} (o : option A) : preserves P (attr o).
Proof. destruct o; intros σ HP; exact HP. Qed.

Lemma preserves_call P {A} (f : world -> result A * world) : preserves P (call f).
Proof. intros [w h t] HP. by rewrite run_call. Qed.

Lemma preserves_emit P e : preserves P (emit e).
Proof. intros [w h t] HP. exact HP. Qed.

Lemma preserves_dict_load P l : preserves P (dict_load l).
Proof. intros σ HP. unfold dict_load. by destruct (st_heap σ !! l). Qed.

Lemma preserves_try P (m : M unit) : preserves P m -> preserves P (try_except_pass m).
Proof.
  intros Hm σ HP. specialize (Hm σ HP). unfold try_except_pass.
  by destruct (m σ) as [[a | e | msg] σ1].
Qed.

(** The store is [h] followed by one more object. *)
Definition one_more (h : list dict) : list dict -> Prop :=
  fun h' => exists d, h' = h ++ [d].

Lemma preserves_dict_set h k v : preserves (one_more h) (dict_set (length h) k v).
Proof.
  intros [w h' t] [d Hd]; simpl in *; subst h'. rewrite run_dict_set_fresh. by eexists.
Qed.

Lemma preserves_dict_get h k : preserves (one_more h) (dict_get (length h) k).
Proof.
  intros [w h' t] [d Hd]; simpl in *; subst h'. rewrite run_dict_get_fresh. by eexists.
Qed.

Lemma preserves_dict_has h k : preserves (one_more h) (dict_has (length h) k).
Proof.
  intros [w h' t] [d Hd]; simpl in *; subst h'. rewrite run_dict_has_fresh. by eexists.
Qed.

Lemma preserves_dict_pop h k : preserves (one_more h) (dict_pop (length h) k).
Proof.
  intros [w h' t] [d Hd]; simpl in *; subst h'. rewrite run_dict_pop_fresh.
  destruct (d !! k); by eexists.
Qed.

End Running.

Ltac preserves_tac :=
  repeat first
    [ apply preserves_dict_load | apply preserves_dict_set
    | apply preserves_dict_get | apply preserves_dict_has
    | apply preserves_dict_pop | apply preserves_try
    | apply preserves_ret | apply preserves_lift | apply preserves_raise
    | apply preserves_attr | apply preserves_call | apply preserves_emit
    | apply preserves_bind; [| intros ]
    | match goal with
      | |- preserves _ (match ?x with _ => _ end) => destruct x
      end ].

(* ================================================================== *)
(** ** update_attribute *)
(* ================================================================== *)

(** One step of a run that ended normally. *)
Ltac inv_step H :=
  let Hs := fresh "Hs" in
  apply bind_ok in H as (? & ? & Hs & H);
  lazymatch type of Hs with
  | lift _ _ = _ => apply lift_ok in Hs as [Hs ->]
  | attr _ _ = _ => apply attr_ok in Hs as [Hs ->]
  | dict_set _ _ _ _ = _ => rewrite run_dict_set_fresh in Hs; simplify_eq
  | dict_has _ _ _ = _ => rewrite run_dict_has_fresh in Hs; simplify_eq
  | emit _ _ = _ => rewrite run_emit in Hs; simplify_eq
  | try_except_pass _ _ = _ => rewrite run_try_pop_pair in Hs; simplify_eq
  end.

Ltac solve_notin :=
  rewrite ?not_elem_of_cons; repeat split; try done; try apply not_elem_of_nil.

Ltac fwd_lift H := rewrite run_bind, run_lift, H; cbv beta iota.
Ltac fwd_set := rewrite run_bind, run_dict_set_fresh; cbv beta iota.

Section UpdateAttribute.

Context {ext : Externals}.
Implicit Types (σ : state) (h : list dict) (d : dict) (t : list event).

Lemma geo_fields_lookup len wid (n w ys xs : float) d0 :
  let d := geo_fields len wid n w ys xs d0 in
  d !! "LENGTH" = Some (PInt len) /\ d !! "WIDTH" = Some (PInt wid) /\
  d !! "Y_FIRST" = Some (PFloat n) /\ d !! "X_FIRST" = Some (PFloat w) /\
  d !! "Y_STEP" = Some (PFloat ys) /\ d !! "X_STEP" = Some (PFloat xs) /\
  d !! "Y_UNIT" = Some (PStr "degrees") /\ d !! "X_UNIT" = Some (PStr "degrees").
Proof. unfold geo_fields. cbv zeta. repeat split; by simplify_map_eq. Qed.

(** Every normal run of [update_attribute], read backwards: what the
    inputs must have been and what the final state is. *)
Lemma update_attribute_ok_inv atr_in inps pm w h t atr σ' :
  update_attribute atr_in inps pm (Build_state w h t) = (Ok atr, σ') ->
  exists d0 shape len wid snwe (s n west east ys xs : float),
    h !! atr_in = Some d0 /\ outShape inps = Some shape /\
    last_two shape = Ok (len, wid) /\ SNWE inps = Some snwe /\
    tuple_get snwe 0 = Ok s /\ tuple_get snwe 1 = Ok n /\
    tuple_get snwe 2 = Ok west /\ tuple_get snwe 3 = Ok east /\
    truediv_int (s - n) len = Ok ys /\ truediv_int (east - west) wid = Ok xs /\
    atr = length h /\
    let d1 := geo_fields len wid n west ys xs d0 in
    ((d0 !! "REF_Y" = None /\ σ' = Build_state w (h ++ [d1]) t)
     \/ exists ry y rx x lat lon,
          d0 !! "REF_Y" = Some ry /\ py_int ry = Ok y /\
          d0 !! "REF_X" = Some rx /\ py_int rx = Ok x /\
          (radar2glob y x (lookupFile inps) d0 w).1 = Ok (lat, lon) /\
          let w' := (radar2glob y x (lookupFile inps) d0 w).2 in
          ((is_nan lat = false /\ is_nan lon = false /\
            exists ref_y ref_x,
              int_rint ((lat - n) / ys) = Ok ref_y /\
              int_rint ((lon - west) / xs) = Ok ref_x /\
              σ' = Build_state w' (h ++ [ref_fields lat lon ref_y ref_x d1])
                     (t ++ if pm then [EvPrint "update REF_LAT/LON/Y/X"] else []))
           \/ (negb (is_nan lat) && negb (is_nan lon) = false /\
               σ' = Build_state w'
                      (h ++ [drop_pair "REF_LAT" "REF_LON" (drop_pair "REF_Y" "REF_X" d1)])
                      (t ++ [EvWarn out_of_coverage])))).
Proof.
  intros H. unfold update_attribute in H.
  apply bind_ok in H as (a & σ1 & Hs & H).
  apply dict_copy_ok in Hs as (d0 & Hd0 & -> & ->).
  inv_step H. inv_step H. destruct x0 as [len wid].
  inv_step H. inv_step H.
  apply bind_ok in H as (snwe & ? & Hs1 & H).
  destruct (SNWE inps) as [snwe'|] eqn:Esnwe; [| discriminate Hs1].
  rewrite run_ret in Hs1. simplify_eq.
  do 13 inv_step H.
  fold (geo_fields len wid x0 x1 x3 x5 d0) in H.
  apply bind_ok in H as ([] & σ2 & H & Hret).
  rewrite run_ret in Hret. simplify_eq.
  exists d0, x, len, wid, snwe, x2, x0, x1, x4, x3, x5.
  repeat (split; [first [assumption | reflexivity] |]).
  cbv zeta.
  assert (Hry : geo_fields len wid x0 x1 x3 x5 d0 !! "REF_Y" = d0 !! "REF_Y").
  { unfold geo_fields. by rewrite !lookup_insert_ne. }
  assert (Hrx : geo_fields len wid x0 x1 x3 x5 d0 !! "REF_X" = d0 !! "REF_X").
  { unfold geo_fields. by rewrite !lookup_insert_ne. }
  rewrite Hry in H.
  destruct (d0 !! "REF_Y") as [ry |] eqn:Ery.
  2:{ rewrite bool_decide_eq_false_2 in H by (intros [? ?]; discriminate).
      rewrite run_ret in H. left. by simplify_eq. }
  rewrite bool_decide_eq_true_2 in H by eauto.
  right.
  apply bind_ok in H as (ry' & ? & Hg & H).
  rewrite run_dict_get_fresh, Hry in Hg. simplify_eq.
  apply bind_ok in H as (y & ? & Hy & H). apply lift_ok in Hy as [Hy ->].
  apply bind_ok in H as (rx & ? & Hg & H).
  rewrite run_dict_get_fresh, Hrx in Hg.
  destruct (d0 !! "REF_X") as [rx' |] eqn:Erx; [| discriminate]. simplify_eq.
  apply bind_ok in H as (x' & ? & Hx & H). apply lift_ok in Hx as [Hx ->].
  apply bind_ok in H as (d_in & ? & Hl & H).
  rewrite (run_dict_load_old _ _ _ _ _ _ Hd0) in Hl. simplify_eq.
  apply bind_ok in H as ([lat lon] & ? & Hc & H).
  rewrite run_call in Hc. simplify_eq.
  do 4 eexists. exists lat, lon.
  repeat (split; [first [eassumption | reflexivity] |]).
  cbv zeta.
  destruct (negb (is_nan lat) && negb (is_nan lon)) eqn:Enan.
  - left. apply andb_true_iff in Enan as [E1 E2].
    apply negb_true_iff in E1, E2. split; [exact E1 | split; [exact E2 |]].
    destruct (geo_fields_lookup len wid x0 x1 x3 x5 d_in)
      as (_ & _ & Hyf & Hxf & Hys & Hxs & _).
    apply bind_ok in H as (? & ? & Hg & H).
    rewrite run_dict_get_fresh, Hyf in Hg. simplify_eq.
    apply bind_ok in H as (? & ? & Hg & H). apply lift_ok in Hg as [Hg ->].
    simpl in Hg. simplify_eq.
    apply bind_ok in H as (? & ? & Hg & H).
    rewrite run_dict_get_fresh, Hys in Hg. simplify_eq.
    apply bind_ok in H as (? & ? & Hg & H). apply lift_ok in Hg as [Hg ->].
    simpl in Hg. simplify_eq.
    apply bind_ok in H as (ref_y & ? & Hry' & H). apply lift_ok in Hry' as [Hry' ->].
    apply bind_ok in H as (? & ? & Hg & H).
    rewrite run_dict_get_fresh, Hxf in Hg. simplify_eq.
    apply bind_ok in H as (? & ? & Hg & H). apply lift_ok in Hg as [Hg ->].
    simpl in Hg. simplify_eq.
    apply bind_ok in H as (? & ? & Hg & H).
    rewrite run_dict_get_fresh, Hxs in Hg. simplify_eq.
    apply bind_ok in H as (? & ? & Hg & H). apply lift_ok in Hg as [Hg ->].
    simpl in Hg. simplify_eq.
    apply bind_ok in H as (ref_x & ? & Hrx' & H). apply lift_ok in Hrx' as [Hrx' ->].
    do 4 inv_step H.
    exists ref_y, ref_x. split; [exact Hry' | split; [exact Hrx' |]].
    destruct pm.
    + rewrite run_emit in H. by simplify_eq.
    + rewrite run_ret in H. rewrite app_nil_r. by simplify_eq.
  - right. split; [reflexivity |].
    do 2 inv_step H.
    rewrite run_try_pop_pair in H. by simplify_eq.
Qed.

(** Whatever [update_attribute] does and however it ends, the objects that
    existed before the call are left as they were; at most one new object
    is added. *)
Lemma update_attribute_store atr_in inps pm w h t :
  let σ' := (update_attribute atr_in inps pm (Build_state w h t)).2 in
  st_heap σ' = h \/ exists d, st_heap σ' = h ++ [d].
Proof.
  cbv zeta. unfold update_attribute. rewrite run_bind.
  destruct (h !! atr_in) as [d0 |] eqn:E.
  - rewrite (run_dict_copy _ _ _ _ _ E). right.
    match goal with
    | |- exists d, st_heap (?m ?σ).2 = _ => change (one_more h (st_heap (m σ).2))
    end.
    match goal with
    | |- one_more h (st_heap (?m ?σ).2) => cut (preserves (one_more h) m)
    end.
    { intros Hp. apply Hp. simpl. by eexists. }
    preserves_tac.
  - left. unfold dict_copy. rewrite run_bind. unfold dict_load. simpl. by rewrite E.
Qed.

Lemma drop_pair_lookup_ne k1 k2 k d :
  k ≠ k1 -> k ≠ k2 -> drop_pair k1 k2 d !! k = d !! k.
Proof.
  intros H1 H2. unfold drop_pair. destruct (d !! k1); [| reflexivity].
  by rewrite !lookup_delete_ne.
Qed.

Lemma geo_fields_lookup_ne len wid (n w ys xs : float) d0 k :
  k ∉ ["LENGTH"; "WIDTH"; "Y_FIRST"; "X_FIRST"; "Y_STEP"; "X_STEP"; "Y_UNIT"; "X_UNIT"]%string ->
  geo_fields len wid n w ys xs d0 !! k = d0 !! k.
Proof.
  intros Hk. rewrite !not_elem_of_cons in Hk. destruct_and!.
  unfold geo_fields. by rewrite !lookup_insert_ne.
Qed.

Lemma ref_fields_lookup_ne lat lon ry rx d k :
  k ∉ ["REF_Y"; "REF_X"; "REF_LAT"; "REF_LON"]%string ->
  ref_fields lat lon ry rx d !! k = d !! k.
Proof.
  intros Hk. rewrite !not_elem_of_cons in Hk. destruct_and!.
  unfold ref_fields. by rewrite !lookup_insert_ne.
Qed.

Lemma last_two_app front (len wid : Z) : last_two (front ++ [len; wid]) = Ok (len, wid).
Proof. unfold last_two. by rewrite rev_app_distr. Qed.

(** What a normal run returns: a new object whose entries outside
    [updated_keys] are those of the argument, and whose geographic header is
    the one computed from the bounding box and the shape. *)
Lemma update_attribute_returns atr_in inps pm w h t atr σ' :
  update_attribute atr_in inps pm (Build_state w h t) = (Ok atr, σ') ->
  exists d0 shape len wid snwe (s n west east ys xs : float) d,
    h !! atr_in = Some d0 /\ outShape inps = Some shape /\
    last_two shape = Ok (len, wid) /\ SNWE inps = Some snwe /\
    tuple_get snwe 0 = Ok s /\ tuple_get snwe 1 = Ok n /\
    tuple_get snwe 2 = Ok west /\ tuple_get snwe 3 = Ok east /\
    truediv_int (s - n) len = Ok ys /\ truediv_int (east - west) wid = Ok xs /\
    atr = length h /\ st_heap σ' = h ++ [d] /\
    (forall k, k ∉ updated_keys -> d !! k = d0 !! k) /\
    (forall k, k ∈ ["LENGTH"; "WIDTH"; "Y_FIRST"; "X_FIRST"; "Y_STEP"; "X_STEP"]%string ->
       d !! k = geo_fields len wid n west ys xs d0 !! k).
Proof.
  intros H. apply update_attribute_ok_inv in H
    as (d0 & shape & len & wid & snwe & s & n & west & east & ys & xs
        & H1 & H2 & H3 & H4 & H5 & H6 & H7 & H8 & H9 & H10 & H11 & H).
  cbv zeta in H.
  assert (Hgeo : forall d,
    (forall k, k ∉ ["REF_Y"; "REF_X"; "REF_LAT"; "REF_LON"]%string ->
       d !! k = geo_fields len wid n west ys xs d0 !! k) ->
    (forall k, k ∉ updated_keys -> d !! k = d0 !! k) /\
    (forall k, k ∈ ["LENGTH"; "WIDTH"; "Y_FIRST"; "X_FIRST"; "Y_STEP"; "X_STEP"]%string ->
       d !! k = geo_fields len wid n west ys xs d0 !! k)).
  { intros d Hd. split; intros k Hk.
    - unfold updated_keys in Hk. rewrite !not_elem_of_cons in Hk. destruct_and!.
      rewrite Hd, geo_fields_lookup_ne; [reflexivity | |]; solve_notin.
    - apply Hd. rewrite !elem_of_cons in Hk.
      destruct_or!; try (by apply elem_of_nil in Hk); subst k; solve_notin. }
  destruct H as [[Hno ->] | (ry & y & rx & x & lat & lon & _ & _ & _ & _ & _ & H)].
  - exists d0, shape, len, wid, snwe, s, n, west, east, ys, xs. eexists.
    repeat (split; [first [eassumption | reflexivity] |]).
    apply Hgeo. reflexivity.
  - cbv zeta in H.
    destruct H as [(_ & _ & ref_y & ref_x & _ & _ & ->) | [_ ->]];
      exists d0, shape, len, wid, snwe, s, n, west, east, ys, xs; eexists;
      (repeat (split; [first [eassumption | reflexivity] |]));
      apply Hgeo; intros k Hk.
    + by apply ref_fields_lookup_ne.
    + rewrite !not_elem_of_cons in Hk. destruct_and!.
      by rewrite !drop_pair_lookup_ne.
Qed.


Lemma truediv_int_ok_inv (x : float) (n : Z) (q : float) :
  truediv_int x n = Ok q ->
  n <> 0 /\ exists f, float_of_int n = Ok f /\ q = (x / f)%float.
Proof.
  unfold truediv_int. destruct (Z.eqb_spec n 0) as [-> | Hn]; [discriminate |].
  destruct (float_of_int n) as [f | e | m]; simpl; intros H; try discriminate H.
  split; [exact Hn |]. exists f. split; [reflexivity |]. by simplify_eq.
Qed.

Lemma truediv_int_ok (x : float) (n : Z) (f : float) :
  n <> 0 -> float_of_int n = Ok f -> truediv_int x n = Ok (x / f)%float.
Proof.
  intros Hn Hf. unfold truediv_int. destruct (Z.eqb_spec n 0); [done |].
  by rewrite Hf.
Qed.

(** A run on metadata without a reference pixel, when both divisions are
    defined: the copy with the geographic header is returned. *)
Lemma update_attribute_no_ref atr_in inps pm w h t d0 shape len wid snwe
    (s n west east ys xs : float) :
  h !! atr_in = Some d0 -> d0 !! "REF_Y" = None ->
  outShape inps = Some shape -> last_two shape = Ok (len, wid) ->
  SNWE inps = Some snwe ->
  tuple_get snwe 0 = Ok s -> tuple_get snwe 1 = Ok n ->
  tuple_get snwe 2 = Ok west -> tuple_get snwe 3 = Ok east ->
  truediv_int (s - n) len = Ok ys -> truediv_int (east - west) wid = Ok xs ->
  update_attribute atr_in inps pm (Build_state w h t)
  = (Ok (length h), Build_state w (h ++ [geo_fields len wid n west ys xs d0]) t).
Proof.
  intros Hd0 Hno Hshape Hlast Hsnwe H0 H1 H2 H3 Hys Hxs.
  unfold update_attribute. rewrite Hshape, Hsnwe.
  rewrite run_bind, (run_dict_copy _ _ _ _ _ Hd0). cbv beta iota.
  rewrite run_bind. unfold attr at 1. rewrite run_ret. cbv beta iota.
  fwd_lift Hlast. fwd_set. fwd_set.
  rewrite run_bind, run_ret. cbv beta iota.
  fwd_lift H1. fwd_set. fwd_lift H2. fwd_set. fwd_lift H0. fwd_lift Hys. fwd_set.
  fwd_lift H3. fwd_lift Hxs. fwd_set. fwd_set. fwd_set.
  fold (geo_fields len wid n west ys xs d0).
  rewrite run_bind, run_dict_has_fresh. cbv beta iota.
  rewrite run_bind, geo_fields_lookup_ne, Hno by solve_notin.
  rewrite bool_decide_eq_false_2 by (intros [? ?]; discriminate).
  rewrite run_ret. cbv beta iota. by rewrite run_ret.
Qed.

(** C2: for options whose bounding box is (S, N, W, E) and whose output
    shape ends in (length, width), the metadata [update_attribute] returns
    has LENGTH = length, WIDTH = width, Y_FIRST = N, X_FIRST = W,
    Y_STEP = (S - N) / length and X_STEP = (E - W) / width; and it does
    return when the metadata names no reference pixel and the two divisions
    are defined. *)
Theorem update_attribute_geo_header atr_in inps pm σ (S N W E : float) front len wid :
  SNWE inps = Some [S; N; W; E] ->
  outShape inps = Some (front ++ [len; wid]) ->
  (forall atr σ',
     update_attribute atr_in inps pm σ = (Ok atr, σ') ->
     exists d flen fwid,
       st_heap σ' !! atr = Some d /\
       len <> 0 /\ wid <> 0 /\
       float_of_int len = Ok flen /\ float_of_int wid = Ok fwid /\
       d !! "LENGTH" = Some (PInt len) /\
       d !! "WIDTH" = Some (PInt wid) /\
       d !! "Y_FIRST" = Some (PFloat N) /\
       d !! "X_FIRST" = Some (PFloat W) /\
       d !! "Y_STEP" = Some (PFloat ((S - N) / flen)) /\
       d !! "X_STEP" = Some (PFloat ((E - W) / fwid)))
  /\ (forall d0 flen fwid,
        st_heap σ !! atr_in = Some d0 -> d0 !! "REF_Y" = None ->
        len <> 0 -> wid <> 0 ->
        float_of_int len = Ok flen -> float_of_int wid = Ok fwid ->
        exists atr σ', update_attribute atr_in inps pm σ = (Ok atr, σ')).
Proof.
  intros Hsnwe Hshape. destruct σ as [w h t]. split.
  - intros atr σ' Hrun.
    apply update_attribute_returns in Hrun
      as (d0 & shape & len' & wid' & snwe & s & n & west & east & ys & xs & d
          & _ & Hsh & Hlast & Hsn & H0 & H1 & H2 & H3 & Hys & Hxs & -> & Hheap & _ & Hd).
    rewrite Hshape in Hsh. rewrite Hsnwe in Hsn. simplify_eq.
    rewrite last_two_app in Hlast. simpl in H0, H1, H2, H3. simplify_eq.
    apply truediv_int_ok_inv in Hys as (Hlen & flen & Hflen & Eys).
    apply truediv_int_ok_inv in Hxs as (Hwid & fwid & Hfwid & Exs).
    unfold tuple_get in H0, H1, H2, H3; simpl in H0, H1, H2, H3; simplify_eq.
    exists d, flen, fwid.
    split; [rewrite Hheap; apply heap_lookup_fresh |].
    repeat (split; [assumption |]).
    repeat split; (rewrite Hd by (rewrite !elem_of_cons; auto 10));
      unfold geo_fields; by simplify_map_eq.
  - intros d0 flen fwid Hd0 Hno Hlen Hwid Hflen Hfwid. simpl in Hd0.
    eexists _, _.
    eapply update_attribute_no_ref; try eassumption; try reflexivity.
    + apply last_two_app.
    + by apply truediv_int_ok.
    + by apply truediv_int_ok.
Qed.

(** C10: [update_attribute] works on a copy: whatever the outcome, the
    object passed as [atr_in] (and every other object that existed) is left
    as it was; the mapping it returns is a different object, and outside
    LENGTH, WIDTH, Y_FIRST, X_FIRST, Y_STEP, X_STEP, Y_UNIT, X_UNIT, REF_Y,
    REF_X, REF_LAT and REF_LON it has exactly the entries of [atr_in]. *)
Theorem update_attribute_leaves_input atr_in inps pm σ d0 :
  st_heap σ !! atr_in = Some d0 ->
  (forall l d,
     st_heap σ !! l = Some d ->
     st_heap (update_attribute atr_in inps pm σ).2 !! l = Some d)
  /\ (forall atr,
        (update_attribute atr_in inps pm σ).1 = Ok atr ->
        atr <> atr_in
        /\ exists d,
             st_heap (update_attribute atr_in inps pm σ).2 !! atr = Some d
             /\ forall k, k ∉ updated_keys -> d !! k = d0 !! k).
Proof.
  intros Hd0. destruct σ as [w h t]. simpl in Hd0. split.
  - intros l d Hl. simpl in Hl.
    destruct (update_attribute_store atr_in inps pm w h t) as [-> | [d' ->]];
      [exact Hl | by apply heap_lookup_old].
  - intros atr Hok.
    destruct (update_attribute atr_in inps pm (Build_state w h t)) as [r σ'] eqn:Hrun.
    simpl in Hok. subst r.
    apply update_attribute_returns in Hrun
      as (d0' & shape & len & wid & snwe & s & n & west & east & ys & xs & d
          & Hd0' & _ & _ & _ & _ & _ & _ & _ & _ & _ & -> & Hheap & Hkeep & _).
    rewrite Hd0 in Hd0'. simplify_eq. split.
    + apply lookup_lt_Some in Hd0. lia.
    + exists d. simpl. rewrite Hheap. split; [apply heap_lookup_fresh | exact Hkeep].
Qed.

End UpdateAttribute.

(* ================================================================== *)
(** ** read_template2inps *)
(* ================================================================== *)

Ltac norm_key :=
  repeat match goal with
  | |- context [String.append prefix ?k] =>
      let s := eval vm_compute in (String.append prefix k) in
      change (String.append prefix k) with s
  end.

Ltac norm_key_in H :=
  repeat match type of H with
  | context [String.append prefix ?k] =>
      let s := eval vm_compute in (String.append prefix k) in
      change (String.append prefix k) with s in H
  end.

Section ReadTemplate.

Context {ext : Externals}.
Implicit Types (σ : state) (h : list dict) (d : dict) (t : list event).
Implicit Types (inps : options) (template : dict).

Lemma merge_template_filter template keys inps :
  merge_template (filter (fun i => is_Some (template !! (prefix +:+ i))) keys) template inps
  = template_steps keys template inps.
Proof.
  revert inps. induction keys as [| key rest IH]; intros inps; [reflexivity |].
  rewrite filter_cons. simpl. unfold template_step.
  destruct (template !! (prefix +:+ key)) as [value |] eqn:E.
  - rewrite decide_True by eauto. simpl. rewrite E.
    destruct (truthy value); [| simpl; apply IH].
    destruct (coerce_option key value inps); simpl; [apply IH | reflexivity | reflexivity].
  - rewrite decide_False by (intros [? ?]; discriminate). simpl. apply IH.
Qed.

Lemma template_steps_app keys1 keys2 template inps :
  template_steps (keys1 ++ keys2) template inps
  = rbind (template_steps keys1 template inps) (template_steps keys2 template).
Proof.
  revert inps. induction keys1 as [| k r IH]; intros inps; [reflexivity |].
  simpl. destruct (template_step k template inps); simpl; [apply IH | reflexivity | reflexivity].
Qed.

Lemma coerce_option_ignored key value inps :
  ignored_attr key -> coerce_option key value inps = Ok inps.
Proof.
  unfold ignored_attr. rewrite !not_elem_of_cons. intros (H1 & H2 & H3 & H4 & H5 & _).
  unfold coerce_option.
  repeat match goal with
  | |- context [String.eqb key ?s] => destruct (String.eqb_spec key s); [done |]
  end.
  reflexivity.
Qed.

Lemma template_step_ignored key template inps :
  ignored_attr key -> template_step key template inps = Ok inps.
Proof.
  intros Hk. unfold template_step. destruct (template !! _) as [v |]; [| reflexivity].
  destruct (truthy v); [by apply coerce_option_ignored | reflexivity].
Qed.

Lemma template_steps_ignored keys template inps :
  Forall ignored_attr keys -> template_steps keys template inps = Ok inps.
Proof.
  induction 1 as [| k r Hk _ IH]; [reflexivity |].
  simpl. by rewrite template_step_ignored.
Qed.

Lemma merge_template_five template inps :
  merge_template (key_list template inps) template inps = five_steps template inps.
Proof.
  unfold key_list. rewrite merge_template_filter. unfold vars_keys.
  cbn [app template_steps].
  do 3 (rewrite template_step_ignored by (unfold ignored_attr; solve_notin); cbn [rbind]).
  unfold five_steps.
  destruct (template_step "SNWE" template inps) as [i1 | |]; cbn [rbind]; try reflexivity.
  destruct (template_step "latStep" template i1) as [i2 | |]; cbn [rbind]; try reflexivity.
  destruct (template_step "lonStep" template i2) as [i3 | |]; cbn [rbind]; try reflexivity.
  destruct (template_step "interpMethod" template i3) as [i4 | |]; cbn [rbind];
    try reflexivity.
  destruct (template_step "fillValue" template i4) as [i5 | |]; cbn [rbind];
    try reflexivity.
  do 2 (rewrite template_step_ignored by (unfold ignored_attr; solve_notin); cbn [rbind]).
  apply template_steps_ignored.
  repeat first [ apply Forall_app_2 | apply Forall_cons_2 | apply Forall_nil_2
               | match goal with |- Forall _ (if ?o is Some _ then _ else _) => destruct o end ];
    unfold ignored_attr; solve_notin.
Qed.

Lemma five_steps_ext template template' inps :
  (forall k, k ∈ recognized_keys -> template !! k = template' !! k) ->
  five_steps template inps = five_steps template' inps.
Proof.
  intros H. unfold five_steps, template_step. norm_key.
  rewrite <- !H by (unfold recognized_keys; rewrite !elem_of_cons; auto 10).
  reflexivity.
Qed.

Lemma same_fixed_refl i : same_fixed i i.
Proof. by repeat split. Qed.

Lemma same_fixed_trans i1 i2 i3 : same_fixed i1 i2 -> same_fixed i2 i3 -> same_fixed i1 i3.
Proof. unfold same_fixed. intros H1 H2. destruct_and!. repeat split; congruence. Qed.

(** What one step of the loop that ends normally has done. *)
Lemma template_step_ok_inv key template i i' :
  template_step key template i = Ok i' ->
  i' = i
  \/ exists v, template !! (prefix +:+ key) = Some v /\ truthy v = true /\
       ((key = "SNWE"%string /\ exists parts fs,
           py_split v = Ok parts /\ floats_of_strs parts = Ok fs /\
           i' = set_SNWE (Some fs) i)
        \/ (key = "latStep"%string /\ exists f,
              py_float v = Ok f /\ i' = set_latStep (Some f) i)
        \/ (key = "lonStep"%string /\ exists f,
              py_float v = Ok f /\ i' = set_lonStep (Some f) i)
        \/ (key = "interpMethod"%string /\ i' = set_interpMethod v i)
        \/ (key = "fillValue"%string /\ exists low,
              py_lower v = Ok low /\
              if contains "nan" low then i' = set_fillValue nan i
              else exists f, py_float v = Ok f /\ i' = set_fillValue f i)).
Proof.
  unfold template_step. destruct (template !! _) as [v |]; [| intros; left; by simplify_eq].
  destruct (truthy v) eqn:Hv; [| intros; left; by simplify_eq].
  unfold coerce_option.
  destruct (String.eqb_spec key "SNWE") as [-> | _].
  { destruct (py_split v) as [parts | |] eqn:Esp; simpl; try discriminate.
    destruct (floats_of_strs parts) as [fs | |] eqn:E; simpl; try discriminate.
    intros H; simplify_eq. right. exists v. repeat split; try done. left. eauto 10. }
  destruct (String.eqb_spec key "latStep") as [-> | _].
  { destruct (py_float v) as [f | |] eqn:Ef; simpl; try discriminate.
    intros H; simplify_eq. right. exists v. repeat split; try done.
    right; left. eauto. }
  destruct (String.eqb_spec key "lonStep") as [-> | _].
  { destruct (py_float v) as [f | |] eqn:Ef; simpl; try discriminate.
    intros H; simplify_eq. right. exists v. repeat split; try done.
    right; right; left. eauto. }
  destruct (String.eqb_spec key "interpMethod") as [-> | _].
  { intros H; simplify_eq. right. exists v. repeat split; try done.
    right; right; right; left. eauto. }
  destruct (String.eqb_spec key "fillValue") as [-> | _].
  { destruct (py_lower v) as [low | |] eqn:El; simpl; try discriminate.
    destruct (contains "nan" low) eqn:Hnan.
    - intros H; simplify_eq. right. exists v. repeat split; try done.
      right; right; right; right. split; [done |]. exists low. by rewrite Hnan.
    - destruct (py_float v) as [f | |] eqn:Ef; simpl; try discriminate.
      intros H; simplify_eq. right. exists v. repeat split; try done.
      right; right; right; right. split; [done |]. exists low. rewrite Hnan. eauto. }
  intros H; left; by simplify_eq.
Qed.

Lemma template_step_ok_fields key template i i' :
  template_step key template i = Ok i' ->
  same_fixed i i' /\
  (if String.eqb key "SNWE" then set_by template key (SNWE i) (SNWE i') coerced_SNWE
   else SNWE i' = SNWE i) /\
  (if String.eqb key "latStep" then set_by template key (latStep i) (latStep i') coerced_step
   else latStep i' = latStep i) /\
  (if String.eqb key "lonStep" then set_by template key (lonStep i) (lonStep i') coerced_step
   else lonStep i' = lonStep i) /\
  (if String.eqb key "interpMethod"
   then set_by template key (interpMethod i) (interpMethod i') coerced_interp
   else interpMethod i' = interpMethod i) /\
  (if String.eqb key "fillValue"
   then set_by template key (fillValue i) (fillValue i') coerced_fill
   else fillValue i' = fillValue i).
Proof.
  intros H. unfold set_by. pose proof H as H'. unfold template_step in H'.
  apply template_step_ok_inv in H as [-> | (v & Hv & Htr & H)].
  - split; [apply same_fixed_refl |].
    destruct (template !! (prefix +:+ key)) as [v |]; [| by repeat split; case_match].
    destruct (truthy v) eqn:Htr; [| by repeat split; case_match].
    unfold coerce_option in H'.
    destruct (String.eqb_spec key "SNWE") as [-> | _].
    { destruct (py_split v) as [parts | |] eqn:Esp; simpl in H'; try discriminate.
      destruct (floats_of_strs parts) as [fs | |] eqn:E; simpl in H'; try discriminate.
      simplify_eq. rewrite <- H'. simpl. repeat split. unfold coerced_SNWE. eauto. }
    destruct (String.eqb_spec key "latStep") as [-> | _].
    { destruct (py_float v) as [f | |] eqn:Ef; simpl in H'; try discriminate.
      simplify_eq. rewrite <- H'. simpl. repeat split. unfold coerced_step. eauto. }
    destruct (String.eqb_spec key "lonStep") as [-> | _].
    { destruct (py_float v) as [f | |] eqn:Ef; simpl in H'; try discriminate.
      simplify_eq. rewrite <- H'. simpl. repeat split. unfold coerced_step. eauto. }
    destruct (String.eqb_spec key "interpMethod") as [-> | _].
    { simplify_eq. rewrite <- H'. simpl. repeat split. }
    destruct (String.eqb_spec key "fillValue") as [-> | _]; [| by repeat split].
    destruct (py_lower v) as [low | |] eqn:El; simpl in H'; try discriminate.
    unfold coerced_fill.
    destruct (contains "nan" low) eqn:Hnan.
    + simplify_eq. rewrite <- H'. simpl. repeat split. exists low. by rewrite Hnan.
    + destruct (py_float v) as [f | |] eqn:Ef; simpl in H'; try discriminate.
      simplify_eq. rewrite <- H'. simpl. repeat split. exists low. rewrite Hnan. eauto.
  - rewrite Hv, Htr.
    destruct H as [(-> & parts & fs & ? & ? & ->) | [(-> & f & ? & ->) | [(-> & f & ? & ->)
      | [(-> & ->) | (-> & low & ? & H)]]]]; simpl.
    + repeat split. unfold coerced_SNWE; eauto.
    + repeat split. unfold coerced_step; eauto.
    + repeat split. unfold coerced_step; eauto.
    + repeat split.
    + unfold coerced_fill. destruct (contains "nan" low) eqn:Hnan.
      * subst i'. repeat split. exists low. by rewrite Hnan.
      * destruct H as (f & ? & ->). repeat split. exists low. rewrite Hnan. eauto.
Qed.

(** What [read_template2inps] leaves in each option once the loop has run
    through. *)
Lemma five_steps_ok template i m :
  five_steps template i = Ok m ->
  same_fixed i m /\
  set_by template "SNWE" (SNWE i) (SNWE m) coerced_SNWE /\
  set_by template "latStep" (latStep i) (latStep m) coerced_step /\
  set_by template "lonStep" (lonStep i) (lonStep m) coerced_step /\
  set_by template "interpMethod" (interpMethod i) (interpMethod m) coerced_interp /\
  set_by template "fillValue" (fillValue i) (fillValue m) coerced_fill.
Proof.
  unfold five_steps. intros H.
  destruct (template_step "SNWE" template i) as [i1 | |] eqn:E1; try discriminate;
    cbn [rbind] in H.
  destruct (template_step "latStep" template i1) as [i2 | |] eqn:E2; try discriminate;
    cbn [rbind] in H.
  destruct (template_step "lonStep" template i2) as [i3 | |] eqn:E3; try discriminate;
    cbn [rbind] in H.
  destruct (template_step "interpMethod" template i3) as [i4 | |] eqn:E4; try discriminate;
    cbn [rbind] in H.
  apply template_step_ok_fields in E1, E2, E3, E4, H. simpl in E1, E2, E3, E4, H.
  destruct_and!.
  split; [eauto using same_fixed_trans |].
  split; [| split; [| split; [| split]]];
    match goal with
    | H : set_by ?t ?k ?old ?new ?c |- set_by ?t ?k ?old' ?new' ?c =>
        replace old' with old by congruence;
        replace new' with new by congruence;
        exact H
    end.
Qed.

Lemma run_read_template2inps tf inps w h t raw w1 tmpl w2 :
  read_template tf w = (Ok raw, w1) ->
  check_template_auto_value raw w1 = (Ok tmpl, w2) ->
  read_template2inps tf (Some inps) (Build_state w h t)
  = (rbind (five_steps tmpl inps) (fun m => Ok (set_laloStep (lalo_step m) m)),
     Build_state w2 h (t ++ [template_message tf])).
Proof.
  intros Hr Hc. unfold read_template2inps.
  rewrite run_bind, run_emit. cbv beta iota.
  rewrite run_bind, run_ret. cbv beta iota.
  rewrite run_bind, run_call, Hr. cbn [fst snd].
  rewrite run_bind, run_call, Hc. cbn [fst snd].
  rewrite run_bind, run_lift, merge_template_five.
  destruct (five_steps tmpl inps); reflexivity.
Qed.

Lemma truthy_str s : s <> ""%string -> truthy (PStr s) = true.
Proof. intros H. simpl. by destruct (String.eqb_spec s ""). Qed.

Lemma floats_of_strs_no_exit parts msg : floats_of_strs parts <> Exit msg.
Proof.
  induction parts as [| p ps IH]; [discriminate |]. simpl.
  destruct (float_of_str p); simpl; [| discriminate].
  destruct (floats_of_strs ps); simpl; [discriminate | discriminate | exact IH].
Qed.


Lemma float_of_int_no_exit n msg : float_of_int n <> Exit msg.
Proof. unfold float_of_int. by case_match. Qed.

Lemma py_float_no_exit v msg : py_float v <> Exit msg.
Proof.
  destruct v; simpl; try discriminate; [apply float_of_int_no_exit | by case_match].
Qed.

Lemma py_split_no_exit v msg : py_split v <> Exit msg.
Proof. by destruct v. Qed.

Lemma py_lower_no_exit v msg : py_lower v <> Exit msg.
Proof. by destruct v. Qed.

Lemma rbind_no_exit {A B} (r : result A) (k : A -> result B) :
  (forall msg, r <> Exit msg) -> (forall a msg, k a <> Exit msg) ->
  forall msg, rbind r k <> Exit msg.
Proof.
  intros Hr Hk msg. destruct r as [a | e | m]; simpl; [apply Hk | discriminate |].
  by destruct (Hr m).
Qed.

Lemma coerce_option_no_exit key value i msg : coerce_option key value i <> Exit msg.
Proof.
  unfold coerce_option.
  destruct (String.eqb key "SNWE").
  { revert msg. apply rbind_no_exit; [apply py_split_no_exit | intros parts].
    apply rbind_no_exit; [apply floats_of_strs_no_exit | discriminate]. }
  destruct (String.eqb key "latStep").
  { revert msg. apply rbind_no_exit; [apply py_float_no_exit | discriminate]. }
  destruct (String.eqb key "lonStep").
  { revert msg. apply rbind_no_exit; [apply py_float_no_exit | discriminate]. }
  destruct (String.eqb key "interpMethod"); [discriminate |].
  destruct (String.eqb key "fillValue"); [| discriminate].
  revert msg. apply rbind_no_exit; [apply py_lower_no_exit | intros low msg].
  destruct (contains "nan" low); [discriminate |].
  revert msg. apply rbind_no_exit; [apply py_float_no_exit | discriminate].
Qed.

Lemma template_step_no_exit key template i msg : template_step key template i <> Exit msg.
Proof.
  unfold template_step. destruct (template !! _) as [v |]; [| discriminate].
  destruct (truthy v); [apply coerce_option_no_exit | discriminate].
Qed.


Lemma step_then_raises key template i (k : options -> result options) :
  (forall i', raises (k i')) -> raises (rbind (template_step key template i) k).
Proof.
  intros Hk. destruct (template_step key template i) as [i' | e | msg] eqn:E; simpl.
  - apply Hk.
  - by exists e.
  - by apply template_step_no_exit in E.
Qed.


(** A normal run of [read_template2inps], option by option. *)
Lemma read_template2inps_ok_fields tf inps w h t raw w1 template w2 inps' σ' :
  read_template tf w = (Ok raw, w1) ->
  check_template_auto_value raw w1 = (Ok template, w2) ->
  read_template2inps tf (Some inps) (Build_state w h t) = (Ok inps', σ') ->
  set_by template "SNWE" (SNWE inps) (SNWE inps') coerced_SNWE /\
  set_by template "latStep" (latStep inps) (latStep inps') coerced_step /\
  set_by template "lonStep" (lonStep inps) (lonStep inps') coerced_step /\
  set_by template "interpMethod" (interpMethod inps) (interpMethod inps') coerced_interp /\
  set_by template "fillValue" (fillValue inps) (fillValue inps') coerced_fill.
Proof.
  intros Hr Hc Hrun. rewrite (run_read_template2inps _ _ _ _ _ _ _ _ _ Hr Hc) in Hrun.
  destruct (five_steps template inps) as [m | |] eqn:E; simpl in Hrun; try discriminate.
  apply five_steps_ok in E as (_ & E). simplify_eq. exact E.
Qed.

(** C4: every non-empty text that the template gives for one of the
    options is coerced as follows in the options [read_template2inps]
    returns: SNWE is split on commas and each piece converted to a float;
    latStep and lonStep are converted to a float; interpMethod is kept as
    the text; fillValue is NaN when the lower-cased text contains "nan" and
    the float conversion of the text otherwise. *)
Theorem read_template2inps_coerces tf inps w h t raw w1 template w2 inps' σ' :
  read_template tf w = (Ok raw, w1) ->
  check_template_auto_value raw w1 = (Ok template, w2) ->
  read_template2inps tf (Some inps) (Build_state w h t) = (Ok inps', σ') ->
  (forall s, template !! "pysar.geocode.SNWE" = Some (PStr s) -> s <> ""%string ->
     exists fs, floats_of_strs (split "," s) = Ok fs /\ SNWE inps' = Some fs)
  /\ (forall s, template !! "pysar.geocode.latStep" = Some (PStr s) -> s <> ""%string ->
        exists f, float_of_str s = Some f /\ latStep inps' = Some f)
  /\ (forall s, template !! "pysar.geocode.lonStep" = Some (PStr s) -> s <> ""%string ->
        exists f, float_of_str s = Some f /\ lonStep inps' = Some f)
  /\ (forall s, template !! "pysar.geocode.interpMethod" = Some (PStr s) -> s <> ""%string ->
        interpMethod inps' = PStr s)
  /\ (forall s, template !! "pysar.geocode.fillValue" = Some (PStr s) -> s <> ""%string ->
        if contains "nan" (lower s) then fillValue inps' = nan
        else exists f, float_of_str s = Some f /\ fillValue inps' = f).
Proof.
  intros Hr Hc Hrun.
  destruct (read_template2inps_ok_fields _ _ _ _ _ _ _ _ _ _ _ Hr Hc Hrun)
    as (H1 & H2 & H3 & H4 & H5).
  unfold set_by in *. norm_key_in H1. norm_key_in H2. norm_key_in H3.
  norm_key_in H4. norm_key_in H5.
  repeat split; intros s Hs Hne.
  - rewrite Hs, truthy_str in H1 by done.
    destruct H1 as (parts & fs & Hp & Hfs & ->). simpl in Hp. simplify_eq. eauto.
  - rewrite Hs, truthy_str in H2 by done.
    destruct H2 as (f & Hf & ->). simpl in Hf.
    destruct (float_of_str s); simplify_eq. eauto.
  - rewrite Hs, truthy_str in H3 by done.
    destruct H3 as (f & Hf & ->). simpl in Hf.
    destruct (float_of_str s); simplify_eq. eauto.
  - rewrite Hs, truthy_str in H4 by done. exact H4.
  - rewrite Hs, truthy_str in H5 by done.
    destruct H5 as (low & Hl & H5). simpl in Hl. simplify_eq.
    destruct (contains "nan" (lower s)); [exact H5 |].
    destruct H5 as (f & Hf & ->). simpl in Hf.
    destruct (float_of_str s); simplify_eq. eauto.
Qed.

(** C5, as the code has it: [read_template2inps] looks up exactly the
    five keys pysar.geocode.SNWE, .latStep, .lonStep, .interpMethod and
    .fillValue (two templates that agree on them give the same outcome, so
    pysar.geocode itself is not read); each of the five that is present
    with a true value sets its option in the record returned. *)
Theorem read_template2inps_recognized tf inps w h t raw w1 template w2 :
  read_template tf w = (Ok raw, w1) ->
  check_template_auto_value raw w1 = (Ok template, w2) ->
  (forall w' h' t' raw' w1' template' w2',
     read_template tf w' = (Ok raw', w1') ->
     check_template_auto_value raw' w1' = (Ok template', w2') ->
     (forall k, k ∈ recognized_keys -> template' !! k = template !! k) ->
     (read_template2inps tf (Some inps) (Build_state w' h' t')).1
     = (read_template2inps tf (Some inps) (Build_state w h t)).1)
  /\ (forall inps' σ',
        read_template2inps tf (Some inps) (Build_state w h t) = (Ok inps', σ') ->
        (forall v, template !! "pysar.geocode.SNWE" = Some v -> truthy v = true ->
           coerced_SNWE v (SNWE inps'))
        /\ (forall v, template !! "pysar.geocode.latStep" = Some v -> truthy v = true ->
              coerced_step v (latStep inps'))
        /\ (forall v, template !! "pysar.geocode.lonStep" = Some v -> truthy v = true ->
              coerced_step v (lonStep inps'))
        /\ (forall v, template !! "pysar.geocode.interpMethod" = Some v -> truthy v = true ->
              interpMethod inps' = v)
        /\ (forall v, template !! "pysar.geocode.fillValue" = Some v -> truthy v = true ->
              coerced_fill v (fillValue inps'))).
Proof.
  intros Hr Hc. split.
  - intros w' h' t' raw' w1' template' w2' Hr' Hc' Hagree.
    rewrite (run_read_template2inps _ _ _ _ _ _ _ _ _ Hr Hc).
    rewrite (run_read_template2inps _ _ _ _ _ _ _ _ _ Hr' Hc').
    cbn [fst]. by rewrite (five_steps_ext _ _ _ Hagree).
  - intros inps' σ' Hrun.
    destruct (read_template2inps_ok_fields _ _ _ _ _ _ _ _ _ _ _ Hr Hc Hrun)
      as (H1 & H2 & H3 & H4 & H5).
    unfold set_by in *. norm_key_in H1. norm_key_in H2. norm_key_in H3.
    norm_key_in H4. norm_key_in H5.
    repeat split; intros v Hv Htr.
    + by rewrite Hv, Htr in H1.
    + by rewrite Hv, Htr in H2.
    + by rewrite Hv, Htr in H3.
    + by rewrite Hv, Htr in H4.
    + by rewrite Hv, Htr in H5.
Qed.


End ReadTemplate.

(* ================================================================== *)
(** ** The log of calls *)
(* ================================================================== *)

Section Logging.

Context {ext : Externals}.
Implicit Types (σ : state) (h : list dict) (d : dict) (t : list event).

Lemma steps_app e1 e2 : steps (e1 ++ e2) = steps e1 ++ steps e2.
Proof. apply omap_app. Qed.

Lemma emits_bind {A B} (m : M A) (k : A -> M B) p1 p2 :
  emits m p1 -> (forall a, emits (k a) p2) -> emits (m ≫= k) (p1 ++ p2).
Proof.
  intros Hm Hk σ. rewrite run_bind.
  destruct (Hm σ) as (e1 & Ht1 & Hp1 & Hok1).
  destruct (m σ) as [[a | e | msg] σ1]; simpl in *.
  - destruct (Hk a σ1) as (e2 & Ht2 & Hp2 & Hok2).
    exists (e1 ++ e2). rewrite Ht2, Ht1, steps_app, Hok1, <- app_assoc by done.
    split; [done |]. split; [by apply prefix_app |].
    intros Hok. by rewrite Hok2.
  - exists e1. split; [done |]. split; [| done]. by apply prefix_app_r.
  - exists e1. split; [done |]. split; [| done]. by apply prefix_app_r.
Qed.

Lemma emits_bind_silent {A B} (m : M A) (k : A -> M B) p :
  emits m [] -> (forall a, emits (k a) p) -> emits (m ≫= k) p.
Proof. intros Hm Hk. by apply (emits_bind m k [] p). Qed.

Lemma emits_bind_step {A B} (m : M A) (k : A -> M B) s p :
  emits m [s] -> (forall a, emits (k a) p) -> emits (m ≫= k) (s :: p).
Proof. intros Hm Hk. by apply (emits_bind m k [s] p). Qed.

Lemma emits_quiet {A} (m : M A) : quiet m -> emits m [].
Proof.
  intros Hq σ. exists []. rewrite Hq, app_nil_r. split; [done |]. split; [| done].
  apply prefix_nil.
Qed.

Lemma emits_fail {A} (m : M A) p :
  quiet m -> (forall σ, is_ok (m σ).1 = false) -> emits m p.
Proof.
  intros Hq Hf σ. exists []. rewrite Hq, app_nil_r. split; [done |].
  split; [apply prefix_nil |]. by rewrite Hf.
Qed.

Lemma emits_bind_fail {A B} (m : M A) (k : A -> M B) p :
  quiet m -> (forall σ, is_ok (m σ).1 = false) -> emits (m ≫= k) p.
Proof.
  intros Hq Hf. apply emits_fail.
  - intros σ. rewrite run_bind. specialize (Hq σ). specialize (Hf σ).
    by destruct (m σ) as [[a | e | msg] σ1].
  - intros σ. rewrite run_bind. specialize (Hf σ).
    by destruct (m σ) as [[a | e | msg] σ1].
Qed.

Lemma emits_ret_bind {A B} (a : A) (k : A -> M B) p :
  emits (k a) p -> emits (mret a ≫= k) p.
Proof. intros H σ. exact (H σ). Qed.

Lemma quiet_ret {A} (a : A) : quiet (mret a : M A).
Proof. done. Qed.
Lemma quiet_lift {A} (r : result A) : quiet (lift r).
Proof. done. Qed.
Lemma quiet_raise {A} e : quiet (raise e : M A).
Proof. done. Qed.
Lemma quiet_exit {A} msg : quiet (sys_exit msg : M A).
Proof. done. Qed.
Lemma quiet_attr {A} (o : option A) : quiet (attr o).
Proof. by destruct o. Qed.
Lemma quiet_call {A} (f : world -> result A * world) : quiet (call f).
Proof. intros [w h t]. by rewrite run_call. Qed.
Lemma quiet_new_dict d : quiet (new_dict d).
Proof. done. Qed.
Lemma quiet_dict_load l : quiet (dict_load l).
Proof. intros σ. unfold dict_load. by destruct (st_heap σ !! l). Qed.
Lemma quiet_dict_store l d : quiet (dict_store l d).
Proof. done. Qed.

Lemma quiet_bind {A B} (m : M A) (k : A -> M B) :
  quiet m -> (forall a, quiet (k a)) -> quiet (m ≫= k).
Proof.
  intros Hm Hk σ. rewrite run_bind. specialize (Hm σ).
  destruct (m σ) as [[a | e | msg] σ1]; simpl in *; [| done | done].
  by rewrite Hk.
Qed.

Lemma quiet_dict_set l k v : quiet (dict_set l k v).
Proof. apply quiet_bind; [apply quiet_dict_load | intros; apply quiet_dict_store]. Qed.
Lemma quiet_dict_get l k : quiet (dict_get l k).
Proof.
  apply quiet_bind; [apply quiet_dict_load | intros d].
  destruct (d !! k); [apply quiet_ret | apply quiet_raise].
Qed.
Lemma quiet_dict_has l k : quiet (dict_has l k).
Proof. apply quiet_bind; [apply quiet_dict_load | intros; apply quiet_ret]. Qed.
Lemma quiet_dict_pop l k : quiet (dict_pop l k).
Proof.
  apply quiet_bind; [apply quiet_dict_load | intros d].
  destruct (d !! k); [| apply quiet_raise].
  apply quiet_bind; [apply quiet_dict_store | intros; apply quiet_ret].
Qed.
Lemma quiet_try (m : M unit) : quiet m -> quiet (try_except_pass m).
Proof.
  intros Hm σ. specialize (Hm σ). unfold try_except_pass.
  by destruct (m σ) as [[a | e | msg] σ1].
Qed.

Lemma emits_emit e :
  emits (emit e) (match step_of e with Some s => [s] | None => [] end).
Proof.
  intros [w h t]. exists [e]. rewrite run_emit. simpl.
  unfold steps. simpl. destruct (step_of e); done.
Qed.

End Logging.

Ltac quiet_tac :=
  repeat first
    [ apply quiet_dict_load | apply quiet_dict_set | apply quiet_dict_get
    | apply quiet_dict_has | apply quiet_dict_pop | apply quiet_new_dict
    | apply quiet_try | apply quiet_ret | apply quiet_lift | apply quiet_raise
    | apply quiet_exit | apply quiet_attr | apply quiet_call
    | apply quiet_bind; [| intros ]
    | match goal with
      | |- quiet (match ?x with _ => _ end) => destruct x
      end ].

Ltac emits_tac :=
  repeat first
    [ apply emits_quiet; solve [quiet_tac]
    | apply (emits_emit (EvPrint _)) | apply (emits_emit (EvWarn _))
    | apply emits_bind_silent; [| intros ]
    | match goal with
      | |- emits (match ?x with _ => _ end) _ => destruct x
      end ].

(* ================================================================== *)
(** ** cmd_line_parse, geocode_file and main *)
(* ================================================================== *)

Section Main.

Context {ext : Externals}.
Implicit Types (σ : state) (h : list dict) (d : dict) (t : list event).
Implicit Types (inps : options) (template : dict).

Lemma update_attribute_emits atr_in inps pm : emits (update_attribute atr_in inps pm) [].
Proof. unfold update_attribute, dict_copy. emits_tac. Qed.

Lemma geocode_file_emits infile inps res_obj :
  emits (geocode_file infile inps res_obj None) (file_steps infile).
Proof.
  unfold geocode_file, file_steps.
  do 2 (apply emits_bind_silent; [apply (emits_emit (EvPrint _)) | intros _]).
  apply emits_bind_step; [apply (emits_emit (EvRead _)) | intros _].
  apply emits_bind_silent; [emits_tac | intros [data atr_read]].
  apply emits_bind_silent; [emits_tac | intros atr].
  apply emits_bind_silent; [emits_tac | intros src].
  apply emits_bind_silent; [emits_tac | intros dst].
  apply emits_bind_step; [apply (emits_emit (EvResample _ _ _ _ _ _)) | intros _].
  apply emits_bind_silent; [emits_tac | intros geo_data].
  apply emits_bind_silent; [apply update_attribute_emits | intros atr'].
  apply emits_bind_silent; [emits_tac | intros atr_out].
  apply emits_bind_step; [apply (emits_emit (EvWrite _ _ _ _)) | intros _].
  emits_tac.
Qed.

Lemma geocode_files_emits files inps res_obj :
  emits (geocode_files files inps res_obj) (flat_map file_steps files).
Proof.
  revert inps. induction files as [| f rest IH]; intros inps.
  - simpl. emits_tac.
  - change (flat_map file_steps (f :: rest))
      with (file_steps f ++ flat_map file_steps rest).
    cbn [geocode_files].
    apply emits_bind; [apply geocode_file_emits | intros [out inps']]. apply IH.
Qed.

Lemma geocoding_stage_emits inps : emits (geocoding_stage inps) (plan inps).
Proof.
  unfold geocoding_stage, plan.
  apply emits_bind_silent; [emits_tac | intros start_time].
  destruct (file inps) as [| file0 rest] eqn:Hfile.
  { apply emits_bind_fail; [quiet_tac | done]. }
  apply emits_ret_bind.
  apply emits_bind_step; [apply (emits_emit (EvResampleNew _ _ _ _)) | intros _].
  apply emits_bind_silent; [emits_tac | intros res_obj].
  apply emits_bind_step; [apply (emits_emit (EvGeometryDefinition _)) | intros _].
  apply emits_bind_silent; [emits_tac | intros [[src dst] snwe]].
  cbn [file set_SNWE set_dest_def set_src_def]. rewrite Hfile.
  rewrite <- (app_nil_r (flat_map file_steps (file0 :: rest))).
  apply emits_bind; [apply geocode_files_emits | intros _].
  emits_tac.
Qed.

(** Resolving the options calls neither the resampler nor the readers and
    writers of raster files. *)
Lemma cmd_line_parse_emits iargs : emits (cmd_line_parse iargs) [].
Proof. unfold cmd_line_parse. emits_tac. Qed.

Lemma read_template2inps_emits tf inps : emits (read_template2inps tf (Some inps)) [].
Proof. unfold read_template2inps. emits_tac. Qed.

Lemma options_stage_emits iargs : emits (options_stage iargs) [].
Proof.
  unfold options_stage.
  apply emits_bind_silent; [apply cmd_line_parse_emits | intros inps].
  destruct (str_truthy (templateFile inps));
    [apply read_template2inps_emits | emits_tac].
Qed.

Lemma main_split iargs σ :
  main iargs σ = (options_stage iargs ≫= geocoding_stage) σ.
Proof.
  unfold main, options_stage, geocoding_stage. rewrite !run_bind.
  destruct (cmd_line_parse iargs σ) as [[inps | e | msg] σ1]; [| done | done].
  rewrite run_bind.
  by destruct ((if str_truthy (templateFile inps)
                then read_template2inps (default "" (templateFile inps)) (Some inps)
                else mret inps) σ1) as [[inps' | e | msg] σ2].
Qed.

(** The log of a run of [main], against the options the run resolved. *)
Lemma main_log iargs σ :
  exists evs : list event,
    st_trace (main iargs σ).2 = st_trace σ ++ evs /\
    match (options_stage iargs σ).1 with
    | Ok inps =>
        steps evs `prefix_of` plan inps /\
        (is_ok (main iargs σ).1 = true -> steps evs = plan inps)
    | _ => steps evs = [] /\ is_ok (main iargs σ).1 = false
    end.
Proof.
  rewrite main_split, run_bind.
  destruct (options_stage_emits iargs σ) as (e1 & Ht1 & Hp1 & Hok1).
  destruct (options_stage iargs σ) as [[inps | e | msg] σ1]; simpl in *.
  - destruct (geocoding_stage_emits inps σ1) as (e2 & Ht2 & Hp2 & Hok2).
    exists (e1 ++ e2). rewrite Ht2, Ht1, steps_app, Hok1, app_assoc by done. done.
  - exists e1. split; [done |]. split; [| done]. by apply prefix_nil_inv in Hp1.
  - exists e1. split; [done |]. split; [| done]. by apply prefix_nil_inv in Hp1.
Qed.

Lemma set_SNWE_same inps : set_SNWE (SNWE inps) inps = inps.
Proof. by destruct inps. Qed.

Lemma run_cmd_line_parse iargs w h t ns w1 files w2 :
  parse_args iargs w = (Ok ns, w1) ->
  get_file_list (file ns) w1 = (Ok files, w2) ->
  cmd_line_parse iargs (Build_state w h t)
  = if list_truthy files then
      match get_lookup_file (lookupFile ns) w2 with
      | (Ok lookup, w3) =>
          if str_truthy lookup
          then (Ok (resolved_options ns files lookup), Build_state w3 h t)
          else (Exit "ERROR: No lookup table found! Can not geocode without it.",
                Build_state w3 h t)
      | (Raise e, w3) => (Raise e, Build_state w3 h t)
      | (Exit msg, w3) => (Exit msg, Build_state w3 h t)
      end
    else (Exit "ERROR: no input file found!", Build_state w2 h t).
Proof.
  intros Hp Hf. unfold cmd_line_parse.
  rewrite run_bind, run_call, Hp. cbn [fst snd].
  rewrite run_bind, run_call, Hf. cbn [fst snd file set_file].
  destruct (list_truthy files); [| reflexivity]. cbn [negb].
  rewrite run_bind, run_call. cbn [lookupFile set_file].
  destruct (get_lookup_file (lookupFile ns) w2) as [[lookup | e | msg] w3];
    cbn [fst snd]; try reflexivity.
  cbn [lookupFile set_lookupFile].
  destruct (str_truthy lookup); [| reflexivity]. cbn [negb].
  rewrite run_ret. unfold resolved_options.
  by destruct (opt_list_truthy _); rewrite ?set_SNWE_same.
Qed.

Lemma cmd_line_parse_ok_inv iargs w h t inps σ1 :
  cmd_line_parse iargs (Build_state w h t) = (Ok inps, σ1) ->
  exists ns w1 files w2 lookup w3,
    parse_args iargs w = (Ok ns, w1) /\
    get_file_list (file ns) w1 = (Ok files, w2) /\ files <> [] /\
    get_lookup_file (lookupFile ns) w2 = (Ok lookup, w3) /\ str_truthy lookup = true /\
    inps = resolved_options ns files lookup /\ σ1 = Build_state w3 h t.
Proof.
  intros H.
  destruct (parse_args iargs w) as [[ns | e | msg] w1] eqn:Hp.
  2,3: by (unfold cmd_line_parse in H; rewrite run_bind, run_call, Hp in H).
  destruct (get_file_list (file ns) w1) as [[files | e | msg] w2] eqn:Hf.
  2,3: by (unfold cmd_line_parse in H;
           rewrite run_bind, run_call, Hp in H; cbn [fst snd] in H;
           rewrite run_bind, run_call, Hf in H).
  rewrite (run_cmd_line_parse _ _ _ _ _ _ _ _ Hp Hf) in H.
  destruct files as [| f fs]; [discriminate |]. cbn [list_truthy] in H.
  destruct (get_lookup_file (lookupFile ns) w2) as [[lookup | e | msg] w3] eqn:Hl;
    try discriminate.
  destruct (str_truthy lookup) eqn:Hs; [| discriminate].
  simplify_eq. by exists ns, w1, (f :: fs), w2, lookup, w3.
Qed.

Lemma read_template2inps_ok_inv tf inps0 w h t inps σ1 :
  read_template2inps tf (Some inps0) (Build_state w h t) = (Ok inps, σ1) ->
  exists raw w1 template w2 m,
    read_template tf w = (Ok raw, w1) /\
    check_template_auto_value raw w1 = (Ok template, w2) /\
    five_steps template inps0 = Ok m /\
    inps = set_laloStep (lalo_step m) m /\
    σ1 = Build_state w2 h (t ++ [template_message tf]).
Proof.
  intros H.
  destruct (read_template tf w) as [[raw | e | msg] w1] eqn:Hr.
  2,3: by (unfold read_template2inps in H;
           rewrite run_bind, run_emit in H; cbv beta iota in H;
           rewrite run_bind, run_ret in H; cbv beta iota in H;
           rewrite run_bind, run_call, Hr in H).
  destruct (check_template_auto_value raw w1) as [[template | e | msg] w2] eqn:Hc.
  2,3: by (unfold read_template2inps in H;
           rewrite run_bind, run_emit in H; cbv beta iota in H;
           rewrite run_bind, run_ret in H; cbv beta iota in H;
           rewrite run_bind, run_call, Hr in H; cbn [fst snd] in H;
           rewrite run_bind, run_call, Hc in H).
  rewrite (run_read_template2inps _ _ _ _ _ _ _ _ _ Hr Hc) in H.
  destruct (five_steps template inps0) as [m | |] eqn:E; simpl in H; try discriminate.
  simplify_eq. by exists raw, w1, template, w2, m.
Qed.

Lemma options_stage_ok_inv iargs w h t inps σ1 :
  options_stage iargs (Build_state w h t) = (Ok inps, σ1) ->
  exists inps0 w0,
    cmd_line_parse iargs (Build_state w h t) = (Ok inps0, Build_state w0 h t) /\
    ((str_truthy (templateFile inps0) = false /\ inps = inps0 /\ σ1 = Build_state w0 h t)
     \/ (exists tf, templateFile inps0 = Some tf /\ tf <> ""%string /\
           read_template2inps tf (Some inps0) (Build_state w0 h t) = (Ok inps, σ1))).
Proof.
  unfold options_stage. intros H.
  apply bind_ok in H as (inps0 & σ0 & Hc & H).
  pose proof Hc as Hc'.
  apply cmd_line_parse_ok_inv in Hc'
    as (ns & w1 & files & w2 & lookup & w3 & _ & _ & _ & _ & _ & _ & ->).
  exists inps0, w3. split; [exact Hc |].
  destruct (templateFile inps0) as [tf |] eqn:Htf; simpl in H.
  - destruct (String.eqb_spec tf "") as [-> | Hne]; simpl in H.
    + left. rewrite run_ret in H. by simplify_eq.
    + right. by exists tf.
  - left. rewrite run_ret in H. by simplify_eq.
Qed.

(** Whatever the template says, the input files and the lookup file stay
    those that [cmd_line_parse] resolved. *)
Lemma options_stage_files iargs w h t inps σ1 :
  options_stage iargs (Build_state w h t) = (Ok inps, σ1) -> file inps <> [].
Proof.
  intros H. apply options_stage_ok_inv in H as (inps0 & w0 & Hc & H).
  apply cmd_line_parse_ok_inv in Hc
    as (ns & w1 & files & w2 & lookup & w3 & _ & _ & Hne & _ & _ & -> & _).
  destruct H as [(_ & -> & _) | (tf & _ & _ & H)]; [exact Hne |].
  apply read_template2inps_ok_inv in H as (raw & w1' & template & w2' & m & _ & _ & E & -> & _).
  apply five_steps_ok in E as ((Hfile & _) & _). simpl in *. by rewrite Hfile.
Qed.

Lemma main_stops_with_cmd_line_parse iargs σ σ' :
  (forall msg, cmd_line_parse iargs σ = (Exit msg, σ') -> main iargs σ = (Exit msg, σ'))
  /\ (forall e, cmd_line_parse iargs σ = (Raise e, σ') -> main iargs σ = (Raise e, σ')).
Proof. split; intros x H; unfold main; by rewrite run_bind, H. Qed.

(** C1: once argparse has returned the parsed options and the input-file
    list has been resolved, [cmd_line_parse] ends the process with the
    message "ERROR: no input file found!" when that list is empty, and with
    "ERROR: No lookup table found! Can not geocode without it." when the
    list is not empty but no lookup file is resolved ([main] ends the same
    way, nothing else having been printed); when both are found it returns
    the parsed options, with the resolved files and lookup file, without
    exiting. *)
Theorem cmd_line_parse_exits_or_returns iargs w h t ns w1 files w2 :
  parse_args iargs w = (Ok ns, w1) ->
  get_file_list (file ns) w1 = (Ok files, w2) ->
  (files = [] ->
     cmd_line_parse iargs (Build_state w h t)
     = (Exit "ERROR: no input file found!", Build_state w2 h t)
     /\ main iargs (Build_state w h t)
        = (Exit "ERROR: no input file found!", Build_state w2 h t))
  /\ (forall lookup w3,
        files <> [] ->
        get_lookup_file (lookupFile ns) w2 = (Ok lookup, w3) ->
        (str_truthy lookup = false ->
           cmd_line_parse iargs (Build_state w h t)
           = (Exit "ERROR: No lookup table found! Can not geocode without it.",
              Build_state w3 h t)
           /\ main iargs (Build_state w h t)
              = (Exit "ERROR: No lookup table found! Can not geocode without it.",
                 Build_state w3 h t))
        /\ (str_truthy lookup = true ->
              cmd_line_parse iargs (Build_state w h t)
              = (Ok (resolved_options ns files lookup), Build_state w3 h t))).
Proof.
  intros Hp Hf. pose proof (run_cmd_line_parse iargs w h t ns w1 files w2 Hp Hf) as Hrun.
  split.
  - intros ->. cbn [list_truthy] in Hrun. split; [exact Hrun |].
    by apply main_stops_with_cmd_line_parse.
  - intros lookup w3 Hne Hl. destruct files as [| f fs]; [done |].
    cbn [list_truthy] in Hrun. rewrite Hl in Hrun. split; intros Hs; rewrite Hs in Hrun.
    + split; [exact Hrun |]. by apply main_stops_with_cmd_line_parse.
    + exact Hrun.
Qed.

Lemma new_events_app {A} (m : M A) σ evs :
  st_trace (m σ).2 = st_trace σ ++ evs -> new_events m σ = evs.
Proof. intros H. unfold new_events. rewrite H. apply drop_app_length. Qed.

(** C7: in a run of [main] that resolved its options, the calls made are,
    in this order, one construction of the resampler from the first input
    file, one computation of the geometry definitions, and then for each
    input file in turn, in the order of the list, its read, its resampling
    and its write; a run that an exception cuts short has made a beginning
    of this sequence, and a run that ends normally has made all of it. *)
Theorem main_geocodes_files_in_order iargs σ inps σ1 :
  options_stage iargs σ = (Ok inps, σ1) ->
  exists file0 rest,
    file inps = file0 :: rest /\
    let calls := steps (new_events (main iargs) σ) in
    let all_calls :=
      SNew (lookupFile inps) file0 (SNWE inps) (latStep inps)
      :: SGeometry :: flat_map file_steps (file0 :: rest) in
    calls `prefix_of` all_calls /\
    ((main iargs σ).1 = Ok tt -> calls = all_calls).
Proof.
  intros Hopt. destruct σ as [w h t].
  pose proof (options_stage_files _ _ _ _ _ _ Hopt) as Hne.
  destruct (file inps) as [| file0 rest] eqn:Hfile; [done |].
  exists file0, rest. split; [reflexivity |]. cbv zeta.
  destruct (main_log iargs (Build_state w h t)) as (evs & Ht & Hlog).
  rewrite Hopt in Hlog. cbn [fst] in Hlog. unfold plan in Hlog. rewrite Hfile in Hlog.
  rewrite (new_events_app _ _ _ Ht). destruct Hlog as [Hp Hok].
  split; [exact Hp |]. intros Hmain. apply Hok. by rewrite Hmain.
Qed.

Lemma elem_of_steps e s : step_of e = Some s -> forall evs, e ∈ evs -> s ∈ steps evs.
Proof. intros He evs Hin. unfold steps. apply list_elem_of_omap. eauto. Qed.

Lemma elem_of_prefix {A} (l1 l2 : list A) x : l1 `prefix_of` l2 -> x ∈ l1 -> x ∈ l2.
Proof. intros [k ->] Hx. apply elem_of_app. by left. Qed.

Lemma elem_of_file_steps s files :
  s ∈ flat_map file_steps files ->
  exists f, f ∈ files /\
    (s = SRead f \/ s = SResample \/ s = SWrite (geo_name f) f).
Proof.
  intros H. apply list_elem_of_In, in_flat_map in H as (f & Hf & Hs).
  exists f. split; [by apply list_elem_of_In |].
  unfold file_steps in Hs. simpl in Hs.
  destruct Hs as [<- | [<- | [<- | []]]]; auto.
Qed.

(** The calls of a run, whatever its end, are calls of the plan of its
    options; a run that resolved no options made none. *)
Lemma main_calls_planned iargs σ s :
  s ∈ steps (new_events (main iargs) σ) ->
  exists inps σ1, options_stage iargs σ = (Ok inps, σ1) /\ s ∈ plan inps.
Proof.
  destruct (main_log iargs σ) as (evs & Ht & Hlog).
  rewrite (new_events_app _ _ _ Ht). intros Hs.
  destruct (options_stage iargs σ) as [[inps | e | msg] σ1]; cbn [fst] in Hlog.
  - exists inps, σ1. split; [reflexivity |]. destruct Hlog as [Hp _].
    by apply (elem_of_prefix _ _ _ Hp).
  - destruct Hlog as [Hnil _]. rewrite Hnil in Hs. by apply elem_of_nil in Hs.
  - destruct Hlog as [Hnil _]. rewrite Hnil in Hs. by apply elem_of_nil in Hs.
Qed.

(** C9: [main] never hands the value of -o/--output to [geocode_file]:
    whatever the invocation, every write that the run makes ([SWrite] is
    the call of writefile.write without its data) is made for one of the
    input files, under the name made of that file's directory and of 'geo_'
    followed by its base name. *)
Theorem main_writes_geo_names iargs σ out_file in_file :
  SWrite out_file in_file ∈ steps (new_events (main iargs) σ) ->
  out_file
  = PosixPath.join (PosixPath.dirname in_file) ("geo_" +:+ PosixPath.basename in_file)
  /\ exists inps σ1, options_stage iargs σ = (Ok inps, σ1) /\ in_file ∈ file inps.
Proof.
  intros Hin.
  apply main_calls_planned in Hin as (inps & σ1 & Hopt & Hs).
  unfold plan in Hs. destruct (file inps) as [| file0 rest] eqn:Hfile;
    [by apply elem_of_nil in Hs |].
  rewrite !elem_of_cons in Hs. destruct Hs as [Hs | [Hs | Hs]]; [done | done |].
  apply elem_of_file_steps in Hs as (f & Hf & [Hs | [Hs | Hs]]); try done.
  simplify_eq. split; [reflexivity |]. exists inps, σ1. by rewrite Hfile.
Qed.

Lemma set_by_functional {A} template template' key (old new new' : A)
    (c : pyval -> A -> Prop) :
  (forall v x y, c v x -> c v y -> x = y) ->
  template' !! (prefix +:+ key) = template !! (prefix +:+ key) ->
  set_by template key old new c -> set_by template' key old new' c -> new' = new.
Proof.
  intros Hc Hk. unfold set_by. rewrite Hk.
  destruct (template !! (prefix +:+ key)) as [v |]; [| congruence].
  destruct (truthy v); [| congruence]. intros H1 H2. by eapply Hc.
Qed.

Lemma coerced_SNWE_functional v x y : coerced_SNWE v x -> coerced_SNWE v y -> x = y.
Proof. intros (p & fs & ? & ? & ->) (p' & fs' & ? & ? & ->). congruence. Qed.

Lemma coerced_step_functional v x y : coerced_step v x -> coerced_step v y -> x = y.
Proof. intros (f & ? & ->) (f' & ? & ->). congruence. Qed.

(** The template loop passes on to the resampler nothing that depends on the
    longitude step, neither the option nor the template entry. *)
Lemma five_steps_resampler_args template template' i i' m m' :
  (forall k, k <> "pysar.geocode.lonStep"%string -> template' !! k = template !! k) ->
  file i' = file i -> lookupFile i' = lookupFile i ->
  SNWE i' = SNWE i -> latStep i' = latStep i ->
  five_steps template i = Ok m -> five_steps template' i' = Ok m' ->
  resampler_args m' = resampler_args m.
Proof.
  intros Hk Hfile Hlookup Hsnwe Hlat E E'.
  apply five_steps_ok in E as ((Hf & Hl & _) & Hs & Hy & _).
  apply five_steps_ok in E' as ((Hf' & Hl' & _) & Hs' & Hy' & _).
  rewrite Hsnwe in Hs'. rewrite Hlat in Hy'.
  unfold resampler_args.
  rewrite Hf, Hl, Hf', Hl', Hfile, Hlookup.
  assert (K1 : template' !! (prefix +:+ "SNWE") = template !! (prefix +:+ "SNWE"))
    by (by apply Hk).
  assert (K2 : template' !! (prefix +:+ "latStep") = template !! (prefix +:+ "latStep"))
    by (by apply Hk).
  rewrite (set_by_functional _ _ _ _ _ _ _ coerced_SNWE_functional K1 Hs Hs').
  by rewrite (set_by_functional _ _ _ _ _ _ _ coerced_step_functional K2 Hy Hy').
Qed.

End Main.

(* ================================================================== *)
(** ** update_attribute: the reference pixel, and what it rejects *)
(* ================================================================== *)

Ltac fwd_get H := rewrite run_bind, run_dict_get_fresh, H; cbv beta iota.

Section UpdateReference.
Context {ext : Externals}.
Implicit Types (σ : state) (h : list dict) (d : dict) (t : list event).

(** The first half of [update_attribute], run forwards. *)
Lemma run_update_attribute_header atr_in inps pm w h t d0 len wid (S N W E ys xs : float) :
  h !! atr_in = Some d0 ->
  header_inputs inps len wid S N W E ys xs ->
  update_attribute atr_in inps pm (Build_state w h t)
  = update_reference (length h) atr_in inps pm
      (Build_state w (h ++ [geo_fields len wid N W ys xs d0]) t).
Proof.
  intros Hd0 ([front Hshape] & Hsnwe & Hys & Hxs).
  unfold update_attribute. rewrite Hshape, Hsnwe.
  rewrite run_bind, (run_dict_copy _ _ _ _ _ Hd0). cbv beta iota.
  rewrite run_bind. unfold attr at 1. rewrite run_ret. cbv beta iota.
  fwd_lift (last_two_app front len wid). fwd_set. fwd_set.
  rewrite run_bind, run_ret. cbv beta iota.
  rewrite run_bind, run_lift. cbn [tuple_get lookup list_lookup]. cbv beta iota. fwd_set.
  rewrite run_bind, run_lift. cbn [tuple_get lookup list_lookup]. cbv beta iota. fwd_set.
  rewrite run_bind, run_lift. cbn [tuple_get lookup list_lookup]. cbv beta iota.
  fwd_lift Hys. fwd_set.
  rewrite run_bind, run_lift. cbn [tuple_get lookup list_lookup]. cbv beta iota.
  fwd_lift Hxs. fwd_set. fwd_set. fwd_set.
  reflexivity.
Qed.


Lemma geo_fields_ref len wid (n w ys xs : float) d0 k :
  k ∈ ["REF_Y"; "REF_X"; "REF_LAT"; "REF_LON"]%string ->
  geo_fields len wid n w ys xs d0 !! k = d0 !! k.
Proof.
  intros Hk. apply geo_fields_lookup_ne.
  rewrite !elem_of_cons in Hk.
  destruct_or!; try (by apply elem_of_nil in Hk); subst k; solve_notin.
Qed.

(** The reference branch up to the answer of the lookup table. *)
Lemma run_update_reference_lookup l atr_in inps pm w h t d0 d ry y rx x r w' :
  h !! atr_in = Some d0 -> l = length h ->
  d !! "REF_Y" = Some ry -> py_int ry = Ok y ->
  d !! "REF_X" = Some rx -> py_int rx = Ok x ->
  radar2glob y x (lookupFile inps) d0 w = (r, w') ->
  update_reference l atr_in inps pm (Build_state w (h ++ [d]) t)
  = match r with
    | Ok (ref_lat, ref_lon) =>
        ((if negb (is_nan ref_lat) && negb (is_nan ref_lon) then
            y_first ← dict_get l "Y_FIRST";
            y0 ← lift (py_float y_first);
            y_step ← dict_get l "Y_STEP";
            dy ← lift (py_float y_step);
            ref_y ← lift (int_rint ((ref_lat - y0) / dy));
            x_first ← dict_get l "X_FIRST";
            x0 ← lift (py_float x_first);
            x_step ← dict_get l "X_STEP";
            dx ← lift (py_float x_step);
            ref_x ← lift (int_rint ((ref_lon - x0) / dx));
            dict_set l "REF_LAT" (PStr (str_of_float ref_lat));;
            dict_set l "REF_LON" (PStr (str_of_float ref_lon));;
            dict_set l "REF_Y" (PStr (str_of_int ref_y));;
            dict_set l "REF_X" (PStr (str_of_int ref_x));;
            if pm then emit (EvPrint "update REF_LAT/LON/Y/X") else mret tt
          else
            emit (EvWarn out_of_coverage);;
            try_except_pass (dict_pop l "REF_Y";; dict_pop l "REF_X";; mret tt);;
            try_except_pass (dict_pop l "REF_LAT";; dict_pop l "REF_LON";; mret tt));;
         mret l) (Build_state w' (h ++ [d]) t)
    | Raise e => (Raise e, Build_state w' (h ++ [d]) t)
    | Exit msg => (Exit msg, Build_state w' (h ++ [d]) t)
    end.
Proof.
  intros Hd0 -> Hry Hy Hrx Hx Hr. unfold update_reference.
  rewrite run_bind, run_dict_has_fresh, Hry. cbv beta iota.
  rewrite bool_decide_eq_true_2 by eauto.
  rewrite run_bind. fwd_get Hry. fwd_lift Hy. fwd_get Hrx. fwd_lift Hx.
  rewrite run_bind, (run_dict_load_old _ _ _ _ _ _ Hd0). cbv beta iota.
  rewrite run_bind, run_call, Hr. cbn [fst snd].
  destruct r as [[lat lon] | e | msg]; reflexivity.
Qed.


Lemma ref_fields_lookup lat lon ry rx d :
  let d' := ref_fields lat lon ry rx d in
  d' !! "REF_LAT" = Some (PStr (str_of_float lat)) /\
  d' !! "REF_LON" = Some (PStr (str_of_float lon)) /\
  d' !! "REF_Y" = Some (PStr (str_of_int ry)) /\
  d' !! "REF_X" = Some (PStr (str_of_int rx)).
Proof. unfold ref_fields. cbv zeta. repeat split; by simplify_map_eq. Qed.

(** X1: when the metadata names a reference pixel (REF_Y, REF_X) that the
    lookup table maps to a latitude and a longitude (neither is NaN),
    [update_attribute] returns a copy in which REF_LAT and REF_LON are the
    texts of the two coordinates and REF_Y and REF_X the texts of the grid
    positions (lat - N) / Y_STEP and (lon - W) / X_STEP, rounded; it prints
    "update REF_LAT/LON/Y/X" when print_msg is set and nothing otherwise.
    The lookup table is asked with the metadata as they came in. *)
Theorem update_attribute_reference_inside atr_in inps pm w h t d0 len wid
    (S N W E ys xs : float) ry y rx x (lat lon : float) w' ref_y ref_x :
  h !! atr_in = Some d0 ->
  header_inputs inps len wid S N W E ys xs ->
  d0 !! "REF_Y" = Some ry -> py_int ry = Ok y ->
  d0 !! "REF_X" = Some rx -> py_int rx = Ok x ->
  radar2glob y x (lookupFile inps) d0 w = (Ok (lat, lon), w') ->
  is_nan lat = false -> is_nan lon = false ->
  int_rint ((lat - N) / ys) = Ok ref_y ->
  int_rint ((lon - W) / xs) = Ok ref_x ->
  exists d,
    update_attribute atr_in inps pm (Build_state w h t)
    = (Ok (length h),
       Build_state w' (h ++ [d])
         (t ++ if pm then [EvPrint "update REF_LAT/LON/Y/X"] else [])) /\
    d !! "REF_LAT" = Some (PStr (str_of_float lat)) /\
    d !! "REF_LON" = Some (PStr (str_of_float lon)) /\
    d !! "REF_Y" = Some (PStr (str_of_int ref_y)) /\
    d !! "REF_X" = Some (PStr (str_of_int ref_x)) /\
    (forall k, k ∉ ["REF_Y"; "REF_X"; "REF_LAT"; "REF_LON"]%string ->
       d !! k = geo_fields len wid N W ys xs d0 !! k).
Proof.
  intros Hd0 Hin Hry Hy Hrx Hx Hr Hlat Hlon Hrefy Hrefx.
  exists (ref_fields lat lon ref_y ref_x (geo_fields len wid N W ys xs d0)).
  split.
  - rewrite (run_update_attribute_header _ _ _ _ _ _ _ _ _ _ _ _ _ _ _ Hd0 Hin).
    rewrite (run_update_reference_lookup _ _ _ _ _ _ _ d0 _ ry y rx x (Ok (lat, lon)) w'
               Hd0 eq_refl);
      [| by rewrite geo_fields_ref by (rewrite !elem_of_cons; auto) | exact Hy
       | by rewrite geo_fields_ref by (rewrite !elem_of_cons; auto) | exact Hx | exact Hr].
    rewrite Hlat, Hlon. cbn [negb andb].
    destruct (geo_fields_lookup len wid N W ys xs d0)
      as (_ & _ & Hyf & Hxf & Hys & Hxs & _).
    rewrite run_bind.
    fwd_get Hyf. rewrite run_bind, run_lift. cbn [py_float]. cbv beta iota.
    fwd_get Hys. rewrite run_bind, run_lift. cbn [py_float]. cbv beta iota.
    fwd_lift Hrefy.
    fwd_get Hxf. rewrite run_bind, run_lift. cbn [py_float]. cbv beta iota.
    fwd_get Hxs. rewrite run_bind, run_lift. cbn [py_float]. cbv beta iota.
    fwd_lift Hrefx.
    fwd_set. fwd_set. fwd_set. fwd_set.
    fold (ref_fields lat lon ref_y ref_x (geo_fields len wid N W ys xs d0)).
    destruct pm.
    + rewrite run_emit. cbv beta iota. reflexivity.
    + rewrite run_ret. cbv beta iota. rewrite run_ret, app_nil_r. reflexivity.
  - destruct (ref_fields_lookup lat lon ref_y ref_x (geo_fields len wid N W ys xs d0))
      as (H1 & H2 & H3 & H4).
    repeat (split; [assumption |]).
    intros k Hk. by apply ref_fields_lookup_ne.
Qed.

Lemma drop_pair_lookup k1 k2 d :
  let d' := drop_pair k1 k2 d in
  d' !! k1 = None /\
  (is_Some (d !! k1) -> d' !! k2 = None) /\
  (d !! k1 = None -> d' = d).
Proof.
  unfold drop_pair. cbv zeta. destruct (d !! k1) as [v |] eqn:E.
  - split; [| split].
    + destruct (decide (k1 = k2)) as [-> | Hne].
      * by rewrite lookup_delete_eq.
      * by rewrite lookup_delete_ne, lookup_delete_eq.
    + intros _. by rewrite lookup_delete_eq.
    + discriminate.
  - split; [exact E | split; [intros [? ?]; discriminate | reflexivity]].
Qed.

(** X2: when the lookup table has no answer for the reference pixel (a
    coordinate is NaN), [update_attribute] still returns: it warns, whatever
    print_msg says, and removes REF_Y and REF_X from the copy; REF_LAT and
    REF_LON are removed when the metadata had a REF_LAT, and a REF_LON
    without a REF_LAT stays as it was. *)
Theorem update_attribute_reference_outside atr_in inps pm w h t d0 len wid
    (S N W E ys xs : float) ry y rx x (lat lon : float) w' :
  h !! atr_in = Some d0 ->
  header_inputs inps len wid S N W E ys xs ->
  d0 !! "REF_Y" = Some ry -> py_int ry = Ok y ->
  d0 !! "REF_X" = Some rx -> py_int rx = Ok x ->
  radar2glob y x (lookupFile inps) d0 w = (Ok (lat, lon), w') ->
  is_nan lat = true \/ is_nan lon = true ->
  exists d,
    update_attribute atr_in inps pm (Build_state w h t)
    = (Ok (length h), Build_state w' (h ++ [d]) (t ++ [EvWarn out_of_coverage])) /\
    d !! "REF_Y" = None /\ d !! "REF_X" = None /\
    (is_Some (d0 !! "REF_LAT") -> d !! "REF_LAT" = None /\ d !! "REF_LON" = None) /\
    (d0 !! "REF_LAT" = None -> d !! "REF_LAT" = None /\ d !! "REF_LON" = d0 !! "REF_LON") /\
    (forall k, k ∉ ["REF_Y"; "REF_X"; "REF_LAT"; "REF_LON"]%string ->
       d !! k = geo_fields len wid N W ys xs d0 !! k).
Proof.
  intros Hd0 Hin Hry Hy Hrx Hx Hr Hnan.
  set (d1 := geo_fields len wid N W ys xs d0).
  assert (G : forall k, k ∈ ["REF_Y"; "REF_X"; "REF_LAT"; "REF_LON"]%string ->
                d1 !! k = d0 !! k) by (intros k Hk; by apply geo_fields_ref).
  assert (Gy := G "REF_Y"%string ltac:(rewrite !elem_of_cons; auto)).
  assert (Gx := G "REF_X"%string ltac:(rewrite !elem_of_cons; auto)).
  assert (Glat := G "REF_LAT"%string ltac:(rewrite !elem_of_cons; auto)).
  assert (Glon := G "REF_LON"%string ltac:(rewrite !elem_of_cons; auto 10)).
  exists (drop_pair "REF_LAT" "REF_LON" (drop_pair "REF_Y" "REF_X" d1)).
  split.
  - rewrite (run_update_attribute_header _ _ _ _ _ _ _ _ _ _ _ _ _ _ _ Hd0 Hin).
    fold d1.
    rewrite (run_update_reference_lookup _ _ _ _ _ _ _ d0 _ ry y rx x (Ok (lat, lon)) w'
               Hd0 eq_refl);
      [| by rewrite Gy | exact Hy | by rewrite Gx | exact Hx | exact Hr].
    assert (negb (is_nan lat) && negb (is_nan lon) = false) as ->
      by (destruct Hnan as [-> | ->]; [reflexivity | apply andb_false_r]).
    rewrite run_bind, run_bind, run_emit. cbv beta iota.
    rewrite run_bind, run_try_pop_pair. cbv beta iota.
    rewrite run_try_pop_pair. cbv beta iota. rewrite run_ret. reflexivity.
  - set (d2 := drop_pair "REF_Y" "REF_X" d1).
    assert (Hd2 : d2 = delete "REF_X" (delete "REF_Y" d1)).
    { unfold d2, drop_pair. by rewrite Gy, Hry. }
    assert (L2 : forall k, k <> "REF_Y"%string -> k <> "REF_X"%string -> d2 !! k = d1 !! k).
    { intros k H1 H2. by apply drop_pair_lookup_ne. }
    destruct (drop_pair_lookup "REF_LAT" "REF_LON" d2) as (D1 & D2 & D3). cbv zeta in *.
    split; [| split; [| split; [| split]]].
    + rewrite drop_pair_lookup_ne by done. rewrite Hd2.
      by rewrite lookup_delete_ne, lookup_delete_eq.
    + rewrite drop_pair_lookup_ne by done. rewrite Hd2. by rewrite lookup_delete_eq.
    + intros Hsome. split; [exact D1 |]. apply D2.
      rewrite L2 by done. by rewrite Glat.
    + intros Hnone. split; [exact D1 |]. rewrite D3.
      * rewrite L2 by done. exact Glon.
      * rewrite L2 by done. by rewrite Glat.
    + intros k Hk. rewrite !not_elem_of_cons in Hk. destruct Hk as (K1 & K2 & K3 & K4 & _).
      rewrite drop_pair_lookup_ne by assumption. apply L2; assumption.
Qed.

(** X3: a reference pixel that cannot be read stops [update_attribute]
    before the lookup table is asked: with the exception of int() when REF_Y
    or REF_X is no integer, with KeyError('REF_X') when there is a REF_Y and
    no REF_X.  The copy has the geographic header by then, the world is as
    it was and nothing has been printed. *)
Theorem update_attribute_reference_unreadable atr_in inps pm w h t d0 len wid
    (S N W E ys xs : float) ry :
  h !! atr_in = Some d0 ->
  header_inputs inps len wid S N W E ys xs ->
  d0 !! "REF_Y" = Some ry ->
  let σ' := Build_state w (h ++ [geo_fields len wid N W ys xs d0]) t in
  (forall e, py_int ry = Raise e ->
     update_attribute atr_in inps pm (Build_state w h t) = (Raise e, σ'))
  /\ (forall y, py_int ry = Ok y -> d0 !! "REF_X" = None ->
        update_attribute atr_in inps pm (Build_state w h t) = (Raise (KeyError "REF_X"), σ'))
  /\ (forall y rx e, py_int ry = Ok y -> d0 !! "REF_X" = Some rx -> py_int rx = Raise e ->
        update_attribute atr_in inps pm (Build_state w h t) = (Raise e, σ')).
Proof.
  intros Hd0 Hin Hry. cbv zeta.
  rewrite (run_update_attribute_header _ _ _ _ _ _ _ _ _ _ _ _ _ _ _ Hd0 Hin).
  set (d1 := geo_fields len wid N W ys xs d0).
  assert (Gy : d1 !! "REF_Y" = Some ry)
    by (unfold d1; by rewrite geo_fields_ref by (rewrite !elem_of_cons; auto)).
  assert (Gx : d1 !! "REF_X" = d0 !! "REF_X")
    by (unfold d1; by rewrite geo_fields_ref by (rewrite !elem_of_cons; auto)).
  assert (Hstart : forall (k : bool -> M loc),
            (dict_has (length h) "REF_Y" ≫= k) (Build_state w (h ++ [d1]) t)
            = k true (Build_state w (h ++ [d1]) t)).
  { intros k. rewrite run_bind, run_dict_has_fresh, Gy.
    by rewrite bool_decide_eq_true_2 by eauto. }
  unfold update_reference. rewrite Hstart. rewrite run_bind.
  repeat split.
  - intros e He. fwd_get Gy. rewrite run_bind, run_lift, He. reflexivity.
  - intros y Hy Hrx. fwd_get Gy. fwd_lift Hy.
    rewrite run_bind, run_dict_get_fresh, Gx, Hrx. reflexivity.
  - intros y rx e Hy Hrx He. fwd_get Gy. fwd_lift Hy.
    rewrite run_bind, run_dict_get_fresh, Gx, Hrx. cbv beta iota.
    rewrite run_bind, run_lift, He. reflexivity.
Qed.

(** X4: without REF_Y, [update_attribute] returns the copy with the eight
    header entries (Y_UNIT and X_UNIT are 'degrees') and every other entry
    as it came in, REF_X, REF_LAT and REF_LON included; the lookup table is
    not asked and nothing is printed. *)
Theorem update_attribute_without_reference atr_in inps pm w h t d0 len wid
    (S N W E ys xs : float) :
  h !! atr_in = Some d0 ->
  header_inputs inps len wid S N W E ys xs ->
  d0 !! "REF_Y" = None ->
  exists d,
    update_attribute atr_in inps pm (Build_state w h t)
    = (Ok (length h), Build_state w (h ++ [d]) t) /\
    d !! "LENGTH" = Some (PInt len) /\ d !! "WIDTH" = Some (PInt wid) /\
    d !! "Y_FIRST" = Some (PFloat N) /\ d !! "X_FIRST" = Some (PFloat W) /\
    d !! "Y_STEP" = Some (PFloat ys) /\ d !! "X_STEP" = Some (PFloat xs) /\
    d !! "Y_UNIT" = Some (PStr "degrees") /\ d !! "X_UNIT" = Some (PStr "degrees") /\
    (forall k,
       k ∉ ["LENGTH"; "WIDTH"; "Y_FIRST"; "X_FIRST"; "Y_STEP"; "X_STEP";
            "Y_UNIT"; "X_UNIT"]%string ->
       d !! k = d0 !! k).
Proof.
  intros Hd0 Hin Hno.
  exists (geo_fields len wid N W ys xs d0). split.
  - rewrite (run_update_attribute_header _ _ _ _ _ _ _ _ _ _ _ _ _ _ _ Hd0 Hin).
    unfold update_reference.
    rewrite run_bind, run_dict_has_fresh. cbv beta iota.
    rewrite geo_fields_ref, Hno by (rewrite !elem_of_cons; auto).
    rewrite bool_decide_eq_false_2 by (intros [? ?]; discriminate).
    rewrite run_bind, run_ret. cbv beta iota. by rewrite run_ret.
  - destruct (geo_fields_lookup len wid N W ys xs d0)
      as (H1 & H2 & H3 & H4 & H5 & H6 & H7 & H8).
    repeat (split; [assumption |]).
    intros k Hk. by apply geo_fields_lookup_ne.
Qed.


Lemma last_two_short shape : (length shape < 2)%nat -> last_two shape = Raise ValueError.
Proof.
  intros H. unfold last_two.
  destruct (rev shape) as [| a [| b r]] eqn:E; [reflexivity | reflexivity |].
  apply (f_equal length) in E. rewrite length_rev in E. simpl in E. lia.
Qed.

(** X5: [update_attribute] checks neither the shape nor the box before it
    uses them: an output shape of fewer than two dimensions raises
    ValueError (the unpacking of length and width), a box that is None
    raises TypeError, and a box of fewer than four numbers raises
    IndexError. *)
Theorem update_attribute_rejects atr_in inps pm w h t d0 :
  h !! atr_in = Some d0 ->
  let outcome := (update_attribute atr_in inps pm (Build_state w h t)).1 in
  (forall shape, outShape inps = Some shape -> (length shape < 2)%nat ->
     outcome = Raise ValueError)
  /\ (forall front len wid,
        outShape inps = Some (front ++ [len; wid]) -> SNWE inps = None ->
        outcome = Raise TypeError)
  /\ (forall front len wid snwe,
        outShape inps = Some (front ++ [len; wid]) -> SNWE inps = Some snwe ->
        (length snwe < 3)%nat ->
        outcome = Raise IndexError)
  /\ (forall front len wid (S N W ys : float),
        outShape inps = Some (front ++ [len; wid]) -> SNWE inps = Some [S; N; W] ->
        truediv_int (S - N) len = Ok ys ->
        outcome = Raise IndexError).
Proof.
  intros Hd0. cbv zeta. unfold update_attribute.
  rewrite run_bind, (run_dict_copy _ _ _ _ _ Hd0). cbv beta iota.
  split; [| split; [| split]].
  - intros shape Hshape Hlen. rewrite Hshape.
    rewrite run_bind. unfold attr at 1. rewrite run_ret. cbv beta iota.
    by rewrite run_bind, run_lift, (last_two_short _ Hlen).
  - intros front len wid Hshape Hsnwe. rewrite Hshape, Hsnwe.
    rewrite run_bind. unfold attr at 1. rewrite run_ret. cbv beta iota.
    fwd_lift (last_two_app front len wid). fwd_set. fwd_set.
    by rewrite run_bind.
  - intros front len wid snwe Hshape Hsnwe Hlen. rewrite Hshape, Hsnwe.
    rewrite run_bind. unfold attr at 1. rewrite run_ret. cbv beta iota.
    fwd_lift (last_two_app front len wid). fwd_set. fwd_set.
    rewrite run_bind, run_ret. cbv beta iota.
    destruct snwe as [| s [| n [| west r]]]; [| | | simpl in Hlen; lia].
    + by rewrite run_bind, run_lift.
    + by rewrite run_bind, run_lift.
    + rewrite run_bind, run_lift. cbn [tuple_get lookup list_lookup]. cbv beta iota. fwd_set.
      by rewrite run_bind, run_lift.
  - intros front len wid S N W ys Hshape Hsnwe Hys. rewrite Hshape, Hsnwe.
    rewrite run_bind. unfold attr at 1. rewrite run_ret. cbv beta iota.
    fwd_lift (last_two_app front len wid). fwd_set. fwd_set.
    rewrite run_bind, run_ret. cbv beta iota.
    rewrite run_bind, run_lift. cbn [tuple_get lookup list_lookup]. cbv beta iota. fwd_set.
    rewrite run_bind, run_lift. cbn [tuple_get lookup list_lookup]. cbv beta iota. fwd_set.
    rewrite run_bind, run_lift. cbn [tuple_get lookup list_lookup]. cbv beta iota.
    fwd_lift Hys. fwd_set.
    by rewrite run_bind, run_lift.
Qed.

End UpdateReference.

(* ================================================================== *)
(** ** read_template2inps: what it leaves alone *)
(* ================================================================== *)

Section ReadTemplateMore.
Context {ext : Externals}.
Implicit Types (σ : state) (h : list dict) (d : dict) (t : list event).
Implicit Types (inps : options) (template : dict).

Lemma set_by_skipped {A} template key (old new : A) c :
  skipped template (prefix +:+ key) -> set_by template key old new c -> new = old.
Proof.
  unfold skipped, set_by. destruct (template !! (prefix +:+ key)) as [v |]; [| done].
  by intros ->.
Qed.

(** X6: [read_template2inps] changes nothing but the five options and
    laloStep: it prints its one line and leaves the store alone; file,
    lookupFile, templateFile, outfile and the attributes added later come
    back as given; an option whose template key is missing or has a false
    value (None, False, empty text) comes back as given; laloStep is
    computed anew from the two steps. *)
Theorem read_template2inps_frame tf inps w h t raw w1 template w2 inps' σ' :
  read_template tf w = (Ok raw, w1) ->
  check_template_auto_value raw w1 = (Ok template, w2) ->
  read_template2inps tf (Some inps) (Build_state w h t) = (Ok inps', σ') ->
  σ' = Build_state w2 h (t ++ [EvPrint ("read input option from template file: " +:+ tf)])
  /\ (file inps' = file inps /\ lookupFile inps' = lookupFile inps /\
      templateFile inps' = templateFile inps /\ outfile inps' = outfile inps /\
      src_def inps' = src_def inps /\ dest_def inps' = dest_def inps /\
      outShape inps' = outShape inps)
  /\ (skipped template "pysar.geocode.SNWE" -> SNWE inps' = SNWE inps)
  /\ (skipped template "pysar.geocode.latStep" -> latStep inps' = latStep inps)
  /\ (skipped template "pysar.geocode.lonStep" -> lonStep inps' = lonStep inps)
  /\ (skipped template "pysar.geocode.interpMethod" -> interpMethod inps' = interpMethod inps)
  /\ (skipped template "pysar.geocode.fillValue" -> fillValue inps' = fillValue inps)
  /\ laloStep inps' = lalo_step inps'.
Proof.
  intros Hr Hc Hrun. rewrite (run_read_template2inps _ _ _ _ _ _ _ _ _ Hr Hc) in Hrun.
  destruct (five_steps template inps) as [m | |] eqn:E; simpl in Hrun; try discriminate.
  injection Hrun as <- <-.
  apply five_steps_ok in E
    as ((F1 & F2 & F3 & F4 & F5 & F6 & F7 & F8) & S1 & S2 & S3 & S4 & S5).
  split; [reflexivity |].
  cbn [file lookupFile templateFile outfile src_def dest_def outShape
       SNWE latStep lonStep interpMethod fillValue laloStep set_laloStep].
  split; [repeat split; assumption |].
  repeat split.
  - intros Hs. exact (set_by_skipped _ "SNWE" _ _ _ Hs S1).
  - intros Hs. exact (set_by_skipped _ "latStep" _ _ _ Hs S2).
  - intros Hs. exact (set_by_skipped _ "lonStep" _ _ _ Hs S3).
  - intros Hs. exact (set_by_skipped _ "interpMethod" _ _ _ Hs S4).
  - intros Hs. exact (set_by_skipped _ "fillValue" _ _ _ Hs S5).
Qed.

Lemma length_split sep s : length (split sep s) = S (count_char sep s).
Proof.
  induction s as [| a r IH]; [reflexivity |]. simpl.
  destruct (Ascii.eqb a sep); simpl; [by rewrite IH |].
  destruct (split sep r); simpl in *; [discriminate | exact IH].
Qed.

Lemma floats_of_strs_length parts fs : floats_of_strs parts = Ok fs -> length fs = length parts.
Proof.
  revert fs. induction parts as [| p ps IH]; intros fs; simpl.
  - intros H. by injection H as <-.
  - destruct (float_of_str p); simpl; [| discriminate].
    destruct (floats_of_strs ps) as [fs' | |]; simpl; try discriminate.
    intros H. injection H as <-. simpl. by rewrite (IH fs').
Qed.

(** X7: the box taken from the template has one number more than its text
    has commas: [read_template2inps] does not ask for four numbers. *)
Theorem read_template2inps_box_arity tf inps w h t raw w1 template w2 inps' σ' s :
  read_template tf w = (Ok raw, w1) ->
  check_template_auto_value raw w1 = (Ok template, w2) ->
  read_template2inps tf (Some inps) (Build_state w h t) = (Ok inps', σ') ->
  template !! "pysar.geocode.SNWE" = Some (PStr s) -> s <> ""%string ->
  exists fs, SNWE inps' = Some fs /\ length fs = S (count_char "," s).
Proof.
  intros Hr Hc Hrun Hs Hne.
  destruct (read_template2inps_ok_fields _ _ _ _ _ _ _ _ _ _ _ Hr Hc Hrun) as (H1 & _).
  unfold set_by in H1. norm_key_in H1. rewrite Hs, truthy_str in H1 by done.
  destruct H1 as (parts & fs & Hp & Hfs & ->). simpl in Hp. injection Hp as <-.
  exists fs. split; [reflexivity |].
  by rewrite (floats_of_strs_length _ _ Hfs), length_split.
Qed.

Lemma py_split_not_text v : not_text v -> py_split v = Raise AttributeError.
Proof. intros H. destruct v; try reflexivity. by destruct (H s). Qed.

Lemma py_lower_not_text v : not_text v -> py_lower v = Raise AttributeError.
Proof. intros H. destruct v; try reflexivity. by destruct (H s). Qed.

(** X8: a true template value that is not text (True, which
    check_template_auto_value makes of yes; a number) can be neither split
    nor lower-cased: as SNWE it makes [read_template2inps] raise
    AttributeError, as fillValue it makes it raise, and nothing but the
    opening line has been printed. *)
Theorem read_template2inps_not_text tf inps w h t raw w1 template w2 v :
  read_template tf w = (Ok raw, w1) ->
  check_template_auto_value raw w1 = (Ok template, w2) ->
  truthy v = true -> not_text v ->
  let σ' := Build_state w2 h (t ++ [EvPrint ("read input option from template file: " +:+ tf)]) in
  (template !! "pysar.geocode.SNWE" = Some v ->
     read_template2inps tf (Some inps) (Build_state w h t) = (Raise AttributeError, σ'))
  /\ (template !! "pysar.geocode.fillValue" = Some v ->
        exists e, read_template2inps tf (Some inps) (Build_state w h t) = (Raise e, σ')).
Proof.
  intros Hr Hc Htr Hnt. cbv zeta.
  rewrite (run_read_template2inps _ _ _ _ _ _ _ _ _ Hr Hc). split.
  - intros Hv. unfold five_steps. unfold template_step at 1. norm_key. rewrite Hv, Htr.
    unfold coerce_option. cbn [String.eqb Ascii.eqb Bool.eqb]. cbv beta iota.
    by rewrite (py_split_not_text _ Hnt).
  - intros Hv.
    assert (Hraise : raises (five_steps template inps)).
    { unfold five_steps. do 4 (apply step_then_raises; intros ?).
      unfold template_step. norm_key. rewrite Hv, Htr.
      unfold coerce_option. cbn [String.eqb Ascii.eqb Bool.eqb]. cbv beta iota.
      rewrite (py_lower_not_text _ Hnt). by eexists. }
    destruct Hraise as [e ->]. by exists e.
Qed.

(** *** Code that only talks to the world *)

Lemma world_only_ret {A} (a : A) : world_only (mret a : M A).
Proof. by exists (fun w => (Ok a, w)). Qed.

Lemma world_only_exit {A} msg : world_only (sys_exit msg : M A).
Proof. by exists (fun w => (Exit msg, w)). Qed.

Lemma world_only_call {A} (f : world -> result A * world) : world_only (call f).
Proof. exists f. intros w h t. apply run_call. Qed.

Lemma world_only_bind {A B} (m : M A) (k : A -> M B) :
  world_only m -> (forall a, world_only (k a)) -> world_only (m ≫= k).
Proof.
  intros [f Hf] Hk.
  exists (fun w => match f w with
                   | (Ok a, w') =>
                       ((k a (Build_state w' [] [])).1,
                        st_world (k a (Build_state w' [] [])).2)
                   | (Raise e, w') => (Raise e, w')
                   | (Exit msg, w') => (Exit msg, w')
                   end).
  intros w h t. rewrite run_bind, Hf.
  destruct (f w) as [[a | e | msg] w']; cbn [fst snd]; try reflexivity.
  destruct (Hk a) as [g Hg]. by rewrite !Hg.
Qed.

Lemma cmd_line_parse_world_only iargs : world_only (cmd_line_parse iargs).
Proof.
  unfold cmd_line_parse.
  repeat first
    [ apply world_only_ret | apply world_only_exit | apply world_only_call
    | apply world_only_bind; [| intros ]
    | match goal with |- world_only (if ?b then _ else _) => destruct b end ].
Qed.

Lemma world_only_frame {A} (m : M A) w h t r σ1 :
  world_only m -> m (Build_state w h t) = (r, σ1) ->
  σ1 = Build_state (st_world σ1) h t /\
  forall h' t', m (Build_state w h' t') = (r, Build_state (st_world σ1) h' t').
Proof.
  intros [f Hf] H. rewrite Hf in H. injection H as <- <-.
  split; [reflexivity |]. intros h' t'. by rewrite Hf.
Qed.

(** X9: called without options, [read_template2inps] prints its line and
    then has [cmd_line_parse] parse sys.argv: when that returns options, the
    call is the call with these options; when it exits or raises, so does
    the call, its line printed. *)
Theorem read_template2inps_without_options tf w h t r σ1 :
  cmd_line_parse None (Build_state w h t) = (r, σ1) ->
  let said := t ++ [EvPrint ("read input option from template file: " +:+ tf)] in
  match r with
  | Ok inps =>
      read_template2inps tf None (Build_state w h t)
      = read_template2inps tf (Some inps) (Build_state (st_world σ1) h t)
  | Raise e =>
      read_template2inps tf None (Build_state w h t)
      = (Raise e, Build_state (st_world σ1) h said)
  | Exit msg =>
      read_template2inps tf None (Build_state w h t)
      = (Exit msg, Build_state (st_world σ1) h said)
  end.
Proof.
  intros H. cbv zeta.
  destruct (world_only_frame _ _ _ _ _ _ (cmd_line_parse_world_only None) H) as [_ Hfr].
  unfold read_template2inps.
  rewrite !(run_bind (emit _)), !run_emit. cbv beta iota.
  rewrite (run_bind (cmd_line_parse None)), Hfr.
  destruct r as [inps | e | msg]; [| reflexivity | reflexivity].
  rewrite (run_bind (emit _)), run_emit. cbv beta iota.
  by rewrite (run_bind (mret inps)), run_ret.
Qed.

End ReadTemplateMore.

(* ================================================================== *)
(** ** What a run adds to the log *)
(* ================================================================== *)

Section Logs.
Context {ext : Externals}.
Implicit Types (σ : state) (h : list dict) (d : dict) (t : list event).

Lemma logs_mono {A} (P Q : event -> Prop) (m : M A) :
  (forall e, P e -> Q e) -> logs P m -> logs Q m.
Proof.
  intros HPQ Hm σ. destruct (Hm σ) as (evs & Ht & HP).
  exists evs. split; [exact Ht |]. by eapply Forall_impl.
Qed.

Lemma logs_grows {A} P (m : M A) : logs P m -> grows m.
Proof. by apply logs_mono. Qed.

Lemma logs_quiet {A} P (m : M A) : quiet m -> logs P m.
Proof. intros Hq σ. exists []. by rewrite Hq, app_nil_r. Qed.

Lemma logs_emit P e : P e -> logs P (emit e).
Proof.
  intros He [w h t]. exists [e]. rewrite run_emit. split; [reflexivity |].
  by apply Forall_singleton.
Qed.

Lemma logs_bind {A B} P (m : M A) (k : A -> M B) :
  logs P m -> (forall a, logs P (k a)) -> logs P (m ≫= k).
Proof.
  intros Hm Hk σ. rewrite run_bind. destruct (Hm σ) as (e1 & Ht1 & HP1).
  destruct (m σ) as [[a | e | msg] σ1]; simpl in *; [| by exists e1 | by exists e1].
  destruct (Hk a σ1) as (e2 & Ht2 & HP2).
  exists (e1 ++ e2). rewrite Ht2, Ht1, app_assoc. split; [reflexivity |].
  by apply Forall_app.
Qed.

Lemma logs_new_events {A} P (m : M A) σ : logs P m -> Forall P (new_events m σ).
Proof. intros Hm. destruct (Hm σ) as (evs & Ht & HP). by rewrite (new_events_app _ _ _ Ht). Qed.

Lemma emits_silent {A} (m : M A) : emits m [] -> logs silent m.
Proof.
  intros Hm σ. destruct (Hm σ) as (evs & Ht & Hp & _). exists evs. split; [exact Ht |].
  apply prefix_nil_inv in Hp. unfold steps in Hp.
  apply Forall_forall. intros e He. unfold silent.
  destruct (step_of e) as [s |] eqn:E; [| reflexivity].
  assert (Hs : s ∈ omap step_of evs) by (apply list_elem_of_omap; eauto).
  rewrite Hp in Hs. by apply elem_of_nil in Hs.
Qed.

Lemma emits_grows {A} (m : M A) p : emits m p -> grows m.
Proof. intros Hm σ. destruct (Hm σ) as (evs & Ht & _). exists evs. by split; [| apply Forall_true]. Qed.

Lemma new_events_quiet {A} (m : M A) σ : quiet m -> new_events m σ = [].
Proof. intros Hq. apply new_events_app. by rewrite Hq, app_nil_r. Qed.

Lemma new_events_emit e σ : new_events (emit e) σ = [e].
Proof. destruct σ as [w h t]. apply new_events_app. by rewrite run_emit. Qed.

(** The log entries of [m ≫= k]: those of [m], then those of [k]. *)
Lemma new_events_bind {A B} (m : M A) (k : A -> M B) σ :
  grows m -> (forall a, grows (k a)) ->
  new_events (m ≫= k) σ
  = new_events m σ ++ match m σ with
                      | (Ok a, σ1) => new_events (k a) σ1
                      | _ => []
                      end.
Proof.
  intros Hm Hk. destruct (Hm σ) as (e1 & Ht1 & _).
  rewrite (new_events_app m _ _ Ht1).
  unfold new_events at 1. rewrite run_bind.
  destruct (m σ) as [[a | e | msg] σ1]; simpl in *.
  - destruct (Hk a σ1) as (e2 & Ht2 & _).
    rewrite (new_events_app (k a) _ _ Ht2), Ht2, Ht1, <- app_assoc.
    apply drop_app_length.
  - rewrite Ht1, app_nil_r. apply drop_app_length.
  - rewrite Ht1, app_nil_r. apply drop_app_length.
Qed.

Lemma elem_of_new_events_bind {A B} (m : M A) (k : A -> M B) σ e :
  grows m -> (forall a, grows (k a)) ->
  e ∈ new_events (m ≫= k) σ ->
  e ∈ new_events m σ \/ exists a σ1, m σ = (Ok a, σ1) /\ e ∈ new_events (k a) σ1.
Proof.
  intros Hm Hk. rewrite (new_events_bind m k σ Hm Hk), elem_of_app.
  intros [H | H]; [by left |]. right.
  destruct (m σ) as [[a | x | msg] σ1]; [eauto | by apply elem_of_nil in H ..].
Qed.

End Logs.

(** Steps that are quiet as they stand. *)
Ltac quiet_leaf :=
  first
    [ apply quiet_dict_load | apply quiet_dict_set | apply quiet_dict_get
    | apply quiet_dict_has | apply quiet_dict_pop | apply quiet_new_dict
    | apply quiet_dict_store | apply quiet_ret | apply quiet_lift | apply quiet_raise
    | apply quiet_exit | apply quiet_attr | apply quiet_call
    | apply quiet_try; solve [quiet_tac] ].

(** [logs P m], along the structure of [m]: [known] settles the calls
    of functions whose log is known, [tac] proves [P] of each entry that an
    [emit] adds. *)
Ltac logs_step tac :=
  lazymatch goal with
  | |- logs _ (_ ≫= _) => apply logs_bind; [| intros ]
  | |- logs _ (emit _) => apply logs_emit; tac
  | |- logs _ (match ?x with _ => _ end) => destruct x
  | |- logs _ _ => apply logs_quiet; quiet_leaf
  end.

Ltac logs_with known tac := repeat first [ known | logs_step tac ].

Ltac known_grows :=
  idtac;
  lazymatch goal with
  | |- logs _ (update_attribute _ _ _) =>
      apply (emits_grows _ _ (update_attribute_emits _ _ _))
  | |- logs _ (geocode_file _ _ _ None) =>
      apply (emits_grows _ _ (geocode_file_emits _ _ _))
  | |- logs _ (geocode_files _ _ _) =>
      apply (emits_grows _ _ (geocode_files_emits _ _ _))
  | |- logs _ (options_stage _) =>
      apply (emits_grows _ _ (options_stage_emits _))
  | |- logs _ (geocoding_stage _) =>
      apply (emits_grows _ _ (geocoding_stage_emits _))
  end.

Ltac grows_tac := unfold grows; logs_with known_grows ltac:(exact I).

(** One step back from a log entry of [m ≫= k]: it was logged by [m], or
    [m] ended normally and it was logged by [k]. *)
Ltac inv_ev H Hs :=
  apply elem_of_new_events_bind in H;
  [ destruct H as [H | (? & ? & Hs & H)] | grows_tac | intros; grows_tac ].

Ltac not_logged H :=
  first
    [ rewrite new_events_emit in H; apply list_elem_of_singleton in H; discriminate H
    | rewrite new_events_quiet in H by quiet_tac; by apply elem_of_nil in H ].

Section GeocodeFile.
Context {ext : Externals}.
Implicit Types (σ : state) (h : list dict) (d : dict) (t : list event).
Implicit Types (inps : options).

Lemma run_new_dict d w h t :
  new_dict d (Build_state w h t) = (Ok (length h), Build_state w (h ++ [d]) t).
Proof. reflexivity. Qed.

(** A write in the log of [geocode_file]: everything before it has
    worked. *)
Lemma geocode_file_write_inv infile inps res_obj outfile w h t data atr out_file in_file :
  EvWrite data atr out_file in_file
    ∈ new_events (geocode_file infile inps res_obj outfile) (Build_state w h t) ->
  exists data0 atr_read w1 src dst geo w2 l σ3,
    readfile_read infile w = (Ok (data0, atr_read), w1) /\
    src_def inps = Some src /\ dest_def inps = Some dst /\
    resample_resample res_obj (bands_last data0) src dst (interpMethod inps) (fillValue inps) w1
    = (Ok geo, w2) /\
    data = bands_first geo /\
    update_attribute (length h) (set_outShape (Some (np_shape data)) inps) true
      (Build_state w2 (h ++ [atr_read])
         (t ++ [EvPrint (repeat_char "-" 50)] ++ [EvPrint ("geocode file: " +:+ infile)]
            ++ [EvRead infile]
            ++ [EvResample res_obj (bands_last data0) src dst (interpMethod inps)
                  (fillValue inps)]))
    = (Ok l, σ3) /\
    st_heap σ3 !! l = Some atr /\
    out_file = target_name infile outfile /\ in_file = infile.
Proof.
  intros H. unfold geocode_file in H.
  inv_ev H Hs; [not_logged H |]. rewrite run_emit in Hs. injection Hs as <- <-.
  inv_ev H Hs; [not_logged H |]. rewrite run_emit in Hs. injection Hs as <- <-.
  inv_ev H Hs; [not_logged H |]. rewrite run_emit in Hs. injection Hs as <- <-.
  inv_ev H Hs; [not_logged H |]. rewrite run_call in Hs.
  destruct (readfile_read infile w) as [r w1] eqn:Hread. cbn [fst snd] in Hs.
  injection Hs as -> <-. destruct x as [data0 atr_read].
  inv_ev H Hs; [not_logged H |]. rewrite run_new_dict in Hs. injection Hs as <- <-.
  inv_ev H Hs; [not_logged H |]. apply attr_ok in Hs as [Hsrc ->].
  inv_ev H Hs; [not_logged H |]. apply attr_ok in Hs as [Hdst ->].
  inv_ev H Hs; [not_logged H |]. rewrite run_emit in Hs. injection Hs as <- <-.
  inv_ev H Hs; [not_logged H |]. rewrite run_call in Hs.
  fold (bands_last data0) in Hs, H.
  destruct (resample_resample res_obj (bands_last data0) x x0 (interpMethod inps)
              (fillValue inps) w1) as [r2 w2] eqn:Hres.
  cbn [fst snd] in Hs. injection Hs as -> <-.
  fold (bands_first x1) in H.
  inv_ev H Hs.
  { pose proof (logs_new_events silent _
      {| st_world := w2; st_heap := h ++ [atr_read];
         st_trace := ((((t ++ [EvPrint (repeat_char "-" 50)])
                        ++ [EvPrint ("geocode file: " +:+ infile)]) ++ [EvRead infile])
                      ++ [EvResample res_obj (bands_last data0) x x0 (interpMethod inps)
                            (fillValue inps)]) |}
      (emits_silent _ (update_attribute_emits (length h)
         (set_outShape (Some (np_shape (bands_first x1))) inps) true))) as Hsil.
    rewrite Forall_forall in Hsil. specialize (Hsil _ H). discriminate Hsil. }
  inv_ev H Hs'.
  { rewrite new_events_quiet in H by quiet_tac. by apply elem_of_nil in H. }
  inv_ev H Hs''.
  2:{ inv_ev H Hs3; not_logged H. }
  rewrite new_events_emit in H. apply list_elem_of_singleton in H.
  injection H as -> -> -> ->.
  unfold dict_load in Hs'.
  destruct (st_heap x3 !! x2) as [d |] eqn:Hd; [| discriminate Hs'].
  injection Hs' as <- <-.
  exists data0, atr_read, w1, x, x0, x1, w2, x2, x3.
  rewrite <- !app_assoc in Hs.
  repeat (split; [first [assumption | reflexivity] |]). reflexivity.
Qed.

End GeocodeFile.

(* ================================================================== *)
(** ** geocode_file and main: what is read, resampled and written *)
(* ================================================================== *)

Section GeocodeFileMore.
Context {ext : Externals}.
Implicit Types (σ : state) (h : list dict) (d : dict) (t : list event).
Implicit Types (inps : options).

Lemma tuple_get_four snwe (s n west east : float) :
  tuple_get snwe 0 = Ok s -> tuple_get snwe 1 = Ok n ->
  tuple_get snwe 2 = Ok west -> tuple_get snwe 3 = Ok east ->
  exists rest, snwe = s :: n :: west :: east :: rest.
Proof.
  unfold tuple_get. destruct snwe as [| a [| b [| c [| e r]]]]; simpl; try discriminate.
  intros H0 H1 H2 H3. exists r. congruence.
Qed.

(** What a normal run of [update_attribute] returns, as a header. *)
Lemma update_attribute_header atr_in inps pm w h t atr σ' :
  update_attribute atr_in inps pm (Build_state w h t) = (Ok atr, σ') ->
  exists shape len wid (S N W E : float) rest ys xs d,
    outShape inps = Some shape /\ last_two shape = Ok (len, wid) /\
    SNWE inps = Some (S :: N :: W :: E :: rest) /\
    truediv_int (S - N) len = Ok ys /\ truediv_int (E - W) wid = Ok xs /\
    st_heap σ' !! atr = Some d /\
    d !! "LENGTH" = Some (PInt len) /\ d !! "WIDTH" = Some (PInt wid) /\
    d !! "Y_FIRST" = Some (PFloat N) /\ d !! "X_FIRST" = Some (PFloat W) /\
    d !! "Y_STEP" = Some (PFloat ys) /\ d !! "X_STEP" = Some (PFloat xs).
Proof.
  intros Hrun.
  apply update_attribute_returns in Hrun
    as (d0 & shape & len & wid & snwe & s & n & west & east & ys & xs & d
        & _ & Hsh & Hlast & Hsn & H0 & H1 & H2 & H3 & Hys & Hxs & -> & Hheap & _ & Hd).
  destruct (tuple_get_four _ _ _ _ _ H0 H1 H2 H3) as [rest ->].
  exists shape, len, wid, s, n, west, east, rest, ys, xs, d.
  repeat (split; [assumption |]).
  split; [rewrite Hheap; apply heap_lookup_fresh |].
  destruct (geo_fields_lookup len wid n west ys xs d0) as (G1 & G2 & G3 & G4 & G5 & G6 & _).
  repeat split; (rewrite Hd by (rewrite !elem_of_cons; auto 10)); assumption.
Qed.

(** A write in the log of [geocode_file]: its name, and its header. *)
Lemma geocode_file_write_header infile inps res_obj outfile σ data atr out_file in_file :
  EvWrite data atr out_file in_file
    ∈ new_events (geocode_file infile inps res_obj outfile) σ ->
  in_file = infile /\ out_file = target_name infile outfile /\
  exists S N W E rest,
    SNWE inps = Some (S :: N :: W :: E :: rest) /\ header_of atr data S N W E.
Proof.
  destruct σ as [w h t]. intros H.
  apply geocode_file_write_inv in H
    as (data0 & atr_read & w1 & src & dst & geo & w2 & l & σ3
        & _ & _ & _ & _ & _ & Hua & Hatr & -> & ->).
  split; [reflexivity |]. split; [reflexivity |].
  apply update_attribute_header in Hua
    as (shape & len & wid & S & N & W & E & rest & ys & xs & d
        & Hsh & Hlast & Hsnwe & Hys & Hxs & Hd & H1 & H2 & H3 & H4 & H5 & H6).
  cbn [outShape SNWE set_outShape] in Hsh, Hsnwe. injection Hsh as <-.
  rewrite Hatr in Hd. injection Hd as <-.
  exists S, N, W, E, rest. split; [exact Hsnwe |].
  exists len, wid, ys, xs. by repeat (split; [assumption |]).
Qed.

(** X10: every call of writefile.write that [geocode_file] makes is for its
    input file, under the outfile it was given or, when that is None or
    empty, under 'geo_' + base name in the directory of the input; and the
    metadata handed over describe the array handed over: LENGTH and WIDTH
    are its last two dimensions, Y_FIRST = N, X_FIRST = W,
    Y_STEP = (S - N) / LENGTH and X_STEP = (E - W) / WIDTH for the box
    (S, N, W, E) of the options. *)
Theorem geocode_file_writes_header infile inps res_obj outfile σ data atr out_file in_file :
  EvWrite data atr out_file in_file
    ∈ new_events (geocode_file infile inps res_obj outfile) σ ->
  in_file = infile
  /\ (str_truthy outfile = false ->
        out_file
        = PosixPath.join (PosixPath.dirname infile) ("geo_" +:+ PosixPath.basename infile))
  /\ (forall name, outfile = Some name -> name <> ""%string -> out_file = name)
  /\ exists S N W E rest,
       SNWE inps = Some (S :: N :: W :: E :: rest) /\ header_of atr data S N W E.
Proof.
  intros H.
  apply geocode_file_write_header in H as (-> & -> & Hhead).
  split; [reflexivity |].
  split; [unfold target_name; unfold geo_name; by intros -> |].
  split; [| exact Hhead].
  intros name -> Hne. unfold target_name. simpl.
  by destruct (String.eqb_spec name "").
Qed.

Lemma set_outShape_twice s s' inps : set_outShape s' (set_outShape s inps) = set_outShape s' inps.
Proof. reflexivity. Qed.

(** A normal run of [geocode_file], read backwards. *)
Lemma geocode_file_ok_inv infile inps res_obj outfile w h t out_file inps' σ' :
  geocode_file infile inps res_obj outfile (Build_state w h t) = (Ok (out_file, inps'), σ') ->
  exists data atr evs w3,
    out_file = target_name infile outfile /\
    inps' = set_outShape (Some (np_shape data)) inps /\
    st_trace σ' = t ++ evs ++ [EvWrite data atr out_file infile] /\
    writefile_write data atr out_file infile w3 = (Ok tt, st_world σ').
Proof.
  intros H. unfold geocode_file in H.
  do 3 inv_step H.
  apply bind_ok in H as ([data0 atr_read] & ? & Hs & H).
  rewrite run_call in Hs. injection Hs as Hread <-.
  apply bind_ok in H as (l & ? & Hs & H). rewrite run_new_dict in Hs. injection Hs as <- <-.
  do 3 inv_step H.
  apply bind_ok in H as (geo & ? & Hc & H). rewrite run_call in Hc. injection Hc as Hres <-.
  apply bind_ok in H as (atr & [w3 h3 t3] & Hua & H).
  match type of Hua with
  | update_attribute ?a ?i ?p ?σ0 = _ =>
      destruct (update_attribute_emits a i p σ0) as (evs & Ht & _)
  end.
  rewrite Hua in Ht. cbn [snd st_trace] in Ht.
  apply bind_ok in H as (atr_out & ? & Hc & H).
  unfold dict_load in Hc. cbn [st_heap] in Hc.
  destruct (h3 !! atr) as [d |]; [| discriminate Hc]. injection Hc as <- <-.
  inv_step H.
  apply bind_ok in H as ([] & ? & Hc & H). rewrite run_call in Hc. injection Hc as Hw <-.
  rewrite run_ret in H. injection H as <- <- <-.
  exists (bands_first geo), d,
    ([EvPrint (repeat_char "-" 50); EvPrint ("geocode file: " +:+ infile); EvRead infile;
      EvResample res_obj (bands_last data0) x x0 (interpMethod inps) (fillValue inps)]
     ++ evs), w3.
  split; [reflexivity |]. split; [reflexivity |].
  split.
  - cbn [st_trace]. rewrite <- !app_assoc. reflexivity.
  - cbn [st_world]. unfold bands_first, target_name, geo_name.
    destruct (writefile_write _ _ _ _ w3) as [r w4]. cbn [fst snd] in *. by rewrite Hw.
Qed.

(** X11: when [geocode_file] returns, the name it returns is the name under
    which it has just written: the last entry it logged is that call of
    writefile.write, which succeeded; the options it returns are those it
    was given but for outShape, now the shape of the array written. *)
Theorem geocode_file_returns infile inps res_obj outfile σ out_file inps' σ' :
  geocode_file infile inps res_obj outfile σ = (Ok (out_file, inps'), σ') ->
  exists data atr evs w,
    new_events (geocode_file infile inps res_obj outfile) σ
    = evs ++ [EvWrite data atr out_file infile] /\
    writefile_write data atr out_file infile w = (Ok tt, st_world σ') /\
    inps' = set_outShape (Some (np_shape data)) inps.
Proof.
  destruct σ as [w h t]. intros H.
  pose proof H as Hrun.
  apply geocode_file_ok_inv in H as (data & atr & evs & w3 & -> & -> & Ht & Hw).
  exists data, atr, evs, w3. split; [| by split].
  apply new_events_app. by rewrite Hrun.
Qed.

End GeocodeFileMore.

Ltac not_done_tac :=
  idtac;
  let txt := fresh "txt" in
  let Heq := fresh "Heq" in
  intros txt Heq; simpl in Heq; discriminate Heq.

Ltac not_done_logs := logs_with fail not_done_tac.

Section MainMore.
Context {ext : Externals}.
Implicit Types (σ : state) (h : list dict) (d : dict) (t : list event).
Implicit Types (inps : options).

Lemma update_attribute_not_done atr_in inps pm : logs not_done (update_attribute atr_in inps pm).
Proof. unfold update_attribute, dict_copy. not_done_logs. Qed.

Lemma update_attribute_no_resample atr_in inps pm :
  logs not_resample (update_attribute atr_in inps pm).
Proof. unfold update_attribute, dict_copy. logs_with fail ltac:(exact I). Qed.

Lemma geocode_file_not_done infile inps res_obj outfile :
  logs not_done (geocode_file infile inps res_obj outfile).
Proof.
  unfold geocode_file.
  logs_with ltac:(idtac; lazymatch goal with
                  | |- logs _ (update_attribute _ _ _) => apply update_attribute_not_done
                  end) not_done_tac.
Qed.

Lemma geocode_files_not_done files inps res_obj :
  logs not_done (geocode_files files inps res_obj).
Proof.
  revert inps. induction files as [| f rest IH]; intros inps; simpl.
  - apply logs_quiet. quiet_tac.
  - apply logs_bind; [apply geocode_file_not_done | intros [out inps']]. apply IH.
Qed.

Lemma options_stage_not_done iargs : logs not_done (options_stage iargs).
Proof. unfold options_stage, cmd_line_parse, read_template2inps. not_done_logs. Qed.

Lemma ends_done_bind {A B} (m : M A) (k : A -> M B) :
  logs not_done m -> (forall a, ends_done (k a)) -> ends_done (m ≫= k).
Proof.
  intros Hm Hk σ. rewrite run_bind. destruct (Hm σ) as (e1 & Ht1 & HP1).
  destruct (m σ) as [[a | e | msg] σ1]; simpl in *; [| by exists e1 | by exists e1].
  destruct (Hk a σ1) as (e2 & Ht2 & HP2).
  exists (e1 ++ e2). rewrite Ht2, Ht1, app_assoc. split; [reflexivity |].
  destruct (is_ok (k a σ1).1).
  - destruct HP2 as (evs' & secs & -> & HP2). exists (e1 ++ evs'), secs.
    split; [by rewrite app_assoc | by apply Forall_app].
  - by apply Forall_app.
Qed.

Lemma ends_done_never {A} (m : M A) :
  quiet m -> (forall σ, is_ok (m σ).1 = false) -> ends_done m.
Proof. intros Hq Hf σ. exists []. rewrite Hq, app_nil_r, Hf. by split. Qed.

Lemma ends_done_emit secs : ends_done (emit (done_message secs)).
Proof.
  intros [w h t]. exists [done_message secs]. rewrite run_emit. simpl.
  split; [reflexivity |]. by exists [], secs.
Qed.

Lemma geocoding_stage_ends_done inps : ends_done (geocoding_stage inps).
Proof.
  unfold geocoding_stage.
  apply ends_done_bind; [not_done_logs | intros start_time].
  destruct (file inps) as [| file0 rest].
  { apply ends_done_never.
    - quiet_tac.
    - done. }
  apply ends_done_bind; [not_done_logs | intros f0].
  apply ends_done_bind; [apply logs_emit; not_done_tac | intros _].
  apply ends_done_bind; [not_done_logs | intros res_obj].
  apply ends_done_bind; [apply logs_emit; not_done_tac | intros _].
  apply ends_done_bind; [not_done_logs | intros [[src dst] snwe]].
  apply ends_done_bind; [apply geocode_files_not_done | intros _].
  apply ends_done_bind; [not_done_logs | intros now].
  apply ends_done_emit.
Qed.

Lemma main_ends_done iargs : ends_done (main iargs).
Proof.
  intros σ.
  destruct (ends_done_bind (options_stage iargs) geocoding_stage
              (options_stage_not_done iargs) geocoding_stage_ends_done σ) as (evs & Ht & H).
  exists evs. by rewrite main_split.
Qed.

(** X12: [main] prints its closing message, "Done." and the time used,
    exactly when it ends normally: a run that returns has logged it last and
    nothing like it before, and a run in whose log a message starting with
    "Done." appears has returned. *)
Theorem main_done_message iargs σ :
  ((main iargs σ).1 = Ok tt ->
     exists evs secs,
       new_events (main iargs) σ
       = evs ++ [EvPrint ("Done." +:+ newline +:+ "time used: " +:+ secs +:+ " secs")]
       /\ forall txt, EvPrint ("Done." +:+ txt) ∉ evs)
  /\ (forall txt,
        EvPrint ("Done." +:+ txt) ∈ new_events (main iargs) σ -> (main iargs σ).1 = Ok tt).
Proof.
  destruct (main_ends_done iargs σ) as (evs & Ht & H).
  rewrite (new_events_app _ _ _ Ht). split.
  - intros Hok. rewrite Hok in H. simpl in H. destruct H as (evs' & secs & -> & Hnd).
    exists evs', secs. split; [reflexivity |].
    intros txt Hin. rewrite Forall_forall in Hnd. by apply (Hnd _ Hin txt).
  - intros txt Hin. destruct (main iargs σ).1 as [[] | e | msg]; [reflexivity | |];
      simpl in H; rewrite Forall_forall in H; by destruct (H _ Hin txt).
Qed.

End MainMore.

Section MainHeaders.
Context {ext : Externals}.
Implicit Types (σ : state) (h : list dict) (d : dict) (t : list event).
Implicit Types (inps : options).

Lemma new_events_main iargs σ :
  new_events (main iargs) σ = new_events (options_stage iargs ≫= geocoding_stage) σ.
Proof. unfold new_events. by rewrite main_split. Qed.

(** A log entry of the loop over the files is an entry of one call of
    [geocode_file], made with the options of the loop but for outShape. *)
Lemma geocode_files_event_inv files inps res_obj σ e :
  e ∈ new_events (geocode_files files inps res_obj) σ ->
  exists f inps' σ',
    f ∈ files /\ (inps' = inps \/ exists shape, inps' = set_outShape shape inps) /\
    e ∈ new_events (geocode_file f inps' res_obj None) σ'.
Proof.
  revert inps σ. induction files as [| f rest IH]; intros inps σ H.
  - simpl in H. rewrite new_events_quiet in H by quiet_tac. by apply elem_of_nil in H.
  - cbn [geocode_files] in H. inv_ev H Hs.
    + exists f, inps, σ. split; [apply list_elem_of_here |]. by split; [left |].
    + destruct x as [out inps1]. destruct σ as [w h t].
      apply geocode_file_ok_inv in Hs as (data & atr & evs & w3 & _ & -> & _).
      apply IH in H as (f' & inps' & σ' & Hin & Hinps & H).
      exists f', inps', σ'. split; [by apply list_elem_of_further |].
      split; [| exact H]. right.
      destruct Hinps as [-> | [shape ->]]; eauto.
Qed.

(** X13: every header that a run of [main] writes carries the box returned
    by get_geometry_definition of the resampler that was built from the
    resolved options (the box of -b or of the template goes to the
    constructor only), and the grid of the array written with it; the write
    is for one of the input files. *)
Theorem main_writes_headers iargs σ data atr out_file in_file :
  EvWrite data atr out_file in_file ∈ new_events (main iargs) σ ->
  exists inps σ1 file0 others start_time w1 res_obj w2 src dst S N W E rest w3,
    options_stage iargs σ = (Ok inps, σ1) /\
    file inps = file0 :: others /\ in_file ∈ file inps /\
    time_time (st_world σ1) = (Ok start_time, w1) /\
    resample_new (lookupFile inps) file0 (SNWE inps) (latStep inps) w1 = (Ok res_obj, w2) /\
    get_geometry_definition res_obj w2 = (Ok (src, dst, Some (S :: N :: W :: E :: rest)), w3) /\
    header_of atr data S N W E.
Proof.
  rewrite new_events_main. intros H.
  inv_ev H Hopt.
  { pose proof (logs_new_events silent _ σ (emits_silent _ (options_stage_emits iargs))) as Hsil.
    rewrite Forall_forall in Hsil. specialize (Hsil _ H). discriminate Hsil. }
  rename x into inps. destruct x0 as [w0 h0 t0].
  unfold geocoding_stage in H.
  inv_ev H Hs; [not_logged H |]. rewrite run_call in Hs.
  destruct (time_time w0) as [r1 w1] eqn:Htime. cbn [fst snd] in Hs. injection Hs as -> <-.
  destruct (file inps) as [| file0 others] eqn:Hfile.
  { inv_ev H Hs; [not_logged H |]. discriminate Hs. }
  inv_ev H Hs; [not_logged H |]. rewrite run_ret in Hs. injection Hs as <- <-.
  inv_ev H Hs; [not_logged H |]. rewrite run_emit in Hs. injection Hs as <- <-.
  inv_ev H Hs; [not_logged H |]. rewrite run_call in Hs.
  destruct (resample_new (lookupFile inps) file0 (SNWE inps) (latStep inps) w1)
    as [r2 w2] eqn:Hnew.
  cbn [fst snd] in Hs. injection Hs as -> <-. rename x0 into res_obj.
  inv_ev H Hs; [not_logged H |]. rewrite run_emit in Hs. injection Hs as <- <-.
  inv_ev H Hs; [not_logged H |]. rewrite run_call in Hs.
  destruct (get_geometry_definition res_obj w2) as [r3 w3] eqn:Hgeo.
  cbn [fst snd] in Hs. injection Hs as -> <-. destruct x0 as [[src dst] snwe].
  cbn [file set_SNWE set_dest_def set_src_def] in H. rewrite Hfile in H.
  inv_ev H Hs.
  2:{ inv_ev H Hs'; not_logged H. }
  apply geocode_files_event_inv in H as (f & inps' & σ' & Hin & Hinps & H).
  apply geocode_file_write_header in H as (-> & _ & S & N & W & E & rest & Hsnwe & Hhead).
  assert (Hsn : snwe = Some (S :: N :: W :: E :: rest)).
  { destruct Hinps as [-> | [shape ->]]; exact Hsnwe. }
  subst snwe.
  exists inps, (Build_state w0 h0 t0), file0, others, x, w1, res_obj, w2, src, dst,
    S, N, W, E, rest, w3.
  rewrite Hfile. by repeat (split; [first [assumption | reflexivity] |]).
Qed.

(** X14: the options [main] works with, once [cmd_line_parse] and, with -t,
    [read_template2inps] have returned: there is at least one input file (so
    inps.file[0] exists), the lookup file is a non-empty name, and laloStep
    is [latStep, lonStep] when both are set and None otherwise, also after
    the template has changed the steps. *)
Theorem options_stage_resolved iargs σ inps σ1 :
  options_stage iargs σ = (Ok inps, σ1) ->
  file inps <> [] /\ str_truthy (lookupFile inps) = true /\
  laloStep inps = lalo_step inps.
Proof.
  destruct σ as [w h t]. intros H.
  apply options_stage_ok_inv in H as (inps0 & w0 & Hc & H).
  apply cmd_line_parse_ok_inv in Hc
    as (ns & w1 & files & w2 & lookup & w3 & _ & _ & Hne & _ & Hl & -> & _).
  destruct H as [(_ & -> & _) | (tf & _ & _ & H)].
  - by repeat split.
  - apply read_template2inps_ok_inv in H
      as (raw & w1' & template & w2' & m & _ & _ & E & -> & _).
    apply five_steps_ok in E as ((Hfile & Hlk & _) & _). simpl in *.
    rewrite Hfile, Hlk. by repeat split.
Qed.

End MainHeaders.

(* ================================================================== *)
(** ** main: the construction of the resampler *)
(* ================================================================== *)

Section Constructor.
Context {ext : Externals}.
Implicit Types (σ : state) (h : list dict) (d : dict) (t : list event).
Implicit Types (inps : options) (template : dict).

Lemma plan_one_construction inps file0 calls :
  head (file inps) = Some file0 ->
  SNew (lookupFile inps) file0 (SNWE inps) (latStep inps) :: calls `prefix_of` plan inps ->
  forall lookup data_file snwe lalo, SNew lookup data_file snwe lalo ∉ calls.
Proof.
  intros Hhead Hp lookup data_file snwe lalo Hin.
  unfold plan in Hp. destruct (file inps) as [| f rest]; [done |].
  apply prefix_cons_inv_2 in Hp.
  apply (elem_of_prefix _ _ _ Hp) in Hin.
  apply elem_of_cons in Hin as [Hin | Hin]; [done |].
  apply elem_of_file_steps in Hin as (g & _ & [Hin | [Hin | Hin]]); done.
Qed.

(** A run of [main] that has resolved its options and read the clock
    calls the constructor of the resampler, once and before any other call,
    on the lookup file, the first input file, the box and the latitude step
    of the options; what the constructor raises, [main] raises. *)
Lemma main_constructs iargs σ inps σ1 start_time w1 :
  options_stage iargs σ = (Ok inps, σ1) ->
  time_time (st_world σ1) = (Ok start_time, w1) ->
  exists file0 calls,
    head (file inps) = Some file0 /\
    steps (new_events (main iargs) σ)
    = SNew (lookupFile inps) file0 (SNWE inps) (latStep inps) :: calls /\
    (forall lookup data_file snwe lalo, SNew lookup data_file snwe lalo ∉ calls) /\
    (forall e w2,
       resample_new (lookupFile inps) file0 (SNWE inps) (latStep inps) w1 = (Raise e, w2) ->
       (main iargs σ).1 = Raise e).
Proof.
  intros Hopt Htime. destruct σ as [w h t].
  pose proof (options_stage_files _ _ _ _ _ _ Hopt) as Hne.
  destruct (file inps) as [| file0 rest] eqn:Hfile; [done |].
  destruct (main_log iargs (Build_state w h t)) as (evs & Ht & Hlog).
  rewrite Hopt in Hlog. cbn [fst] in Hlog. destruct Hlog as [Hp _].
  assert (Hnew : exists evs0 evs1,
             new_events (main iargs) (Build_state w h t)
             = evs0 ++ EvResampleNew (lookupFile inps) file0 (SNWE inps) (latStep inps) :: evs1
             /\ steps evs0 = []).
  { rewrite new_events_main, new_events_bind by (intros; grows_tac). rewrite Hopt.
    destruct (options_stage_emits iargs (Build_state w h t)) as (e0 & Ht0 & Hp0 & _).
    apply prefix_nil_inv in Hp0. rewrite (new_events_app _ _ _ Ht0).
    exists e0. destruct σ1 as [w0 h0 t0]. cbn [st_world] in Htime.
    unfold geocoding_stage. rewrite Hfile.
    rewrite new_events_bind by (intros; grows_tac).
    rewrite new_events_quiet by quiet_tac. rewrite run_call, Htime. cbn [fst snd app].
    rewrite new_events_bind by (intros; grows_tac).
    rewrite new_events_quiet by quiet_tac. rewrite run_ret. cbn [app].
    rewrite new_events_bind by (intros; grows_tac).
    rewrite new_events_emit, run_emit. cbn [app]. eauto. }
  destruct Hnew as (evs0 & evs1 & Hnew & Hsil).
  rewrite (new_events_app _ _ _ Ht) in Hnew |- *. rewrite Hnew in Hp |- *.
  rewrite steps_app, Hsil in Hp |- *. cbn [app] in Hp |- *.
  change (steps (?e :: ?l)) with (omap step_of (e :: l)) in Hp |- *.
  cbn [omap list_omap step_of] in Hp |- *.
  exists file0, (steps evs1). split; [reflexivity |]. split; [reflexivity |]. split.
  - apply (plan_one_construction inps file0); [by rewrite Hfile | exact Hp].
  - intros e w2 Hraise. rewrite main_split, run_bind, Hopt.
    destruct σ1 as [w0 h0 t0]. cbn [st_world] in Htime.
    unfold geocoding_stage. rewrite Hfile.
    rewrite run_bind, run_call, Htime. cbn [fst snd].
    rewrite run_bind, run_ret, run_bind, run_emit, run_bind, run_call, Hraise.
    reflexivity.
Qed.


Lemma same_construction iargs iargs' σ σ' inps inps' σ1 σ1' start_time w1 start_time' w1' :
  options_stage iargs σ = (Ok inps, σ1) ->
  options_stage iargs' σ' = (Ok inps', σ1') ->
  time_time (st_world σ1) = (Ok start_time, w1) ->
  time_time (st_world σ1') = (Ok start_time', w1') ->
  resampler_args inps' = resampler_args inps ->
  exists file0 calls calls',
    head (file inps) = Some file0 /\
    steps (new_events (main iargs) σ)
    = SNew (lookupFile inps) file0 (SNWE inps) (latStep inps) :: calls /\
    steps (new_events (main iargs') σ')
    = SNew (lookupFile inps) file0 (SNWE inps) (latStep inps) :: calls' /\
    (forall lookup data_file snwe lalo, SNew lookup data_file snwe lalo ∉ calls) /\
    (forall lookup data_file snwe lalo, SNew lookup data_file snwe lalo ∉ calls').
Proof.
  intros Hopt Hopt' Htime Htime' Hargs.
  destruct (main_constructs _ _ _ _ _ _ Hopt Htime) as (file0 & calls & Hh & Hs & Hn & _).
  destruct (main_constructs _ _ _ _ _ _ Hopt' Htime') as (file0' & calls' & Hh' & Hs' & Hn' & _).
  unfold resampler_args in Hargs. injection Hargs as E1 E2 E3 E4.
  rewrite E1, E3, E4 in Hs'. rewrite E2, Hh in Hh'. injection Hh' as <-.
  exists file0, calls, calls'. by repeat split.
Qed.

Lemma lonStep_option_resampler_args iargs iargs' σ ns w1 x inps inps' σ1 σ1' :
  parse_args iargs (st_world σ) = (Ok ns, w1) ->
  parse_args iargs' (st_world σ) = (Ok (set_lonStep x ns), w1) ->
  options_stage iargs σ = (Ok inps, σ1) ->
  options_stage iargs' σ = (Ok inps', σ1') ->
  resampler_args inps' = resampler_args inps.
Proof.
  destruct σ as [w h t]. intros Hp Hp' Hopt Hopt'.
  cbn [st_world] in Hp, Hp'.
  apply options_stage_ok_inv in Hopt as (i0 & w0 & Hc & Hopt).
  apply options_stage_ok_inv in Hopt' as (i0' & w0' & Hc' & Hopt').
  apply cmd_line_parse_ok_inv in Hc
    as (ns1 & w11 & files & w2 & lk & w3 & Hq & Hf & _ & Hl & _ & -> & Hw).
  apply cmd_line_parse_ok_inv in Hc'
    as (ns2 & w12 & files' & w2' & lk' & w3' & Hq' & Hf' & _ & Hl' & _ & -> & Hw').
  rewrite Hp in Hq. rewrite Hp' in Hq'. simplify_eq.
  cbn [file lookupFile set_lonStep] in Hf', Hl'.
  rewrite Hf in Hf'. simplify_eq. rewrite Hl in Hl'. simplify_eq.
  cbn [resolved_options templateFile set_laloStep set_lookupFile set_file set_lonStep]
    in Hopt, Hopt'.
  destruct Hopt as [(Ht & -> & _) | (tf & Htf & Hne & Hrun)];
    destruct Hopt' as [(Ht' & -> & _) | (tf' & Htf' & Hne' & Hrun')].
  + reflexivity.
  + rewrite Htf' in Ht. simpl in Ht. by destruct (String.eqb_spec tf' "").
  + rewrite Htf in Ht'. simpl in Ht'. by destruct (String.eqb_spec tf "").
  + rewrite Htf in Htf'. simplify_eq.
    apply read_template2inps_ok_inv in Hrun
      as (raw & wa & template & wb & m & Hr & Hk & E & -> & _).
    apply read_template2inps_ok_inv in Hrun'
      as (raw' & wa' & template' & wb' & m' & Hr' & Hk' & E' & -> & _).
    rewrite Hr in Hr'. simplify_eq. rewrite Hk in Hk'. simplify_eq.
    change (resampler_args m' = resampler_args m).
    by eapply (five_steps_resampler_args template' template'); [| | | | | exact E | exact E'].
Qed.

Lemma lonStep_template_resampler_args iargs w h t w' h' t' inps0 σ0 σ0' tf
    raw wa template wb raw' wa' template' wb' inps inps' σ1 σ1' :
  cmd_line_parse iargs (Build_state w h t) = (Ok inps0, σ0) ->
  cmd_line_parse iargs (Build_state w' h' t') = (Ok inps0, σ0') ->
  templateFile inps0 = Some tf ->
  read_template tf (st_world σ0) = (Ok raw, wa) ->
  check_template_auto_value raw wa = (Ok template, wb) ->
  read_template tf (st_world σ0') = (Ok raw', wa') ->
  check_template_auto_value raw' wa' = (Ok template', wb') ->
  (forall k, k <> "pysar.geocode.lonStep"%string -> template' !! k = template !! k) ->
  options_stage iargs (Build_state w h t) = (Ok inps, σ1) ->
  options_stage iargs (Build_state w' h' t') = (Ok inps', σ1') ->
  resampler_args inps' = resampler_args inps.
Proof.
  intros Hc Hc' Htf Hr Hk Hr' Hk' Hagree Hopt Hopt'.
  apply options_stage_ok_inv in Hopt as (i0 & w0 & Hc0 & Hopt).
  apply options_stage_ok_inv in Hopt' as (i0' & w0' & Hc0' & Hopt').
  rewrite Hc in Hc0. injection Hc0 as <- ->.
  rewrite Hc' in Hc0'. injection Hc0' as <- ->.
  cbn [st_world] in Hr, Hr'.
  destruct Hopt as [(Ht & -> & _) | (tf1 & Htf1 & Hne1 & Hrun)];
    destruct Hopt' as [(Ht' & -> & _) | (tf2 & Htf2 & Hne2 & Hrun')].
  - reflexivity.
  - rewrite Htf2 in Ht. simpl in Ht. by destruct (String.eqb_spec tf2 "").
  - rewrite Htf1 in Ht'. simpl in Ht'. by destruct (String.eqb_spec tf1 "").
  - rewrite Htf in Htf1, Htf2. injection Htf1 as <-. injection Htf2 as <-.
    apply read_template2inps_ok_inv in Hrun
      as (raw1 & wa1 & template1 & wb1 & m & Hr1 & Hk1 & E & -> & _).
    apply read_template2inps_ok_inv in Hrun'
      as (raw2 & wa2 & template2 & wb2 & m' & Hr2 & Hk2 & E' & -> & _).
    rewrite Hr in Hr1. simplify_eq. rewrite Hk in Hk1. simplify_eq.
    rewrite Hr' in Hr2. simplify_eq. rewrite Hk' in Hk2. simplify_eq.
    change (resampler_args m' = resampler_args m).
    by eapply (five_steps_resampler_args template1 template2); [| | | | | exact E | exact E'].
Qed.

(** C8: in every run of [main] that has resolved its options and read the
    clock, the constructor of the resampler is called, once and before any
    other call, with [inps.latStep] as its laloStep (a single number, never
    the pair of [inps.laloStep]), next to the lookup file, the first input
    file and the bounding box; what the constructor raises, [main] raises;
    and no run calls the constructor with other arguments.  So two
    invocations that differ only in the longitude step, be it the option -x
    or the template entry pysar.geocode.lonStep, both call the constructor,
    and with the same arguments. *)
Theorem main_resampler_ignores_lonStep :
  (forall iargs σ inps σ1 start_time w1,
     options_stage iargs σ = (Ok inps, σ1) ->
     time_time (st_world σ1) = (Ok start_time, w1) ->
     exists file0 calls,
       head (file inps) = Some file0 /\
       steps (new_events (main iargs) σ)
       = SNew (lookupFile inps) file0 (SNWE inps) (latStep inps) :: calls /\
       (forall lookup data_file snwe lalo, SNew lookup data_file snwe lalo ∉ calls) /\
       (forall e w2,
          resample_new (lookupFile inps) file0 (SNWE inps) (latStep inps) w1
          = (Raise e, w2) ->
          (main iargs σ).1 = Raise e))
  /\ (forall iargs σ lookup data_file snwe lalo,
        SNew lookup data_file snwe lalo ∈ steps (new_events (main iargs) σ) ->
        exists inps σ1,
          options_stage iargs σ = (Ok inps, σ1) /\
          lookup = lookupFile inps /\ head (file inps) = Some data_file /\
          snwe = SNWE inps /\ lalo = latStep inps)
  /\ (forall iargs iargs' σ ns w0 x inps inps' σ1 σ1' start_time w1 start_time' w1',
        parse_args iargs (st_world σ) = (Ok ns, w0) ->
        parse_args iargs' (st_world σ) = (Ok (set_lonStep x ns), w0) ->
        options_stage iargs σ = (Ok inps, σ1) ->
        options_stage iargs' σ = (Ok inps', σ1') ->
        time_time (st_world σ1) = (Ok start_time, w1) ->
        time_time (st_world σ1') = (Ok start_time', w1') ->
        exists file0 calls calls',
          head (file inps) = Some file0 /\
          steps (new_events (main iargs) σ)
          = SNew (lookupFile inps) file0 (SNWE inps) (latStep inps) :: calls /\
          steps (new_events (main iargs') σ)
          = SNew (lookupFile inps) file0 (SNWE inps) (latStep inps) :: calls' /\
          (forall lookup data_file snwe lalo, SNew lookup data_file snwe lalo ∉ calls) /\
          (forall lookup data_file snwe lalo, SNew lookup data_file snwe lalo ∉ calls'))
  /\ (forall iargs w h t w' h' t' inps0 σ0 σ0' tf raw wa template wb raw' wa' template' wb'
             inps inps' σ1 σ1' start_time w1 start_time' w1',
        cmd_line_parse iargs (Build_state w h t) = (Ok inps0, σ0) ->
        cmd_line_parse iargs (Build_state w' h' t') = (Ok inps0, σ0') ->
        templateFile inps0 = Some tf ->
        read_template tf (st_world σ0) = (Ok raw, wa) ->
        check_template_auto_value raw wa = (Ok template, wb) ->
        read_template tf (st_world σ0') = (Ok raw', wa') ->
        check_template_auto_value raw' wa' = (Ok template', wb') ->
        (forall k, k <> "pysar.geocode.lonStep"%string -> template' !! k = template !! k) ->
        options_stage iargs (Build_state w h t) = (Ok inps, σ1) ->
        options_stage iargs (Build_state w' h' t') = (Ok inps', σ1') ->
        time_time (st_world σ1) = (Ok start_time, w1) ->
        time_time (st_world σ1') = (Ok start_time', w1') ->
        exists file0 calls calls',
          head (file inps) = Some file0 /\
          steps (new_events (main iargs) (Build_state w h t))
          = SNew (lookupFile inps) file0 (SNWE inps) (latStep inps) :: calls /\
          steps (new_events (main iargs) (Build_state w' h' t'))
          = SNew (lookupFile inps) file0 (SNWE inps) (latStep inps) :: calls' /\
          (forall lookup data_file snwe lalo, SNew lookup data_file snwe lalo ∉ calls) /\
          (forall lookup data_file snwe lalo, SNew lookup data_file snwe lalo ∉ calls')).
Proof.
  split; [| split; [| split]].
  - intros iargs σ inps σ1 start_time w1. apply main_constructs.
  - intros iargs σ lookup data_file snwe lalo Hin.
    apply main_calls_planned in Hin as (inps & σ1 & Hopt & Hs).
    exists inps, σ1. split; [exact Hopt |].
    unfold plan in Hs. destruct (file inps) as [| file0 rest]; [by apply elem_of_nil in Hs |].
    rewrite !elem_of_cons in Hs. destruct Hs as [Hs | [Hs | Hs]]; [| done |].
    + by simplify_eq.
    + apply elem_of_file_steps in Hs as (f & _ & [Hs | [Hs | Hs]]); done.
  - intros iargs iargs' σ ns w0 x inps inps' σ1 σ1' start_time w1 start_time' w1'
      Hp Hp' Hopt Hopt' Htime Htime'.
    apply (same_construction _ _ _ _ _ _ _ _ _ _ _ _ Hopt Hopt' Htime Htime').
    exact (lonStep_option_resampler_args _ _ _ _ _ _ _ _ _ _ Hp Hp' Hopt Hopt').
  - intros iargs w h t w' h' t' inps0 σ0 σ0' tf raw wa template wb raw' wa' template' wb'
      inps inps' σ1 σ1' start_time w1 start_time' w1'
      Hc Hc' Htf Hr Hk Hr' Hk' Hagree Hopt Hopt' Htime Htime'.
    apply (same_construction _ _ _ _ _ _ _ _ _ _ _ _ Hopt Hopt' Htime Htime').
    exact (lonStep_template_resampler_args _ _ _ _ _ _ _ _ _ _ _ _ _ _ _ _ _ _ _ _ _ _ _
             Hc Hc' Htf Hr Hk Hr' Hk' Hagree Hopt Hopt').
Qed.

End Constructor.

Section DataFlow.
Context {ext : Externals}.
Implicit Types (σ : state) (h : list dict) (d : dict) (t : list event).
Implicit Types (inps : options).

(** A resampling in the log of [geocode_file]: what it was given. *)
Lemma geocode_file_resample_inv infile inps res_obj outfile w h t
    r data src dst interp fill :
  EvResample r data src dst interp fill
    ∈ new_events (geocode_file infile inps res_obj outfile) (Build_state w h t) ->
  r = res_obj /\ src_def inps = Some src /\ dest_def inps = Some dst /\
  interp = interpMethod inps /\ fill = fillValue inps /\
  exists data0 atr0 w1,
    readfile_read infile w = (Ok (data0, atr0), w1) /\ data = bands_last data0.
Proof.
  intros H. unfold geocode_file in H.
  inv_ev H Hs; [not_logged H |]. rewrite run_emit in Hs. injection Hs as <- <-.
  inv_ev H Hs; [not_logged H |]. rewrite run_emit in Hs. injection Hs as <- <-.
  inv_ev H Hs; [not_logged H |]. rewrite run_emit in Hs. injection Hs as <- <-.
  inv_ev H Hs; [not_logged H |]. rewrite run_call in Hs.
  destruct (readfile_read infile w) as [r1 w1] eqn:Hread. cbn [fst snd] in Hs.
  injection Hs as -> <-. destruct x as [data0 atr_read].
  inv_ev H Hs; [not_logged H |]. rewrite run_new_dict in Hs. injection Hs as <- <-.
  inv_ev H Hs; [not_logged H |]. apply attr_ok in Hs as [Hsrc ->].
  inv_ev H Hs; [not_logged H |]. apply attr_ok in Hs as [Hdst ->].
  inv_ev H Hs.
  - rewrite new_events_emit in H. apply list_elem_of_singleton in H.
    injection H as -> -> -> -> -> ->.
    repeat (split; [first [assumption | reflexivity] |]).
    by exists data0, atr_read, w1.
  - rewrite run_emit in Hs. injection Hs as <- <-.
    inv_ev H Hs; [not_logged H |].
    inv_ev H Hs'.
    { match type of H with
      | _ ∈ new_events ?m ?σ0 =>
          pose proof (logs_new_events not_resample m σ0
                        (update_attribute_no_resample _ _ _)) as Hno
      end.
      rewrite Forall_forall in Hno. by destruct (Hno _ H). }
    inv_ev H Hs''; [not_logged H |].
    inv_ev H Hs3; [not_logged H |].
    inv_ev H Hs4; not_logged H.
Qed.

(** X15: what [geocode_file] hands to the resampling: the resampler it was
    given, the array read from the input file (its first axis moved last
    when it has three), the two geometry definitions, the interpolation
    method and the fill value of the options. *)
Theorem geocode_file_resamples_input infile inps res_obj outfile w h t
    r data src dst interp fill :
  EvResample r data src dst interp fill
    ∈ new_events (geocode_file infile inps res_obj outfile) (Build_state w h t) ->
  r = res_obj /\ src_def inps = Some src /\ dest_def inps = Some dst /\
  interp = interpMethod inps /\ fill = fillValue inps /\
  exists data0 atr0 w1,
    readfile_read infile w = (Ok (data0, atr0), w1) /\
    data = if Nat.eqb (length (np_shape data0)) 3 then np_moveaxis data0 0 (-1) else data0.
Proof.
  intros H.
  apply geocode_file_resample_inv in H
    as (-> & Hsrc & Hdst & -> & -> & data0 & atr0 & w1 & Hread & ->).
  repeat (split; [first [assumption | reflexivity] |]).
  exists data0, atr0, w1. by split.
Qed.

(** X16: what [geocode_file] writes comes from what it read: the array is
    the result of resampling the array read (the last axis moved first when
    it has three), and outside the twelve keys of [updated_keys] the
    metadata written have exactly the entries of the metadata read. *)
Theorem geocode_file_writes_input infile inps res_obj outfile w h t
    data atr out_file in_file :
  EvWrite data atr out_file in_file
    ∈ new_events (geocode_file infile inps res_obj outfile) (Build_state w h t) ->
  exists data0 atr0 w1 src dst geo w2,
    readfile_read infile w = (Ok (data0, atr0), w1) /\
    resample_resample res_obj
      (if Nat.eqb (length (np_shape data0)) 3 then np_moveaxis data0 0 (-1) else data0)
      src dst (interpMethod inps) (fillValue inps) w1 = (Ok geo, w2) /\
    data = (if Nat.eqb (length (np_shape geo)) 3 then np_moveaxis geo (-1) 0 else geo) /\
    forall k, k ∉ updated_keys -> atr !! k = atr0 !! k.
Proof.
  intros H.
  apply geocode_file_write_inv in H
    as (data0 & atr_read & w1 & src & dst & geo & w2 & l & σ3
        & Hread & _ & _ & Hres & -> & Hua & Hatr & _ & _).
  exists data0, atr_read, w1, src, dst, geo, w2.
  split; [exact Hread |]. split; [exact Hres |]. split; [reflexivity |].
  apply update_attribute_returns in Hua
    as (d0 & shape & len & wid & snwe & s & n & west & east & ys & xs & d
        & Hd0 & _ & _ & _ & _ & _ & _ & _ & _ & _ & -> & Hheap & Hkeep & _).
  rewrite heap_lookup_fresh in Hd0. injection Hd0 as <-.
  rewrite Hheap, heap_lookup_fresh in Hatr. injection Hatr as <-.
  exact Hkeep.
Qed.

(** X17: every resampling that a run of [main] makes is made by the
    resampler built from the resolved options, with the two geometry
    definitions that its get_geometry_definition returned and with the
    interpolation method and the fill value of the resolved options (those
    of the template, when it sets them). *)
Theorem main_resamples_with_options iargs σ r data src dst interp fill :
  EvResample r data src dst interp fill ∈ new_events (main iargs) σ ->
  exists inps σ1 file0 others start_time w1 w2 snwe w3,
    options_stage iargs σ = (Ok inps, σ1) /\
    file inps = file0 :: others /\
    time_time (st_world σ1) = (Ok start_time, w1) /\
    resample_new (lookupFile inps) file0 (SNWE inps) (latStep inps) w1 = (Ok r, w2) /\
    get_geometry_definition r w2 = (Ok (src, dst, snwe), w3) /\
    interp = interpMethod inps /\ fill = fillValue inps.
Proof.
  rewrite new_events_main. intros H.
  inv_ev H Hopt.
  { pose proof (logs_new_events silent _ σ (emits_silent _ (options_stage_emits iargs))) as Hsil.
    rewrite Forall_forall in Hsil. specialize (Hsil _ H). discriminate Hsil. }
  rename x into inps. destruct x0 as [w0 h0 t0].
  unfold geocoding_stage in H.
  inv_ev H Hs; [not_logged H |]. rewrite run_call in Hs.
  destruct (time_time w0) as [r1 w1] eqn:Htime. cbn [fst snd] in Hs. injection Hs as -> <-.
  destruct (file inps) as [| file0 others] eqn:Hfile.
  { inv_ev H Hs; [not_logged H |]. discriminate Hs. }
  inv_ev H Hs; [not_logged H |]. rewrite run_ret in Hs. injection Hs as <- <-.
  inv_ev H Hs; [not_logged H |]. rewrite run_emit in Hs. injection Hs as <- <-.
  inv_ev H Hs; [not_logged H |]. rewrite run_call in Hs.
  destruct (resample_new (lookupFile inps) file0 (SNWE inps) (latStep inps) w1)
    as [r2 w2] eqn:Hnew.
  cbn [fst snd] in Hs. injection Hs as -> <-. rename x0 into res_obj.
  inv_ev H Hs; [not_logged H |]. rewrite run_emit in Hs. injection Hs as <- <-.
  inv_ev H Hs; [not_logged H |]. rewrite run_call in Hs.
  destruct (get_geometry_definition res_obj w2) as [r3 w3] eqn:Hgeo.
  cbn [fst snd] in Hs. injection Hs as -> <-. destruct x0 as [[src0 dst0] snwe].
  cbn [file set_SNWE set_dest_def set_src_def] in H. rewrite Hfile in H.
  inv_ev H Hs.
  2:{ inv_ev H Hs'; not_logged H. }
  apply geocode_files_event_inv in H as (f & inps' & [w' h' t'] & Hin & Hinps & H).
  apply geocode_file_resample_inv in H as (-> & Hsrc & Hdst & -> & -> & _).
  assert (Hsame : src_def inps' = Some src0 /\ dest_def inps' = Some dst0 /\
                  interpMethod inps' = interpMethod inps /\ fillValue inps' = fillValue inps).
  { destruct Hinps as [-> | [shape ->]]; by repeat split. }
  destruct Hsame as (E1 & E2 & E3 & E4).
  rewrite E1 in Hsrc. rewrite E2 in Hdst. injection Hsrc as <-. injection Hdst as <-.
  exists inps, (Build_state w0 h0 t0), file0, others, x, w1, w2, snwe, w3.
  by repeat (split; [first [assumption | reflexivity] |]).
Qed.

(** X18: when [geocode_file] cannot go on, it has written nothing: a read
    that raises ends it with the same exception, the two lines printed and
    nothing resampled; options without src_def or dest_def end it with
    AttributeError after the read; a resampling that raises ends it with
    the same exception.  In each case the world is as the last call left
    it. *)
Theorem geocode_file_stops_early infile inps res_obj outfile w h t :
  let said :=
    t ++ [EvPrint (repeat_char "-" 50); EvPrint ("geocode file: " +:+ infile);
          EvRead infile] in
  (forall e w1,
     readfile_read infile w = (Raise e, w1) ->
     geocode_file infile inps res_obj outfile (Build_state w h t)
     = (Raise e, Build_state w1 h said))
  /\ (forall data atr w1,
        readfile_read infile w = (Ok (data, atr), w1) ->
        src_def inps = None \/ dest_def inps = None ->
        geocode_file infile inps res_obj outfile (Build_state w h t)
        = (Raise AttributeError, Build_state w1 (h ++ [atr]) said))
  /\ (forall data atr w1 src dst e w2,
        readfile_read infile w = (Ok (data, atr), w1) ->
        src_def inps = Some src -> dest_def inps = Some dst ->
        resample_resample res_obj
          (if Nat.eqb (length (np_shape data)) 3 then np_moveaxis data 0 (-1) else data)
          src dst (interpMethod inps) (fillValue inps) w1 = (Raise e, w2) ->
        geocode_file infile inps res_obj outfile (Build_state w h t)
        = (Raise e,
           Build_state w2 (h ++ [atr])
             (said ++ [EvResample res_obj
                         (if Nat.eqb (length (np_shape data)) 3
                          then np_moveaxis data 0 (-1) else data)
                         src dst (interpMethod inps) (fillValue inps)]))).
Proof.
  cbv zeta. unfold geocode_file.
  rewrite run_bind, run_emit. cbv beta iota.
  rewrite run_bind, run_emit. cbv beta iota.
  rewrite run_bind, run_emit. cbv beta iota.
  rewrite run_bind, run_call. rewrite <- !app_assoc. cbn [app].
  split; [| split].
  - intros e w1 ->. reflexivity.
  - intros data atr w1 -> Hno. cbn [fst snd].
    rewrite run_bind, run_new_dict. cbv beta iota.
    destruct (src_def inps) as [src |] eqn:Hsrc.
    + destruct Hno as [Hno | Hno]; [discriminate |]. rewrite Hno.
      rewrite run_bind. unfold attr at 1. rewrite run_ret. cbv beta iota.
      by rewrite run_bind.
    + by rewrite run_bind.
  - intros data atr w1 src dst e w2 -> Hsrc Hdst Hres. cbn [fst snd].
    rewrite run_bind, run_new_dict. cbv beta iota.
    rewrite Hsrc, Hdst.
    rewrite run_bind. unfold attr at 1. rewrite run_ret. cbv beta iota.
    rewrite run_bind. unfold attr at 1. rewrite run_ret. cbv beta iota.
    rewrite run_bind, run_emit. cbv beta iota.
    rewrite run_bind, run_call, Hres. cbn [fst snd].
    rewrite <- !app_assoc. reflexivity.
Qed.

End DataFlow.

(* ================================================================== *)
(** ** What the rest of main reads of the options *)
(* ================================================================== *)

Section Ignored.
Context {ext : Externals}.
Implicit Types (σ : state) (h : list dict) (d : dict) (t : list event).
Implicit Types (inps : options).

Lemma same_run_refl {A} (m : M A) : same_run eq m m.
Proof. intros σ. split; [reflexivity |]. by destruct (m σ).1. Qed.

Lemma same_run_bind {A B C D} (R : A -> B -> Prop) (Q : C -> D -> Prop)
    (m : M A) (m' : M B) (k : A -> M C) (k' : B -> M D) :
  same_run R m m' -> (forall a b, R a b -> same_run Q (k a) (k' b)) ->
  same_run Q (m ≫= k) (m' ≫= k').
Proof.
  intros Hm Hk σ. rewrite !run_bind. destruct (Hm σ) as [Hs Hr].
  destruct (m σ) as [[a | e | msg] σ1], (m' σ) as [[b | e' | msg'] σ1'];
    simpl in *; try done; subst.
  exact (Hk a b Hr σ1').
Qed.

Lemma same_run_bind_same {A C D} (Q : C -> D -> Prop) (m : M A)
    (k : A -> M C) (k' : A -> M D) :
  (forall a, same_run Q (k a) (k' a)) -> same_run Q (m ≫= k) (m ≫= k').
Proof.
  intros Hk. apply (same_run_bind eq); [apply same_run_refl |]. intros a b <-. apply Hk.
Qed.

Lemma same_run_ret {A B} (R : A -> B -> Prop) a b :
  R a b -> same_run R (mret a : M A) (mret b : M B).
Proof. intros H σ. by split. Qed.

Lemma same_run_eq {A} (m m' : M A) σ : same_run eq m m' -> m σ = m' σ.
Proof.
  intros H. destruct (H σ) as [Hs Hr].
  destruct (m σ) as [[a | e | msg] σ1], (m' σ) as [[b | e' | msg'] σ1'];
    simpl in *; try done; by subst.
Qed.

(** [update_attribute] reads three of the options. *)
Lemma update_attribute_reads atr_in inps inps' pm :
  outShape inps' = outShape inps -> SNWE inps' = SNWE inps ->
  lookupFile inps' = lookupFile inps ->
  update_attribute atr_in inps' pm = update_attribute atr_in inps pm.
Proof. intros H1 H2 H3. unfold update_attribute. by rewrite H1, H2, H3. Qed.

Lemma geocode_file_reads infile inps inps' res_obj outfile :
  same_for_file inps inps' ->
  same_run (fun r r' => r.1 = r'.1 /\ same_for_file r.2 r'.2)
    (geocode_file infile inps res_obj outfile) (geocode_file infile inps' res_obj outfile).
Proof.
  intros (H1 & H2 & H3 & H4 & H5 & H6). unfold geocode_file.
  rewrite H3, H4, H5, H6.
  do 3 (apply same_run_bind_same; intros _).
  apply same_run_bind_same; intros [data atr_read].
  apply same_run_bind_same; intros atr.
  apply same_run_bind_same; intros src.
  apply same_run_bind_same; intros dst.
  apply same_run_bind_same; intros _.
  apply same_run_bind_same; intros geo.
  rewrite (update_attribute_reads atr (set_outShape _ inps) (set_outShape _ inps') true)
    by done.
  apply same_run_bind_same; intros atr'.
  apply same_run_bind_same; intros atr_out.
  apply same_run_bind_same; intros _.
  apply same_run_bind_same; intros _.
  apply same_run_ret. by repeat split.
Qed.

Lemma geocode_files_reads files inps inps' res_obj :
  same_for_file inps inps' ->
  same_run (fun _ _ => True)
    (geocode_files files inps res_obj) (geocode_files files inps' res_obj).
Proof.
  revert inps inps'. induction files as [| f rest IH]; intros inps inps' H.
  - by apply same_run_ret.
  - cbn [geocode_files].
    eapply same_run_bind; [by apply geocode_file_reads |].
    intros [o j] [o' j'] [_ Hj]. by apply IH.
Qed.

(** X19: once the options are resolved, the rest of [main], from the
    reading of the clock on, reads six of them: file, lookupFile, SNWE,
    latStep, interpMethod and fillValue.  Two option records that agree on
    these give the same outcome and leave the same world, store and log:
    lonStep, laloStep, outfile and templateFile are not read, and neither
    are src_def, dest_def and outShape as they stand before [main] and
    [geocode_file] set them. *)
Theorem geocoding_stage_reads inps inps' σ :
  file inps' = file inps -> lookupFile inps' = lookupFile inps ->
  SNWE inps' = SNWE inps -> latStep inps' = latStep inps ->
  interpMethod inps' = interpMethod inps -> fillValue inps' = fillValue inps ->
  geocoding_stage inps' σ = geocoding_stage inps σ.
Proof.
  intros H1 H2 H3 H4 H5 H6. symmetry. apply same_run_eq.
  unfold geocoding_stage. rewrite H1, H2, H3, H4.
  apply same_run_bind_same; intros start_time.
  apply same_run_bind_same; intros file0.
  apply same_run_bind_same; intros _.
  apply same_run_bind_same; intros res_obj.
  apply same_run_bind_same; intros _.
  apply same_run_bind_same; intros [[src dst] snwe].
  cbn [file set_SNWE set_dest_def set_src_def]. rewrite H1.
  eapply same_run_bind.
  { apply geocode_files_reads. by repeat split. }
  intros _ _ _. apply same_run_refl.
Qed.

End Ignored.

(* ================================================================== *)
(** ** The default output name *)
(* ================================================================== *)

Module PathFacts.
Import PosixPath.

Lemma has_slash_app a b : has_slash (a +:+ b) = has_slash a || has_slash b.
Proof. induction a as [| c r IH]; simpl; [reflexivity |]. by rewrite IH, orb_assoc. Qed.

Lemma has_slash_basename p : has_slash (basename p) = false.
Proof.
  induction p as [| c r IH]; [reflexivity |]. simpl.
  destruct (has_slash r) eqn:E; [exact IH |].
  destruct (is_slash c) eqn:Ec; [exact E |]. simpl. by rewrite Ec, E.
Qed.

Lemma ends_with_slash_has a : ends_with_slash a = true -> has_slash a = true.
Proof.
  induction a as [| c r IH]; [discriminate |]. simpl.
  destruct r as [| c' r']; [by intros ->|]. intros H. rewrite (IH H). apply orb_true_r.
Qed.

Lemma dir_part_cons c r : dir_part (String c r) -> (r = ""%string /\ is_slash c = true) \/ (r <> ""%string /\ ends_with_slash r = true).
Proof.
  intros [H | H]; [discriminate |]. simpl in H.
  destruct r as [| c' r']; [by left | right]. by split.
Qed.

Lemma basename_cons c r :
  basename (String c r)
  = if has_slash r then basename r else if is_slash c then r else String c r.
Proof. reflexivity. Qed.

Lemma head_cons c r :
  head (String c r)
  = if has_slash r then String c (head r)
    else if is_slash c then String c EmptyString else EmptyString.
Proof. reflexivity. Qed.

Lemma append_cons c r b : (String c r +:+ b)%string = String c (r +:+ b).
Proof. reflexivity. Qed.

Lemma basename_no_slash b : has_slash b = false -> basename b = b.
Proof.
  destruct b as [| c r]; [reflexivity |]. simpl.
  intros H. apply orb_false_iff in H as [Hc Hr]. by rewrite Hr, Hc.
Qed.

Lemma basename_app a b : dir_part a -> has_slash b = false -> basename (a +:+ b) = b.
Proof.
  intros Ha Hb. induction a as [| c r IH]; [by apply basename_no_slash |].
  rewrite append_cons, basename_cons, has_slash_app.
  apply dir_part_cons in Ha as [[-> Hc] | [Hne Hr]].
  - by rewrite Hb, Hc.
  - rewrite (ends_with_slash_has _ Hr). simpl. apply IH. by right.
Qed.

Lemma head_app a b : dir_part a -> has_slash b = false -> head (a +:+ b) = a.
Proof.
  intros Ha Hb. induction a as [| c r IH].
  - change (head b = ""%string). destruct b as [| c' b']; [reflexivity |]. rewrite head_cons.
    simpl in Hb. apply orb_false_iff in Hb as [Hc Hb]. by rewrite Hb, Hc.
  - rewrite append_cons, head_cons, has_slash_app.
    apply dir_part_cons in Ha as [[-> Hc] | [Hne Hr]].
    + by rewrite Hb, Hc.
    + rewrite (ends_with_slash_has _ Hr). simpl. f_equal. apply IH. by right.
Qed.

Lemma ends_with_slash_cons c s :
  ends_with_slash (String c s) = if String.eqb s "" then is_slash c else ends_with_slash s.
Proof. by destruct s. Qed.

Lemma rstrip_slash_cons c r :
  rstrip_slash (String c r)
  = match rstrip_slash r with
    | EmptyString => if is_slash c then EmptyString else String c EmptyString
    | r' => String c r'
    end.
Proof. reflexivity. Qed.

Lemma all_slashes_cons c r : all_slashes (String c r) = is_slash c && all_slashes r.
Proof. reflexivity. Qed.

Lemma append_not_empty r c : String.eqb (r +:+ String c "") "" = false.
Proof. by destruct r. Qed.

Lemma ends_with_slash_app_slash a : ends_with_slash (a +:+ "/") = true.
Proof.
  induction a as [| c r IH]; [reflexivity |].
  by rewrite append_cons, ends_with_slash_cons, append_not_empty.
Qed.

Lemma rstrip_slash_empty_iff s : rstrip_slash s = ""%string <-> all_slashes s = true.
Proof.
  induction s as [| c r IH]; [done |].
  rewrite rstrip_slash_cons, all_slashes_cons.
  destruct (rstrip_slash r) eqn:E.
  - destruct (is_slash c); simpl; [| by split].
    split; [intros _; by apply IH | done].
  - split; [discriminate |]. intros H. apply andb_true_iff in H as [_ H].
    apply IH in H. discriminate.
Qed.

Lemma ends_with_slash_rstrip s : ends_with_slash (rstrip_slash s) = false.
Proof.
  induction s as [| c r IH]; [reflexivity |].
  rewrite rstrip_slash_cons.
  destruct (rstrip_slash r) as [| c' r'] eqn:E.
  - destruct (is_slash c) eqn:Ec; [reflexivity |]. by rewrite ends_with_slash_cons.
  - by rewrite ends_with_slash_cons.
Qed.

Lemma all_slashes_rstrip s : all_slashes s = false -> all_slashes (rstrip_slash s) = false.
Proof.
  induction s as [| c r IH]; [discriminate |].
  rewrite rstrip_slash_cons, all_slashes_cons.
  destruct (rstrip_slash r) as [| c' r'] eqn:E.
  - destruct (is_slash c) eqn:Ec.
    + intros H. apply rstrip_slash_empty_iff in E. by rewrite E in H.
    + intros _. by rewrite all_slashes_cons, Ec.
  - intros H. rewrite all_slashes_cons.
    destruct (is_slash c); [| reflexivity]. simpl in H. by apply IH.
Qed.

Lemma rstrip_slash_app_slash s : rstrip_slash (s +:+ "/") = rstrip_slash s.
Proof.
  induction s as [| c r IH]; [reflexivity |].
  by rewrite append_cons, !rstrip_slash_cons, IH.
Qed.

Lemma rstrip_slash_fixed s : ends_with_slash s = false -> rstrip_slash s = s.
Proof.
  induction s as [| c r IH]; [reflexivity |].
  rewrite ends_with_slash_cons, rstrip_slash_cons.
  destruct r as [| c' r'].
  - simpl. by intros ->.
  - intros H. simpl in H. by rewrite (IH H).
Qed.

Lemma all_slashes_app_slash s : all_slashes (s +:+ "/") = all_slashes s.
Proof.
  induction s as [| c r IH]; [reflexivity |].
  by rewrite append_cons, !all_slashes_cons, IH.
Qed.

Lemma all_slashes_ends s : s <> ""%string -> all_slashes s = true -> ends_with_slash s = true.
Proof.
  induction s as [| c r IH]; [done |]. intros _.
  rewrite all_slashes_cons, ends_with_slash_cons.
  intros H. apply andb_true_iff in H as [Hc Hr].
  destruct r as [| c' r']; [exact Hc |]. by apply IH.
Qed.

Lemma prefix_slash_geo b : String.prefix "/" ("geo_" +:+ b) = false.
Proof. reflexivity. Qed.

Lemma append_nil_r s : (s +:+ "")%string = s.
Proof. induction s as [| c r IH]; [reflexivity |]. by rewrite append_cons, IH. Qed.

Lemma append_assoc a b c : ((a +:+ b) +:+ c)%string = (a +:+ (b +:+ c))%string.
Proof. induction a as [| x r IH]; [reflexivity |]. by rewrite !append_cons, IH. Qed.

Lemma join_relative a b :
  String.prefix "/" b = false -> join a b = join_dir a +:+ b.
Proof.
  intros Hb. unfold join, join_dir. rewrite Hb.
  destruct (String.eqb a "" || ends_with_slash a); [reflexivity |].
  by rewrite append_assoc.
Qed.

Lemma join_dir_part a : dir_part (join_dir a).
Proof.
  unfold join_dir, dir_part.
  destruct (String.eqb_spec a "") as [-> | Hne]; simpl; [by left |].
  destruct (ends_with_slash a) eqn:E; right; [exact E | apply ends_with_slash_app_slash].
Qed.

Lemma dirname_strip p : dirname p = strip_dir (head p).
Proof. reflexivity. Qed.

Lemma strip_dir_join_dir h : strip_dir (join_dir (strip_dir h)) = strip_dir h.
Proof.
  unfold strip_dir at 2 3.
  destruct (String.eqb_spec h "") as [-> | Hne]; [reflexivity |].
  destruct (all_slashes h) eqn:Hall; cbn [negb andb].
  - unfold join_dir. rewrite (all_slashes_ends _ Hne Hall), orb_true_r.
    unfold strip_dir. rewrite Hall. by rewrite andb_false_r.
  - set (d := rstrip_slash h).
    assert (Hd1 : ends_with_slash d = false) by apply ends_with_slash_rstrip.
    assert (Hd2 : all_slashes d = false) by by apply all_slashes_rstrip.
    assert (Hd3 : d <> ""%string).
    { intros E. apply rstrip_slash_empty_iff in E. congruence. }
    unfold join_dir. rewrite Hd1, orb_false_r.
    destruct (String.eqb_spec d ""); [done |].
    unfold strip_dir. rewrite append_not_empty, all_slashes_app_slash, Hd2.
    cbn [negb andb]. rewrite rstrip_slash_app_slash. by apply rstrip_slash_fixed.
Qed.

End PathFacts.

Section GeoName.
Import PosixPath PathFacts.

(** X20: the default output name of [geocode_file] splits back into the
    directory of the input and 'geo_' followed by the base name of the
    input; it is never the name of the input itself. *)
Theorem geo_name_splits infile :
  basename (geo_name infile) = "geo_" +:+ basename infile
  /\ dirname (geo_name infile) = dirname infile
  /\ geo_name infile <> infile.
Proof.
  assert (Hb : has_slash ("geo_" +:+ basename infile) = false).
  { simpl. apply has_slash_basename. }
  assert (Hj : geo_name infile = join_dir (dirname infile) +:+ ("geo_" +:+ basename infile)).
  { unfold geo_name. by apply join_relative. }
  assert (H1 : basename (geo_name infile) = "geo_" +:+ basename infile).
  { rewrite Hj. apply basename_app; [apply join_dir_part | exact Hb]. }
  split; [exact H1 |]. split.
  - rewrite (dirname_strip (geo_name infile)), Hj.
    rewrite head_app by (apply join_dir_part || exact Hb).
    rewrite (dirname_strip infile). apply strip_dir_join_dir.
  - intros E. rewrite E in H1. apply (f_equal String.length) in H1.
    change ("geo_" +:+ basename infile)%string
      with (String "g" (String "e" (String "o" (String "_" (basename infile))))) in H1.
    cbn [String.length] in H1. lia.
Qed.

End GeoName.

(* ================================================================== *)
(** ** The driver at work

    Runs of the driver in the concrete world of [Demo]: each property
    above that has a premise is applied to one of them. *)
(* ================================================================== *)

Module Examples.
Import Demo.

(** Evaluation of a closed run by the virtual machine. *)
Ltac by_run := lazymatch goal with |- _ = ?r => vm_cast_no_check (eq_refl r) end.

Lemma run_result {A B} (x : A * B) (a : A) : x.1 = a -> x = (a, x.2).
Proof. destruct x. simpl. by intros ->. Qed.

Lemma cmd_line_parse_exits_or_returns_witness :
  cmd_line_parse (Some ["nothing.h5"]%string) (start disk)
  = (Exit "ERROR: no input file found!", start disk).
Proof.
  refine (proj1 (proj1 (cmd_line_parse_exits_or_returns
    (Some ["nothing.h5"]%string) disk [] []
    (set_file ["nothing.h5"]%string defaults) disk [] disk _ _) _)).
  - by_run.
  - by_run.
  - reflexivity.
Defined.

Lemma update_attribute_geo_header_witness :
  exists σ' d,
    update_attribute 0%nat grid_options true (with_object coherence_atr) = (Ok 1%nat, σ') /\
    st_heap σ' !! 1%nat = Some d /\
    d !! "LENGTH"%string = Some (PInt 256) /\
    d !! "WIDTH"%string = Some (PInt 512) /\
    d !! "Y_FIRST"%string = Some (PFloat 2) /\
    d !! "X_FIRST"%string = Some (PFloat (-92)) /\
    d !! "Y_STEP"%string = Some (PFloat (-0.0078125)) /\
    d !! "X_STEP"%string = Some (PFloat 0.00390625).
Proof.
  assert (H256 : float_of_int 256 = Ok 256%float) by by_run.
  assert (H512 : float_of_int 512 = Ok 512%float) by by_run.
  assert (Hrun : update_attribute 0%nat grid_options true (with_object coherence_atr)
                 = (Ok 1%nat,
                    (update_attribute 0%nat grid_options true (with_object coherence_atr)).2)).
  { apply run_result. by_run. }
  destruct (proj1 (update_attribute_geo_header 0%nat grid_options true
              (with_object coherence_atr) 0 2 (-92) (-90) [] 256 512 eq_refl eq_refl)
              1%nat _ Hrun)
    as (d & flen & fwid & Hd & _ & _ & Hflen & Hfwid & H1 & H2 & H3 & H4 & H5 & H6).
  clear Hrun.
  rewrite H256 in Hflen. rewrite H512 in Hfwid.
  injection Hflen as <-. injection Hfwid as <-.
  eexists _, d. split; [apply run_result; by_run |]. split; [exact Hd |].
  repeat split; assumption.
Defined.

Lemma update_attribute_leaves_input_witness :
  st_heap (update_attribute 0%nat grid_options true (with_object velocity_atr)).2 !! 0%nat
  = Some velocity_atr
  /\ exists d,
       st_heap (update_attribute 0%nat grid_options true (with_object velocity_atr)).2
         !! 1%nat = Some d
       /\ d !! "FILE_TYPE"%string = Some (PStr "velocity").
Proof.
  assert (Hk : "FILE_TYPE"%string ∉ updated_keys) by (unfold updated_keys; solve_notin).
  assert (Hv : velocity_atr !! "FILE_TYPE"%string = Some (PStr "velocity")) by by_run.
  destruct (update_attribute_leaves_input 0%nat grid_options true
              (with_object velocity_atr) velocity_atr eq_refl) as [Hold Hnew].
  split; [exact (Hold 0%nat velocity_atr eq_refl) |].
  assert (Hok : (update_attribute 0%nat grid_options true (with_object velocity_atr)).1
                = Ok 1%nat) by by_run.
  destruct (Hnew 1%nat Hok) as (_ & d & Hd & Hkeep).
  exists d. split; [exact Hd |].
  rewrite (Hkeep _ Hk). exact Hv.
Defined.

Lemma read_template2inps_coerces_witness :
  exists inps',
    (read_template2inps "pysarApp_template.txt" (Some grid_options) (start disk)).1
    = Ok inps' /\
    SNWE inps' = Some [0.5; 1.5; -91.5; -90.5]%float /\
    latStep inps' = Some 0.001%float /\
    interpMethod inps' = PStr "bilinear" /\
    fillValue inps' = nan.
Proof.
  assert (Hread : read_template "pysarApp_template.txt" disk = (Ok geocode_template, disk))
    by by_run.
  assert (Hcheck : check_template_auto_value geocode_template disk
                   = (Ok checked_template, disk)) by reflexivity.
  assert (K1 : checked_template !! "pysar.geocode.SNWE"%string
               = Some (PStr "0.5,1.5,-91.5,-90.5")) by by_run.
  assert (K2 : checked_template !! "pysar.geocode.latStep"%string = Some (PStr "0.001"))
    by by_run.
  assert (K4 : checked_template !! "pysar.geocode.interpMethod"%string
               = Some (PStr "bilinear")) by by_run.
  assert (K5 : checked_template !! "pysar.geocode.fillValue"%string = Some (PStr "np.nan"))
    by by_run.
  assert (F1 : floats_of_strs (split "," "0.5,1.5,-91.5,-90.5")
               = Ok [0.5; 1.5; -91.5; -90.5]%float) by by_run.
  assert (F2 : float_of_str "0.001" = Some 0.001%float) by by_run.
  assert (N1 : "0.5,1.5,-91.5,-90.5"%string <> ""%string) by discriminate.
  assert (N2 : "0.001"%string <> ""%string) by discriminate.
  assert (N4 : "bilinear"%string <> ""%string) by discriminate.
  assert (N5 : "np.nan"%string <> ""%string) by discriminate.
  assert (Hrun : exists inps',
            read_template2inps "pysarApp_template.txt" (Some grid_options) (start disk)
            = (Ok inps', (read_template2inps "pysarApp_template.txt"
                            (Some grid_options) (start disk)).2)).
  { exists (set_fillValue nan (set_interpMethod (PStr "bilinear")
              (set_latStep (Some 0.001%float)
              (set_SNWE (Some [0.5; 1.5; -91.5; -90.5]%float) grid_options)))).
    apply run_result. by_run. }
  destruct Hrun as [inps' Hrun].
  destruct (read_template2inps_coerces "pysarApp_template.txt" grid_options disk [] []
              geocode_template disk checked_template disk inps' _ Hread Hcheck Hrun)
    as (H1 & H2 & _ & H4 & H5).
  exists inps'. split; [rewrite Hrun; reflexivity |]. clear Hrun.
  destruct (H1 _ K1 N1) as (fs & Hfs & ->).
  destruct (H2 _ K2 N2) as (f & Hf & ->).
  rewrite (H4 _ K4 N4).
  rewrite F1 in Hfs. rewrite F2 in Hf. injection Hfs as <-. injection Hf as <-.
  split; [reflexivity |]. split; [reflexivity |]. split; [reflexivity |].
  exact (H5 _ K5 N5).
Defined.

Lemma read_template2inps_recognized_witness :
  exists inps',
    (read_template2inps "pysarApp_template.txt" (Some grid_options) (start disk)).1
    = Ok inps' /\
    interpMethod inps' = PStr "bilinear" /\
    coerced_step (PStr "0.001") (latStep inps').
Proof.
  assert (Hread : read_template "pysarApp_template.txt" disk = (Ok geocode_template, disk))
    by by_run.
  assert (Hcheck : check_template_auto_value geocode_template disk
                   = (Ok checked_template, disk)) by reflexivity.
  assert (K2 : checked_template !! "pysar.geocode.latStep"%string = Some (PStr "0.001"))
    by by_run.
  assert (K4 : checked_template !! "pysar.geocode.interpMethod"%string
               = Some (PStr "bilinear")) by by_run.
  assert (Hrun : exists inps',
            read_template2inps "pysarApp_template.txt" (Some grid_options) (start disk)
            = (Ok inps', (read_template2inps "pysarApp_template.txt"
                            (Some grid_options) (start disk)).2)).
  { exists (set_fillValue nan (set_interpMethod (PStr "bilinear")
              (set_latStep (Some 0.001%float)
              (set_SNWE (Some [0.5; 1.5; -91.5; -90.5]%float) grid_options)))).
    apply run_result. by_run. }
  destruct Hrun as [inps' Hrun].
  destruct (proj2 (read_template2inps_recognized "pysarApp_template.txt" grid_options
                     disk [] [] geocode_template disk checked_template disk Hread Hcheck)
              inps' _ Hrun) as (_ & H2 & _ & H4 & _).
  exists inps'. split; [rewrite Hrun; reflexivity |]. clear Hrun. split.
  - exact (H4 _ K4 eq_refl).
  - exact (H2 _ K2 eq_refl).
Defined.


(** The template of geocode_only.txt has a true value for pysar.geocode
    and nothing else: the options come back as they went in, and with the
    value no it is the same. *)
Lemma read_template2inps_ignores_geocode :
  read_template "geocode_only.txt" disk = (Ok {["pysar.geocode"%string := PStr "yes"]}, disk)
  /\ truthy (auto_value (PStr "yes")) = true
  /\ (read_template2inps "geocode_only.txt" (Some grid_options) (start disk)).1
     = Ok grid_options.
Proof. split; [by_run | split; [reflexivity | by_run]]. Defined.


(** Metadata with a reference pixel outside of the lookup table and with
    a REF_LON but no REF_LAT: the run warns and removes REF_Y and REF_X,
    and the stale REF_LON is still there in what it returns. *)
Lemma update_attribute_keeps_REF_LON :
  stale_atr !! "REF_LAT"%string = None
  /\ (update_attribute 0%nat grid_options true (with_object stale_atr)).1 = Ok 1%nat
  /\ st_trace (update_attribute 0%nat grid_options true (with_object stale_atr)).2
     = [EvWarn out_of_coverage]
  /\ exists d,
       st_heap (update_attribute 0%nat grid_options true (with_object stale_atr)).2 !! 1%nat
       = Some d
       /\ d !! "REF_Y"%string = None /\ d !! "REF_X"%string = None
       /\ d !! "REF_LON"%string = Some (PStr "-91.8").
Proof.
  split; [by_run |]. split; [by_run |]. split; [by_run |].
  exists (drop_pair "REF_LAT" "REF_LON" (drop_pair "REF_Y" "REF_X"
            (geo_fields 256 512 2 (-92) (-0.0078125) 0.00390625 stale_atr))).
  split; [by_run |]. split; [by_run | split; by_run].
Defined.

Lemma main_geocodes_files_in_order_witness :
  steps (new_events (main two_files) (start disk))
  = [SNew (Some "geometryRadar.h5"%string) "velocity.h5" None None; SGeometry;
     SRead "velocity.h5"; SResample; SWrite "geo_velocity.h5" "velocity.h5";
     SRead "data/temporalCoherence.h5"; SResample;
     SWrite "data/geo_temporalCoherence.h5" "data/temporalCoherence.h5"].
Proof.
  assert (Hopt : options_stage two_files (start disk)
                 = (Ok two_files_options, (options_stage two_files (start disk)).2)).
  { apply run_result. by_run. }
  assert (Hmain : (main two_files (start disk)).1 = Ok tt) by by_run.
  destruct (main_geocodes_files_in_order two_files (start disk) _ _ Hopt)
    as (file0 & rest & Hfile & _ & Hall).
  clear Hopt.
  cbv zeta in Hall. rewrite (Hall Hmain). clear Hall Hmain.
  cbn [file two_files_options] in Hfile. injection Hfile as <- <-. reflexivity.
Defined.

Lemma main_resampler_ignores_lonStep_witness :
  let built := SNew (Some "geometryRadar.h5"%string) "velocity.h5"
                 (Some [0.5; 1.5; -91.5; -90.5]%float) (Some 0.001%float) in
  (exists calls,
     steps (new_events (main two_files) (start disk))
     = SNew (Some "geometryRadar.h5"%string) "velocity.h5" None None :: calls)
  /\ (exists calls calls',
        steps (new_events (main without_lonStep) (start disk)) = built :: calls /\
        steps (new_events (main with_template) (start disk)) = built :: calls')
  /\ (exists calls calls',
        steps (new_events (main without_lonStep) (start disk)) = built :: calls /\
        steps (new_events (main without_lonStep) (start lonStep_disk)) = built :: calls').
Proof.
  cbv zeta.
  assert (Hagree : forall k, k <> "pysar.geocode.lonStep"%string ->
            (auto_value <$> lonStep_template) !! k = checked_template !! k).
  { intros k Hk. unfold lonStep_template, checked_template.
    rewrite !lookup_fmap. f_equal. apply lookup_insert_ne. by intros <-. }
  split; [| split].
  - destruct (proj1 (main_resampler_ignores_lonStep (ext := demo)) two_files (start disk)
                two_files_options (options_stage two_files (start disk)).2
                0%float (time_time (st_world (options_stage two_files (start disk)).2)).2)
      as (file0 & calls & Hh & Hs & _).
    + apply run_result. by_run.
    + apply run_result. by_run.
    + cbn [file two_files_options head] in Hh. injection Hh as <-.
      exists calls. exact Hs.
  - destruct (proj1 (proj2 (proj2 (main_resampler_ignores_lonStep (ext := demo))))
                without_lonStep with_template (start disk)
                (set_templateFile (Some "pysarApp_template.txt"%string)
                   (set_file ["velocity.h5"%string] defaults))
                disk (Some 0.002%float)
                without_lonStep_options with_template_options
                (options_stage without_lonStep (start disk)).2
                (options_stage with_template (start disk)).2
                0%float (time_time (st_world (options_stage without_lonStep (start disk)).2)).2
                0%float (time_time (st_world (options_stage with_template (start disk)).2)).2)
      as (file0 & calls & calls' & Hh & Hs & Hs' & _).
    + by_run.
    + by_run.
    + apply run_result. by_run.
    + apply run_result. by_run.
    + apply run_result. by_run.
    + apply run_result. by_run.
    + cbn [file without_lonStep_options with_template_options set_laloStep set_lonStep head]
        in Hh. injection Hh as <-.
      exists calls, calls'. split; [exact Hs | exact Hs'].
  - destruct (proj2 (proj2 (proj2 (main_resampler_ignores_lonStep (ext := demo))))
                without_lonStep disk [] [] lonStep_disk [] []
                (set_laloStep None (set_lookupFile (Some "geometryRadar.h5"%string)
                   (set_templateFile (Some "pysarApp_template.txt"%string)
                      (set_file ["velocity.h5"%string] defaults))))
                (start disk) (start lonStep_disk) "pysarApp_template.txt"%string
                geocode_template disk checked_template disk
                lonStep_template lonStep_disk (auto_value <$> lonStep_template) lonStep_disk
                without_lonStep_options with_template_options
                (options_stage without_lonStep (start disk)).2
                (options_stage without_lonStep (start lonStep_disk)).2
                0%float (time_time (st_world (options_stage without_lonStep (start disk)).2)).2
                0%float
                (time_time (st_world (options_stage without_lonStep (start lonStep_disk)).2)).2)
      as (file0 & calls & calls' & Hh & Hs & Hs' & _).
    + by_run.
    + by_run.
    + reflexivity.
    + by_run.
    + reflexivity.
    + by_run.
    + reflexivity.
    + exact Hagree.
    + apply run_result. by_run.
    + apply run_result. by_run.
    + apply run_result. by_run.
    + apply run_result. by_run.
    + cbn [file without_lonStep_options with_template_options set_laloStep set_lonStep head]
        in Hh. injection Hh as <-.
      exists calls, calls'. split; [exact Hs | exact Hs'].
Defined.

Lemma main_writes_geo_names_witness :
  "data/geo_temporalCoherence.h5"%string
  = PosixPath.join (PosixPath.dirname "data/temporalCoherence.h5")
      ("geo_" +:+ PosixPath.basename "data/temporalCoherence.h5")
  /\ exists inps σ1,
       options_stage with_output (start disk) = (Ok inps, σ1) /\
       "data/temporalCoherence.h5"%string ∈ file inps.
Proof.
  apply (main_writes_geo_names with_output (start disk)).
  assert (Hs : steps (new_events (main with_output) (start disk))
               = [SNew (Some "geometryRadar.h5"%string) "data/temporalCoherence.h5" None None;
                  SGeometry; SRead "data/temporalCoherence.h5"; SResample;
                  SWrite "data/geo_temporalCoherence.h5" "data/temporalCoherence.h5"])
    by by_run.
  rewrite Hs. apply list_elem_of_In. do 4 right. left. reflexivity.
Defined.

(** *** The reference pixel *)

Lemma grid_header_inputs :
  header_inputs grid_options 256 512 0 2 (-92) (-90) (-0.0078125) 0.00390625.
Proof.
  split; [by exists [] |]. split; [reflexivity |]. split; by_run.
Qed.

Lemma update_attribute_reference_inside_witness :
  exists d,
    update_attribute 0%nat grid_options true (Build_state disk [velocity_atr] [])
    = (Ok 1%nat,
       Build_state disk ([velocity_atr] ++ [d]) ([] ++ [EvPrint "update REF_LAT/LON/Y/X"]))
    /\ d !! "REF_LAT"%string = Some (PStr (str_of_float 1.90234375))
    /\ d !! "REF_LON"%string = Some (PStr (str_of_float (-91.8046875)))
    /\ d !! "REF_Y"%string = Some (PStr (str_of_int 12))
    /\ d !! "REF_X"%string = Some (PStr (str_of_int 50))
    /\ (forall k, k ∉ ["REF_Y"; "REF_X"; "REF_LAT"; "REF_LON"]%string ->
          d !! k = geo_fields 256 512 2 (-92) (-0.0078125) 0.00390625 velocity_atr !! k).
Proof.
  apply (update_attribute_reference_inside 0%nat grid_options true disk [velocity_atr] []
           velocity_atr 256 512 0 2 (-92) (-90) (-0.0078125) 0.00390625
           (PStr "100") 100 (PStr "200") 200 1.90234375 (-91.8046875) disk 12 50).
  - reflexivity.
  - exact grid_header_inputs.
  - by_run.
  - by_run.
  - by_run.
  - by_run.
  - by_run.
  - by_run.
  - by_run.
  - by_run.
  - by_run.
Defined.

Lemma update_attribute_reference_outside_witness :
  exists d,
    update_attribute 0%nat grid_options true (Build_state disk [stale_atr] [])
    = (Ok 1%nat, Build_state disk ([stale_atr] ++ [d]) ([] ++ [EvWarn out_of_coverage]))
    /\ d !! "REF_Y"%string = None /\ d !! "REF_X"%string = None
    /\ (is_Some (stale_atr !! "REF_LAT"%string) ->
          d !! "REF_LAT"%string = None /\ d !! "REF_LON"%string = None)
    /\ (stale_atr !! "REF_LAT"%string = None ->
          d !! "REF_LAT"%string = None
          /\ d !! "REF_LON"%string = stale_atr !! "REF_LON"%string)
    /\ (forall k, k ∉ ["REF_Y"; "REF_X"; "REF_LAT"; "REF_LON"]%string ->
          d !! k = geo_fields 256 512 2 (-92) (-0.0078125) 0.00390625 stale_atr !! k).
Proof.
  apply (update_attribute_reference_outside 0%nat grid_options true disk [stale_atr] []
           stale_atr 256 512 0 2 (-92) (-90) (-0.0078125) 0.00390625
           (PStr "2000") 2000 (PStr "200") 200 nan nan disk).
  - reflexivity.
  - exact grid_header_inputs.
  - by_run.
  - by_run.
  - by_run.
  - by_run.
  - by_run.
  - left. reflexivity.
Defined.

Lemma update_attribute_reference_unreadable_witness :
  update_attribute 0%nat grid_options true (Build_state disk [half_atr] [])
  = (Raise (KeyError "REF_X"),
     Build_state disk
       ([half_atr] ++ [geo_fields 256 512 2 (-92) (-0.0078125) 0.00390625 half_atr]) []).
Proof.
  refine (proj1 (proj2 (update_attribute_reference_unreadable 0%nat grid_options true disk
            [half_atr] [] half_atr 256 512 0 2 (-92) (-90) (-0.0078125) 0.00390625
            (PStr "10") _ grid_header_inputs _)) 10 _ _).
  - reflexivity.
  - by_run.
  - by_run.
  - by_run.
Defined.

Lemma update_attribute_without_reference_witness :
  exists d,
    update_attribute 0%nat grid_options true (Build_state disk [coherence_atr] [])
    = (Ok 1%nat, Build_state disk ([coherence_atr] ++ [d]) [])
    /\ d !! "LENGTH"%string = Some (PInt 256) /\ d !! "WIDTH"%string = Some (PInt 512)
    /\ d !! "Y_FIRST"%string = Some (PFloat 2) /\ d !! "X_FIRST"%string = Some (PFloat (-92))
    /\ d !! "Y_STEP"%string = Some (PFloat (-0.0078125))
    /\ d !! "X_STEP"%string = Some (PFloat 0.00390625)
    /\ d !! "Y_UNIT"%string = Some (PStr "degrees")
    /\ d !! "X_UNIT"%string = Some (PStr "degrees")
    /\ (forall k,
          k ∉ ["LENGTH"; "WIDTH"; "Y_FIRST"; "X_FIRST"; "Y_STEP"; "X_STEP";
               "Y_UNIT"; "X_UNIT"]%string ->
          d !! k = coherence_atr !! k).
Proof.
  apply (update_attribute_without_reference 0%nat grid_options true disk [coherence_atr] []
           coherence_atr 256 512 0 2 (-92) (-90) (-0.0078125) 0.00390625).
  - reflexivity.
  - exact grid_header_inputs.
  - by_run.
Defined.

Lemma update_attribute_rejects_witness :
  (update_attribute 0%nat (set_outShape (Some [256]) grid_options) true
     (Build_state disk [coherence_atr] [])).1 = Raise ValueError
  /\ (update_attribute 0%nat (set_SNWE (Some [0; 2; -92]%float) grid_options) true
        (Build_state disk [coherence_atr] [])).1 = Raise IndexError.
Proof.
  split.
  - refine (proj1 (update_attribute_rejects 0%nat (set_outShape (Some [256]) grid_options)
              true disk [coherence_atr] [] coherence_atr _) [256] _ _).
    + reflexivity.
    + reflexivity.
    + simpl. lia.
  - refine (proj2 (proj2 (proj2 (update_attribute_rejects 0%nat
              (set_SNWE (Some [0; 2; -92]%float) grid_options)
              true disk [coherence_atr] [] coherence_atr _))) [] 256 512 0%float 2%float
              (-92)%float (-0.0078125)%float _ _ _).
    + reflexivity.
    + reflexivity.
    + reflexivity.
    + by_run.
Defined.

(** *** The template *)

Lemma read_template2inps_frame_witness :
  exists inps',
    (read_template2inps "pysarApp_template.txt" (Some grid_options) (start disk)).1
    = Ok inps'
    /\ lonStep inps' = lonStep grid_options
    /\ file inps' = file grid_options
    /\ laloStep inps' = lalo_step inps'.
Proof.
  assert (Hread : read_template "pysarApp_template.txt" disk = (Ok geocode_template, disk))
    by by_run.
  assert (Hcheck : check_template_auto_value geocode_template disk
                   = (Ok checked_template, disk)) by reflexivity.
  assert (Hskip : skipped checked_template "pysar.geocode.lonStep").
  { unfold skipped.
    assert (checked_template !! "pysar.geocode.lonStep"%string = Some PNone) as -> by by_run.
    reflexivity. }
  assert (Hrun : exists inps',
            read_template2inps "pysarApp_template.txt" (Some grid_options) (start disk)
            = (Ok inps', (read_template2inps "pysarApp_template.txt"
                            (Some grid_options) (start disk)).2)).
  { exists (set_fillValue nan (set_interpMethod (PStr "bilinear")
              (set_latStep (Some 0.001%float)
              (set_SNWE (Some [0.5; 1.5; -91.5; -90.5]%float) grid_options)))).
    apply run_result. by_run. }
  destruct Hrun as [inps' Hrun].
  destruct (read_template2inps_frame "pysarApp_template.txt" grid_options disk [] []
              geocode_template disk checked_template disk inps' _ Hread Hcheck Hrun)
    as (_ & (Hfile & _) & _ & _ & Hlon & _ & _ & Hlalo).
  exists inps'. split; [rewrite Hrun; reflexivity |]. clear Hrun.
  split; [exact (Hlon Hskip) |]. split; [exact Hfile | exact Hlalo].
Defined.

Lemma read_template2inps_without_options_witness :
  read_template2inps "pysarApp_template.txt" None (Build_state disk [] [])
  = read_template2inps "pysarApp_template.txt" (Some argv_options)
      (Build_state (st_world (start disk)) [] []).
Proof.
  assert (H : cmd_line_parse None (Build_state disk [] []) = (Ok argv_options, start disk))
    by by_run.
  exact (read_template2inps_without_options "pysarApp_template.txt" disk [] []
           (Ok argv_options) (start disk) H).
Defined.

Lemma read_template2inps_box_arity_witness :
  exists inps' fs,
    (read_template2inps "pysarApp_template.txt" (Some grid_options) (start disk)).1
    = Ok inps'
    /\ SNWE inps' = Some fs /\ length fs = 4%nat.
Proof.
  assert (Hread : read_template "pysarApp_template.txt" disk = (Ok geocode_template, disk))
    by by_run.
  assert (Hcheck : check_template_auto_value geocode_template disk
                   = (Ok checked_template, disk)) by reflexivity.
  assert (K1 : checked_template !! "pysar.geocode.SNWE"%string
               = Some (PStr "0.5,1.5,-91.5,-90.5")) by by_run.
  assert (N1 : "0.5,1.5,-91.5,-90.5"%string <> ""%string) by discriminate.
  assert (Hrun : exists inps',
            read_template2inps "pysarApp_template.txt" (Some grid_options) (start disk)
            = (Ok inps', (read_template2inps "pysarApp_template.txt"
                            (Some grid_options) (start disk)).2)).
  { exists (set_fillValue nan (set_interpMethod (PStr "bilinear")
              (set_latStep (Some 0.001%float)
              (set_SNWE (Some [0.5; 1.5; -91.5; -90.5]%float) grid_options)))).
    apply run_result. by_run. }
  destruct Hrun as [inps' Hrun].
  destruct (read_template2inps_box_arity "pysarApp_template.txt" grid_options disk [] []
              geocode_template disk checked_template disk inps' _ _ Hread Hcheck Hrun K1 N1)
    as (fs & Hfs & Hlen).
  exists inps', fs. split; [rewrite Hrun; reflexivity |]. clear Hrun.
  split; [exact Hfs | exact Hlen].
Defined.

Lemma read_template2inps_not_text_witness :
  read_template2inps "yes.txt" (Some grid_options) (Build_state yes_disk [] [])
  = (Raise AttributeError,
     Build_state yes_disk []
       ([] ++ [EvPrint ("read input option from template file: " +:+ "yes.txt")])).
Proof.
  refine (proj1 (read_template2inps_not_text "yes.txt" grid_options yes_disk [] []
            {["pysar.geocode.SNWE"%string := PStr "yes"]} yes_disk
            (auto_value <$> {["pysar.geocode.SNWE"%string := PStr "yes"]}) yes_disk
            (PBool true) _ _ _ _) _).
  - by_run.
  - reflexivity.
  - reflexivity.
  - intros s. discriminate.
  - by_run.
Defined.

(** *** The options of a run *)

Lemma options_stage_resolved_witness :
  file with_template_options <> []
  /\ str_truthy (lookupFile with_template_options) = true
  /\ laloStep with_template_options = lalo_step with_template_options.
Proof.
  apply (options_stage_resolved with_template (start disk) with_template_options
           (options_stage with_template (start disk)).2).
  apply run_result. by_run.
Defined.

(** *** One file *)

Lemma geocode_file_writes_header_witness :
  header_of (grid_header coherence_atr) [256; 512] 0 2 (-92) (-90).
Proof.
  assert (Hin : EvWrite [256; 512] (grid_header coherence_atr)
                  "data/geo_temporalCoherence.h5" "data/temporalCoherence.h5"
                ∈ new_events (geocode_file "data/temporalCoherence.h5" grid_options None None)
                    (start disk)).
  { apply (list_elem_of_lookup_2 _ 4%nat). by_run. }
  destruct (geocode_file_writes_header _ _ _ _ _ _ _ _ _ Hin)
    as (_ & _ & _ & S & N & W & E & rest & Hsnwe & Hh).
  clear Hin. cbn [SNWE grid_options] in Hsnwe. injection Hsnwe as <- <- <- <- <-.
  exact Hh.
Defined.

Lemma geocode_file_returns_witness :
  exists data atr evs w,
    new_events (geocode_file "data/temporalCoherence.h5" grid_options None None) (start disk)
    = evs ++ [EvWrite data atr "data/geo_temporalCoherence.h5" "data/temporalCoherence.h5"]
    /\ writefile_write data atr "data/geo_temporalCoherence.h5" "data/temporalCoherence.h5" w
       = (Ok tt, st_world (geocode_file "data/temporalCoherence.h5" grid_options None None
                             (start disk)).2)
    /\ set_outShape (Some [256; 512]) grid_options
       = set_outShape (Some (np_shape data)) grid_options.
Proof.
  apply (geocode_file_returns "data/temporalCoherence.h5" grid_options None None (start disk)
           "data/geo_temporalCoherence.h5" (set_outShape (Some [256; 512]) grid_options)
           (geocode_file "data/temporalCoherence.h5" grid_options None None (start disk)).2).
  apply run_result. by_run.
Defined.

Lemma geocode_file_resamples_input_witness :
  None = (None : resampler) /\ src_def grid_options = Some tt /\ dest_def grid_options = Some tt
  /\ PStr "nearest" = interpMethod grid_options /\ nan = fillValue grid_options
  /\ exists data0 atr0 w1,
       readfile_read "timeseries.h5" disk = (Ok (data0, atr0), w1)
       /\ [1000; 900; 12]
          = if Nat.eqb (length (np_shape data0)) 3 then np_moveaxis data0 0 (-1) else data0.
Proof.
  apply (geocode_file_resamples_input "timeseries.h5" grid_options None None disk [] []
           None [1000; 900; 12] tt tt (PStr "nearest") nan).
  apply (list_elem_of_lookup_2 _ 3%nat). by_run.
Defined.

Lemma geocode_file_writes_input_witness :
  exists data0 atr0 w1 src dst geo w2,
    readfile_read "timeseries.h5" disk = (Ok (data0, atr0), w1)
    /\ resample_resample None
         (if Nat.eqb (length (np_shape data0)) 3 then np_moveaxis data0 0 (-1) else data0)
         src dst (interpMethod grid_options) (fillValue grid_options) w1 = (Ok geo, w2)
    /\ [12; 256; 512]
       = (if Nat.eqb (length (np_shape geo)) 3 then np_moveaxis geo (-1) 0 else geo)
    /\ forall k, k ∉ updated_keys -> grid_header coherence_atr !! k = atr0 !! k.
Proof.
  apply (geocode_file_writes_input "timeseries.h5" grid_options None None disk [] []
           [12; 256; 512] (grid_header coherence_atr) "geo_timeseries.h5" "timeseries.h5").
  apply (list_elem_of_lookup_2 _ 4%nat). by_run.
Defined.

(** *** A whole run *)

Lemma main_writes_headers_witness :
  exists inps σ1 file0 others start_time w1 res_obj w2 src dst S N W E rest w3,
    options_stage two_files (start disk) = (Ok inps, σ1)
    /\ file inps = file0 :: others
    /\ "data/temporalCoherence.h5"%string ∈ file inps
    /\ time_time (st_world σ1) = (Ok start_time, w1)
    /\ resample_new (lookupFile inps) file0 (SNWE inps) (latStep inps) w1 = (Ok res_obj, w2)
    /\ get_geometry_definition res_obj w2
       = (Ok (src, dst, Some (S :: N :: W :: E :: rest)), w3)
    /\ header_of (grid_header coherence_atr) [256; 512] S N W E.
Proof.
  apply (main_writes_headers two_files (start disk) [256; 512] (grid_header coherence_atr)
           "data/geo_temporalCoherence.h5" "data/temporalCoherence.h5").
  apply (list_elem_of_lookup_2 _ 12%nat). by_run.
Defined.

Lemma geocoding_stage_reads_witness :
  geocoding_stage
    (set_lonStep (Some 0.002%float) (set_outfile (Some ["out.h5"%string]) two_files_options))
    (start disk)
  = geocoding_stage two_files_options (start disk).
Proof.
  apply (geocoding_stage_reads two_files_options
           (set_lonStep (Some 0.002%float)
              (set_outfile (Some ["out.h5"%string]) two_files_options)) (start disk));
    reflexivity.
Defined.

Lemma main_resamples_with_options_witness :
  exists inps σ1 file0 others start_time w1 w2 snwe w3,
    options_stage with_template (start disk) = (Ok inps, σ1)
    /\ file inps = file0 :: others
    /\ time_time (st_world σ1) = (Ok start_time, w1)
    /\ resample_new (lookupFile inps) file0 (SNWE inps) (latStep inps) w1
       = (Ok (Some [0.5; 1.5; -91.5; -90.5]%float), w2)
    /\ get_geometry_definition (Some [0.5; 1.5; -91.5; -90.5]%float) w2
       = (Ok (tt, tt, snwe), w3)
    /\ PStr "bilinear" = interpMethod inps /\ nan = fillValue inps.
Proof.
  apply (main_resamples_with_options with_template (start disk)
           (Some [0.5; 1.5; -91.5; -90.5]%float) [1000; 900] tt tt (PStr "bilinear") nan).
  apply (list_elem_of_lookup_2 _ 6%nat). by_run.
Defined.

End Examples.
